(** * Derived variables of the WRF monthly averaging (derived_variables_mm.py)

    A shallow embedding of the derived-variable classes of
    [Python/wrfavg/derived_variables_mm.py] and of the helpers
    [getTimeStamp], [ctrDiff] and [pressureIntegral], followed by the
    properties of the compute and aggregation stages.

    Conventions of the embedding.
    - A Python exception is a value [Raise e] of the [result] type; a call
      that returns is [Ok v].
    - Field values are exact rationals extended by a not-a-number element
      ([num]); rounding of the float32/float64 storage is not modelled.  The
      wet-day indicator, whose boundary behaviour is a statement about
      neighbouring binary64 numbers, is modelled on the primitive floats, and
      so are the other threshold indicators (wet-day rain, frost days,
      summer days).
    - An array with a leading time axis is a list of time slices, each slice
      the flattened list of grid points (aggax = 0, the default of every
      method, is the axis the embedding aggregates over).
    - The dictionaries [indata], [const] and [tmp] are finite maps with
      string keys; the object attributes that a method assigns are returned
      as an updated record next to the result. *)

From Stdlib Require Import Ascii ZArith QArith Qabs Qround Lia Lqa Floats.
From stdpp Require Import base option list strings pretty gmap.

Local Open Scope Z_scope.

(** ** Exceptions and results *)

Inductive exn : Type :=
  | TypeError
  | ValueError
  | KeyError
  | ZeroDivisionError
  | AssertionError
  | IndexError
  | NameError
  | NotImplementedError
  | DerivedVariableError.

Inductive result (A : Type) : Type :=
  | Ok (a : A)
  | Raise (e : exn).
Arguments Ok {A} a.
Arguments Raise {A} e.

Definition rbind {A B} (r : result A) (k : A -> result B) : result B :=
  match r with
  | Ok a => k a
  | Raise e => Raise e
  end.

Notation "x <-- r ;; k" := (rbind r (fun x => k))
  (at level 100, r at next level, right associativity).
Notation "r ;;; k" := (rbind r (fun _ => k))
  (at level 100, right associativity).

(** [dict[key]]: a missing key raises KeyError. *)
Definition getitem {V} (d : gmap string V) (key : string) : result V :=
  match d !! key with
  | Some v => Ok v
  | None => Raise KeyError
  end.

(** ** Numbers with a not-a-number element *)

Inductive num : Type :=
  | NaN
  | Num (q : Q).

Definition isnan (x : num) : bool :=
  match x with NaN => true | Num _ => false end.

Definition nadd (x y : num) : num :=
  match x, y with
  | Num a, Num b => Num (a + b)
  | _, _ => NaN
  end.

Definition ndivq (x : num) (d : Q) : num :=
  match x with
  | Num a => if Qeq_bool d 0 then NaN else Num (a / d)
  | NaN => NaN
  end.

(** np.nan_to_num on one element. *)
Definition nan_to_num (x : num) : num :=
  match x with NaN => Num 0 | Num a => Num a end.

(** np.maximum / np.minimum propagate a NaN operand; np.fmax / np.fmin
    return the other operand. *)
Definition qmax (a b : Q) : Q := if Qle_bool a b then b else a.
Definition qmin (a b : Q) : Q := if Qle_bool a b then a else b.

Definition np_maximum (x y : num) : num :=
  match x, y with
  | Num a, Num b => Num (qmax a b)
  | _, _ => NaN
  end.

Definition np_minimum (x y : num) : num :=
  match x, y with
  | Num a, Num b => Num (qmin a b)
  | _, _ => NaN
  end.

Definition np_fmax (x y : num) : num :=
  match x, y with
  | Num a, Num b => Num (qmax a b)
  | NaN, y => y
  | x, NaN => x
  end.

Definition np_fmin (x y : num) : num :=
  match x, y with
  | Num a, Num b => Num (qmin a b)
  | NaN, y => y
  | x, NaN => x
  end.

(** Equality of field values up to the representation of a rational. *)
Definition num_eq (x y : num) : Prop :=
  match x, y with
  | NaN, NaN => True
  | Num a, Num b => (a == b)%Q
  | _, _ => False
  end.

Definition num_eqb (x y : num) : bool :=
  match x, y with
  | NaN, NaN => true
  | Num a, Num b => Qeq_bool a b
  | _, _ => false
  end.

(** ** Arrays *)

(** A one-dimensional array (one time slice, or an aggregated field). *)
Abbreviation field := (list num).
(** A chunk: the list of its time slices. *)
Abbreviation chunk := (list (list num)).

(** [a.size] of a chunk whose slices have the width of the first one. *)
Definition width {A} (c : list (list A)) : nat :=
  match c with
  | [] => 0%nat
  | r :: _ => length r
  end.

Definition size {A} (c : list (list A)) : nat := (length c * width c)%nat.

(** Element-wise binary operation on two arrays of one shape; arrays of
    different shapes raise (numpy: operands could not be broadcast). *)
Fixpoint ewise {A B C} (f : A -> B -> C) (a : list A) (b : list B)
  : result (list C) :=
  match a, b with
  | [], [] => Ok []
  | x :: a', y :: b' => r <-- ewise f a' b' ;; Ok (f x y :: r)
  | _, _ => Raise ValueError
  end.

Fixpoint ewise2 {A B C} (f : A -> B -> C) (a : list (list A)) (b : list (list B))
  : result (list (list C)) :=
  match a, b with
  | [], [] => Ok []
  | x :: a', y :: b' =>
      r0 <-- ewise f x y ;; r <-- ewise2 f a' b' ;; Ok (r0 :: r)
  | _, _ => Raise ValueError
  end.

(** Reduction of a chunk along the time axis, slice by slice, starting from
    the neutral field [init] (np.sum, np.nansum). *)
Definition reduce0 (f : num -> num -> num) (init : field) (c : chunk) : field :=
  foldl (zip_with f) init c.

Definition zeros (n : nat) : field := replicate n (Num 0).

(** np.sum(c, axis=0). *)
Definition np_sum (c : chunk) : field := reduce0 nadd (zeros (width c)) c.

(** np.nansum(c, axis=0): a NaN counts as zero. *)
Definition np_nansum (c : chunk) : field :=
  reduce0 (fun s x => nadd s (nan_to_num x)) (zeros (width c)) c.

(** np.mean(c, axis=0). *)
Definition np_mean (c : chunk) : field :=
  map (fun s => ndivq s (inject_Z (Z.of_nat (length c)))) (np_sum c).

(** Number of samples of each grid point that are not NaN. *)
Definition np_count (c : chunk) : field :=
  reduce0 (fun s x => if isnan x then s else nadd s (Num 1)) (zeros (width c)) c.

(** np.nanmean(c, axis=0): the mean of the samples that are not NaN; NaN
    where there is none. *)
Definition np_nanmean (c : chunk) : field :=
  zip_with (fun s k => match k with Num k' => ndivq s k' | NaN => NaN end)
           (np_nansum c) (np_count c).

(** np.max(c) over all elements: a NaN element makes the result NaN; an
    empty array raises ValueError. *)
Definition np_max_all (c : chunk) : result num :=
  match concat c with
  | [] => Raise ValueError
  | x :: l => Ok (foldl np_maximum x l)
  end.

(** [x > q] on one element: a comparison with NaN is False. *)
Definition num_gtb (x : num) (q : Q) : bool :=
  match x with
  | Num a => negb (Qle_bool a q)
  | NaN => false
  end.

Definition num_ltb (x : num) (q : Q) : bool :=
  match x with
  | Num a => negb (Qle_bool q a)
  | NaN => false
  end.

Definition nsub (x y : num) : num :=
  match x, y with
  | Num a, Num b => Num (a - b)
  | _, _ => NaN
  end.

Definition nmul (x y : num) : num :=
  match x, y with
  | Num a, Num b => Num (a * b)
  | _, _ => NaN
  end.

(** ** Storage collaborators *)

Inductive dtype : Type := float32 | int16.

Inductive attval : Type :=
  | AStr (s : string)
  | AFloat (x : float).

(** A netCDF dataset, as far as the module looks at it: the names of its
    variables. *)
Record Dataset : Type := { variables : gset string }.

(** ** The base class *)

Module DerivedVariable.

Record t : Type := {
  name : string;
  units : string;
  prerequisites : list string;
  constants : option (list string);
  linear : bool;
  normalize : bool;
  ignoreNaN : bool;
  checked : bool;
  tmpdata : option string;
  carryover : bool;
  axes : list string;
  dtype_ : option dtype;
  atts : gmap string attval
}.

(** Assignment of the temporary-storage attributes by a subclass. *)
Definition set_tmpdata (key : option string) (carry : bool) (self : t) : t :=
  {| name := name self; units := units self;
     prerequisites := prerequisites self; constants := constants self;
     linear := linear self; normalize := normalize self;
     ignoreNaN := ignoreNaN self; checked := checked self;
     tmpdata := key; carryover := carry;
     axes := axes self; dtype_ := dtype_ self; atts := atts self |}.

Definition set_name (n : string) (a : gmap string attval) (self : t) : t :=
  {| name := n; units := units self;
     prerequisites := prerequisites self; constants := constants self;
     linear := linear self; normalize := normalize self;
     ignoreNaN := ignoreNaN self; checked := checked self;
     tmpdata := tmpdata self; carryover := carryover self;
     axes := axes self; dtype_ := dtype_ self; atts := a |}.

Definition set_checked (b : bool) (self : t) : t :=
  {| name := name self; units := units self;
     prerequisites := prerequisites self; constants := constants self;
     linear := linear self; normalize := normalize self;
     ignoreNaN := ignoreNaN self; checked := b;
     tmpdata := tmpdata self; carryover := carryover self;
     axes := axes self; dtype_ := dtype_ self; atts := atts self |}.

(** The constructor, called with a name and units by every class of the
    module (the branch that reads them from [atts] is not used). *)
Definition __init__ (name_ units_ : string) (prerequisites_ : list string)
    (constants_ : option (list string)) (axes_ : list string)
    (dt : option dtype) (atts_ : option (gmap string attval))
    (linear_ ignoreNaN_ normalize_ : bool) : t :=
  let a := default ∅ atts_ in
  {| name := name_; units := units_;
     prerequisites := prerequisites_; constants := constants_;
     linear := linear_; normalize := normalize_; ignoreNaN := ignoreNaN_;
     checked := false; tmpdata := None; carryover := false;
     axes := axes_; dtype_ := dt;
     atts := <["units" := AStr units_]> (<["name" := AStr name_]> a) |}.

(** One pass of the loop over the prerequisites. *)
Definition check_prerequisite (target : Dataset)
    (varmap : option (gmap string string)) (check : bool) (var : string) : bool :=
  let var' := match varmap with
              | Some m => default var (m !! var)
              | None => var
              end in
  if decide (var' ∈ variables target) then check else false.

Definition check_constant (const : Dataset) (check : bool) (var : string) : bool :=
  if decide (var ∈ variables const) then check else false.

(** checkPrerequisites returns the updated object and the flag. *)
Definition checkPrerequisites (self : t) (target : Dataset)
    (const : option Dataset) (varmap : option (gmap string string))
  : result (t * bool) :=
  let check := foldl (check_prerequisite target varmap) true (prerequisites self) in
  check' <-- match const with
             | None => Ok check
             | Some c =>
                 match constants self with
                 | None => Raise TypeError
                 | Some cs => Ok (foldl (check_constant c) check cs)
                 end
             end ;;
  Ok (set_checked check' self, check').

(** The arguments of the call of add_var (utils.nctools). *)
Record add_var_call : Type := {
  av_name : string;
  av_dims : list string;
  av_atts : gmap string attval;
  av_dtype : option dtype
}.

Section CreateVariable.
Context {NCVar : Type}.
(** add_var belongs to utils.nctools; it is a parameter here. *)
Variable add_var : Dataset -> add_var_call -> NCVar.

Definition createVariable (self : t) (target : Dataset) : result NCVar :=
  if negb (checked self) then Raise DerivedVariableError
  else Ok (add_var target {| av_name := name self; av_dims := axes self;
                             av_atts := atts self; av_dtype := dtype_ self |}).
End CreateVariable.

(** The checks of the base computeValues; its value, NotImplemented, is
    dropped by every caller. The arguments indata, aggax, delta and tmp
    are type-checked only. *)
Definition computeValues {V} (self : t) (const : option (gmap string V))
  : result unit :=
  if negb (checked self) then Raise DerivedVariableError
  else
    match constants self with
    | Some (_ :: _) =>
        match const with
        | None => Raise ValueError
        | Some c => if decide (c = ∅) then Raise ValueError else Ok tt
        end
    | _ => Ok tt
    end.

(** The default aggregation. [comdata] is optional in the model because
    the method tests it against None. *)
Definition aggregateValues (self : t) (comdata : option chunk)
    (aggdata : option field) : result (option field) :=
  match comdata with
  | None => Raise TypeError
  | Some c =>
      if (0 <? size c)%nat then
        match aggdata with
        | None =>
            if normalize self then Raise DerivedVariableError
            else if ignoreNaN self then Ok (Some (np_nanmean c))
            else Ok (Some (np_mean c))
        | Some a =>
            if negb (normalize self) then Raise DerivedVariableError
            else if ignoreNaN self
              then (s <-- ewise nadd a (np_nansum c) ;; Ok (Some s))
              else (s <-- ewise nadd a (np_sum c) ;; Ok (Some s))
        end
      else Ok aggdata
  end.

End DerivedVariable.

(** ** String formatting of the constructors *)

(** ['{:03d}'.format(z)]: decimal, zero-padded to three characters, the
    sign counted in. *)
Definition fmt03d (z : Z) : string :=
  let digits := pretty (Z.abs_N z) in
  let sign := if z <? 0 then "-"%string else ""%string in
  let pad := (3 - String.length sign - String.length digits)%nat in
  sign +:+ String.concat "" (replicate pad "0"%string) +:+ digits.

(** [int(x)] of a binary64 number: truncation towards zero; a NaN raises
    ValueError and an infinity OverflowError (ValueError's sibling, kept as
    ValueError here since nothing distinguishes them). *)
Definition int_of_float (x : float) : result Z :=
  match Prim2SF x with
  | S754_zero _ => Ok 0
  | S754_finite s m e =>
      let mag := if 0 <=? e then Z.pos m * 2 ^ e else Z.pos m / 2 ^ (- e) in
      Ok (if s then - mag else mag)
  | S754_infinity _ => Raise ValueError
  | S754_nan => Raise ValueError
  end.

(** ** Additive and ratio variables *)

Definition axes3 : list string := ["time"; "south_north"; "west_east"]%string.

Module Rain.

Definition __init__ : DerivedVariable.t :=
  DerivedVariable.__init__ "RAIN" "kg/m^2/s" ["RAINNC"; "RAINC"]%string None
    axes3 (Some float32) None true false true.

Definition computeValues {V} (self : DerivedVariable.t)
    (indata : gmap string chunk) (delta : option Q)
    (const : option (gmap string V)) : result chunk :=
  DerivedVariable.computeValues self const ;;;
  match delta with
  | Some d => if Qeq_bool d 0 then Raise ValueError else Ok tt
  | None => Ok tt
  end ;;;
  RAINNC <-- getitem indata "RAINNC" ;;
  RAINC <-- getitem indata "RAINC" ;;
  ewise2 nadd RAINNC RAINC.

End Rain.

Module WetDayPrecip.

Record t : Type := {
  base : DerivedVariable.t;
  wetdays : string;
  wetdayrain : string
}.

Definition __init__ (threshold : float) (rain : string) (ignoreNaN : bool)
  : result t :=
  n <-- int_of_float (10 * threshold)%float ;;
  let name := ("WetDayPrecip_" +:+ fmt03d n)%string in
  let wetdays_ := ("WetDays_" +:+ fmt03d n)%string in
  let wetdayrain_ := ("WetDayRain_" +:+ fmt03d n)%string in
  let threshold' := (threshold / 86400)%float in
  Ok {| base := DerivedVariable.__init__ name "kg/m^2/s"
                  [wetdayrain_; wetdays_] None axes3 (Some float32)
                  (Some {["threshold" := AFloat threshold']}) true ignoreNaN true;
        wetdays := wetdays_;
        wetdayrain := wetdayrain_ |}.

(** One element of np.where(wetdays == 0, 0., wetdayrain / wetdays); the
    quotient at a zero divisor is never selected. *)
Definition ratio (wd r : num) : num :=
  match wd with
  | Num d => if Qeq_bool d 0 then Num 0
             else match r with Num a => Num (a / d) | NaN => NaN end
  | NaN => NaN
  end.

Definition computeValues {V} (self : t) (indata : gmap string chunk)
    (const : option (gmap string V)) : result chunk :=
  DerivedVariable.computeValues (base self) const ;;;
  wd <-- getitem indata (wetdays self) ;;
  r <-- getitem indata (wetdayrain self) ;;
  ewise2 ratio wd r.

End WetDayPrecip.

Module LiquidPrecipSR.

Definition __init__ : DerivedVariable.t :=
  DerivedVariable.__init__ "LiquidPrecip_SR" "kg/m^2/s" ["RAIN"; "SR"]%string
    None axes3 (Some float32) None false false true.

Definition computeValues {V} (self : DerivedVariable.t)
    (indata : gmap string chunk) (const : option (gmap string V))
  : result chunk :=
  DerivedVariable.computeValues self const ;;;
  RAIN <-- getitem indata "RAIN" ;;
  SR <-- getitem indata "SR" ;;
  m <-- np_max_all SR ;;
  if num_gtb m 1
  then ewise2 (fun r sr => nmul r (nsub (Num 1) (ndivq sr 2))) RAIN SR
  else ewise2 (fun r sr => nmul r (nsub (Num 1) sr)) RAIN SR.

End LiquidPrecipSR.

Module SolidPrecipSR.

Definition __init__ : DerivedVariable.t :=
  DerivedVariable.__init__ "SolidPrecip_SR" "kg/m^2/s" ["RAIN"; "SR"]%string
    None axes3 (Some float32) None false false true.

Definition computeValues {V} (self : DerivedVariable.t)
    (indata : gmap string chunk) (const : option (gmap string V))
  : result chunk :=
  DerivedVariable.computeValues self const ;;;
  RAIN <-- getitem indata "RAIN" ;;
  SR <-- getitem indata "SR" ;;
  outdata <-- ewise2 nmul RAIN SR ;;
  m <-- np_max_all SR ;;
  if num_gtb m 1
  then Ok (map (map (fun x => ndivq x 2)) outdata)
  else Ok outdata.

End SolidPrecipSR.

(** ** The temporary storage *)

(** The values that the classes of the module keep in [tmp]: an output
    interval, the counters of a consecutive-exceedance variable, and the
    samples held back by an interval-averaged extremum. *)
Inductive tmpval : Type :=
  | TDelta (d : option Q)
  | TCount (x : list Z)
  | TData (a : chunk).

Abbreviation tmpdict := (gmap string tmpval).

(** [delta != stored] for two optional intervals. *)
Definition delta_neqb (d1 d2 : option Q) : bool :=
  match d1, d2 with
  | Some a, Some b => negb (Qeq_bool a b)
  | None, None => false
  | _, _ => true
  end.

(** ** The wet-day indicator, on binary64 numbers *)

Module WetDays.

Record t : Type := {
  base : DerivedVariable.t;
  threshold : float;
  rain : string
}.

Definition __init__ (threshold_ : float) (rain_ : string) (ignoreNaN : bool)
  : result t :=
  n <-- int_of_float (10 * threshold_)%float ;;
  let name := ("WetDays_" +:+ fmt03d n)%string in
  let threshold' := (threshold_ / 86400)%float in
  Ok {| base := DerivedVariable.__init__ name "" [rain_] None axes3
                  (Some float32) (Some {["threshold" := AFloat threshold']})
                  false ignoreNaN true;
        threshold := threshold';
        rain := rain_ |}.

(** The result is a boolean array, or a float array when NaNs are kept. *)
Inductive out : Type :=
  | BoolArray (a : list (list bool))
  | FloatArray (a : list (list float)).

(** The check that the output interval does not change. A missing
    interval cannot be formatted into the message of the exception, which
    raises TypeError in its place. *)
Definition check_delta (delta : option Q) (tmp : option tmpdict)
  : result (option tmpdict) :=
  match tmp with
  | None => Ok None
  | Some d =>
      match d !! "WETDAYS_DELTA"%string with
      | Some (TDelta d') =>
          if delta_neqb delta d'
          then match delta with
               | Some _ => Raise NotImplementedError
               | None => Raise TypeError
               end
          else Ok tmp
      | Some _ => Raise ValueError
      | None => Ok (Some (<["WETDAYS_DELTA"%string := TDelta delta]> d))
      end
  end.

(** np.where(x > threshold, 1, 0), then np.where(isnan(x), NaN, .). *)
Definition indicator_nan (thr x : float) : float :=
  if PrimFloat.is_nan x then PrimFloat.nan
  else if PrimFloat.ltb thr x then 1%float else 0%float.

Definition computeValues {V} (self : t)
    (indata : gmap string (list (list float))) (delta : option Q)
    (const : option (gmap string V)) (tmp : option tmpdict)
  : result (out * option tmpdict) :=
  DerivedVariable.computeValues (base self) const ;;;
  tmp' <-- check_delta delta tmp ;;
  x <-- getitem indata (rain self) ;;
  if DerivedVariable.ignoreNaN (base self)
  then Ok (FloatArray (map (map (indicator_nan (threshold self))) x), tmp')
  else Ok (BoolArray (map (map (PrimFloat.ltb (threshold self))) x), tmp').


End WetDays.

(** ** Extrema *)

(** np.max(c, axis=0) and np.min(c, axis=0): no time step raises. *)
Definition reduce1 (f : num -> num -> num) (c : chunk) : result field :=
  match c with
  | [] => Raise ValueError
  | r :: rs => Ok (foldl (zip_with f) r rs)
  end.

Definition upper_ascii (c : ascii) : ascii :=
  let n := nat_of_ascii c in
  if ((97 <=? n) && (n <=? 122))%nat then ascii_of_nat (n - 32) else c.

Definition lower_ascii (c : ascii) : ascii :=
  let n := nat_of_ascii c in
  if ((65 <=? n) && (n <=? 90))%nat then ascii_of_nat (n + 32) else c.

Fixpoint lower (s : string) : string :=
  match s with
  | EmptyString => EmptyString
  | String c r => String (lower_ascii c) (lower r)
  end.

(** [s[0].upper() + s[1:]]. *)
Definition capitalize (s : string) : result string :=
  match s with
  | EmptyString => Raise IndexError
  | String c r => Ok (String (upper_ascii c) r)
  end.

(** The variable an extremum is taken of: a derived variable or a variable
    of the netCDF source. *)
Inductive source_var : Type :=
  | FromDerived (v : DerivedVariable.t)
  | FromNetCDF (ncname : string) (dimensions : list string) (ncunits : string)
               (ncdtype : option dtype).

Definition var_name (v : source_var) : string :=
  match v with
  | FromDerived d => DerivedVariable.name d
  | FromNetCDF n _ _ _ => n
  end.

Definition var_axes (v : source_var) : list string :=
  match v with
  | FromDerived d => DerivedVariable.axes d
  | FromNetCDF _ dims _ _ => dims
  end.

Definition var_atts (v : source_var) : gmap string attval :=
  match v with
  | FromDerived d => DerivedVariable.atts d
  | FromNetCDF _ _ _ _ => ∅
  end.

Definition var_units (v : source_var) : string :=
  match v with
  | FromDerived d => DerivedVariable.units d
  | FromNetCDF _ _ u _ => u
  end.

Definition var_dtype (v : source_var) : option dtype :=
  match v with
  | FromDerived d => DerivedVariable.dtype_ d
  | FromNetCDF _ _ _ dt => dt
  end.

(** [[dimmap[dim] if dim in dimmap else dim for dim in axes]]. *)
Definition map_axes (dimmap : option (gmap string string)) (ax : list string)
  : list string :=
  match dimmap with
  | Some m => map (fun dim => default dim (m !! dim)) ax
  | None => ax
  end.

Definition set_long_name (long_name : option string) (a : gmap string attval)
  : gmap string attval :=
  match long_name with
  | Some l => <["long_name"%string := AStr l]> a
  | None => a
  end.

Inductive exmode : Type := MinMode | MaxMode.

Module Extrema.

Record t : Type := {
  base : DerivedVariable.t;
  mode : exmode
}.

(** A mode other than max or min leaves the local names of the
    constructor unbound. *)
Definition __init__ (var : source_var) (mode_ : string) (name : option string)
    (long_name : option string) (dimmap : option (gmap string string))
    (ignoreNaN : bool) : result t :=
  let varname := var_name var in
  sel <-- (if String.eqb (lower mode_) "max"
           then Ok ("Monthly Maximum", "Max", MaxMode)
           else if String.eqb (lower mode_) "min"
           then Ok ("Monthly Minimum", "Min", MinMode)
           else Raise NameError)%string ;;
  let '(aggregation, prefix, exm) := sel in
  let a := set_long_name long_name
             (<["Aggregation"%string := AStr aggregation]> (var_atts var)) in
  name' <-- match name with
            | Some n => Ok n
            | None => c <-- capitalize varname ;; Ok (prefix +:+ c)
            end ;;
  Ok {| base := DerivedVariable.__init__ name' (var_units var) [varname] None
                  (map_axes dimmap (var_axes var)) (var_dtype var) (Some a)
                  false ignoreNaN false;
        mode := exm |}.

Definition computeValues {V} (self : t) (indata : gmap string chunk)
    (const : option (gmap string V)) : result field :=
  DerivedVariable.computeValues (base self) const ;;;
  v <-- match DerivedVariable.prerequisites (base self) with
        | v :: _ => Ok v
        | [] => Raise IndexError
        end ;;
  data <-- getitem indata v ;;
  match mode self with
  | MaxMode =>
      if DerivedVariable.ignoreNaN (base self) then reduce1 np_fmax data
      else reduce1 np_maximum data
  | MinMode =>
      if DerivedVariable.ignoreNaN (base self) then reduce1 np_fmin data
      else reduce1 np_minimum data
  end.

(** The aggregation of extrema: [comdata] is the field of one input
    period, or None when the record was too short. *)
Definition aggregateValues (self : t) (comdata : option field)
    (aggdata : option field) : result (option field) :=
  if DerivedVariable.normalize (base self) then Raise DerivedVariableError
  else
    match comdata with
    | Some c =>
        if (0 <? length c)%nat then
          match aggdata with
          | None => Ok (Some c)
          | Some a =>
              r <-- match mode self with
                    | MaxMode =>
                        if DerivedVariable.ignoreNaN (base self)
                        then ewise np_fmax a c else ewise np_maximum a c
                    | MinMode =>
                        if DerivedVariable.ignoreNaN (base self)
                        then ewise np_fmin a c else ewise np_minimum a c
                    end ;;
              Ok (Some r)
          end
        else Ok aggdata
    | None => Ok aggdata
    end.

End Extrema.

(** ** Consecutive exceedance of a threshold *)

(** The result of a computation that may mask grid points (numpy.ma). *)
Inductive ndarray1 : Type :=
  | Plain (a : field)
  | MaskedArray (a : field) (mask : list bool).

(** The payload of an array none of whose points is masked. *)
Definition unmasked (r : ndarray1) : option field :=
  match r with
  | Plain a => Some a
  | MaskedArray a m => if forallb negb m then Some a else None
  end.

(** Addition of one on a 16-bit signed counter. *)
Definition wrap16 (z : Z) : Z := (z + 32768) mod 65536 - 32768.

(** ['{:f}'.format(q)]: six decimals, ties to even. *)
Definition round_half_even (q : Q) : Z :=
  let f := Qfloor q in
  let r := (q - inject_Z f)%Q in
  match (r ?= 1 # 2)%Q with
  | Lt => f
  | Gt => f + 1
  | Eq => if Z.even f then f else f + 1
  end.

Definition fmt_f (q : Q) : string :=
  let a := round_half_even (Qabs q * inject_Z 1000000) in
  let sign := if Qle_bool 0 q then ""%string else "-"%string in
  let frac := pretty (Z.to_N (a mod 1000000)) in
  sign +:+ pretty (Z.to_N (a / 1000000)) +:+ "." +:+
  String.concat "" (replicate (6 - String.length frac) "0"%string) +:+ frac.

Inductive thresmode : Type := Below | Above.

Module ConsecutiveExtrema.

Record t : Type := {
  ext : Extrema.t;
  lengthofday : Q;
  period : Q;
  thresmode_ : thresmode;
  threshold : Q
}.

Definition set_period (p : Q) (self : t) : t :=
  {| ext := ext self; lengthofday := lengthofday self; period := p;
     thresmode_ := thresmode_ self; threshold := threshold self |}.

Definition base (self : t) : DerivedVariable.t := Extrema.base (ext self).

(** [str_threshold] is Python's str(threshold). *)
Definition __init__ (var : source_var) (mode_ : string) (threshold_ : Q)
    (str_threshold : string) (name : option string)
    (long_name : option string) (dimmap : option (gmap string string))
    (ignoreNaN : bool) : result t :=
  let varname := var_name var in
  sel <-- (if String.eqb (lower mode_) "above"
           then Ok ("Maximum Monthly Consecutive Days Above Threshold",
                    Above, ">")
           else if String.eqb (lower mode_) "below"
           then Ok ("Maximum Monthly Consecutive Days Below Threshold",
                    Below, "<")
           else Raise ValueError)%string ;;
  let '(aggregation, exm, prefix) := sel in
  let a0 := <["Aggregation"%string := AStr aggregation]> (var_atts var) in
  let a1 := <["Variable"%string :=
               AStr (varname +:+ " " +:+ prefix +:+ " " +:+ str_threshold
                     +:+ " " +:+ var_units var)]> a0 in
  let a2 := <["ThresholdVariable"%string := AStr varname]>
              (<["ThresholdValue"%string := AStr str_threshold]> a1) in
  let a := set_long_name long_name a2 in
  name' <-- match name with
            | Some n => Ok n
            | None => c <-- capitalize varname ;;
                      Ok (prefix +:+ fmt_f threshold_ +:+ c)
            end ;;
  let b := DerivedVariable.__init__ name' "days" [varname] None
             (map_axes dimmap (var_axes var)) (Some int16) (Some a)
             false ignoreNaN false in
  Ok {| ext := {| Extrema.base :=
                    DerivedVariable.set_tmpdata (Some ("COX_" +:+ name')) true b;
                  Extrema.mode := MaxMode |};
        lengthofday := 86400;
        period := 0;
        thresmode_ := exm;
        threshold := threshold_ |}.

(** The mask of exceedance of one time slice. *)
Definition exceeds (self : t) (x : num) : bool :=
  match thresmode_ self with
  | Above => num_gtb x (threshold self)
  | Below => num_ltb x (threshold self)
  end.

(** One pass of the march along the aggregation axis, on the counters
    [xcnt] and the record of maxima [maxdata]. *)
Definition step (self : t) (st : list Z * list Q) (slice : field)
  : result (list Z * list Q) :=
  let '(xcnt, maxdata) := st in
  let xmask := map (exceeds self) slice in
  xnew <-- ewise (fun (m : bool) c =>
                    (inject_Z (if m then 0 else c) * period self)%Q)
                 xmask xcnt ;;
  maxdata' <-- ewise qmax maxdata xnew ;;
  Ok (zip_with (fun (m : bool) c => if m then wrap16 (c + 1) else 0) xmask xcnt,
      maxdata').

Fixpoint march (self : t) (st : list Z * list Q) (data : chunk)
  : result (list Z * list Q) :=
  match data with
  | [] => Ok st
  | slice :: data' => st' <-- step self st slice ;; march self st' data'
  end.

(** np.isnan(data).sum(axis=0) > 0. *)
Definition any_nan (data : chunk) : list bool :=
  foldl (zip_with (fun (b : bool) x => b || isnan x))
        (replicate (width data) false) data.

Definition computeValues {V} (self : t) (indata : gmap string chunk)
    (delta : option Q) (const : option (gmap string V))
    (tmp : option tmpdict) : result (ndarray1 * t * tmpdict) :=
  DerivedVariable.computeValues (base self) const ;;;
  tmp0 <-- match tmp with Some d => Ok d | None => Raise TypeError end ;;
  tmp1 <-- match tmp0 !! "COX_DELTA"%string with
           | Some (TDelta d') =>
               if delta_neqb delta d' then Raise NotImplementedError
               else Ok tmp0
           | Some _ => Raise ValueError
           | None => Ok (<["COX_DELTA"%string := TDelta delta]> tmp0)
           end ;;
  self' <-- (if Qeq_bool (period self) 0
             then match delta with
                  | Some d => Ok (set_period (d / lengthofday self)%Q self)
                  | None => Raise TypeError
                  end
             else Ok self) ;;
  v <-- match DerivedVariable.prerequisites (base self) with
        | v :: _ => Ok v
        | [] => Raise IndexError
        end ;;
  data <-- getitem indata v ;;
  (* the handle is a string for every object the constructor builds *)
  key <-- match DerivedVariable.tmpdata (base self) with
          | Some k => Ok k
          | None => Raise TypeError
          end ;;
  xcnt <-- match tmp1 !! key with
           | Some (TCount c) => Ok c
           | Some _ => Raise TypeError
           | None => Ok (replicate (width data) 0)
           end ;;
  st <-- march self' (xcnt, replicate (width data) 0%Q) data ;;
  let '(xcnt', maxdata) := st in
  let tmp2 := <[key := TCount xcnt']> tmp1 in
  if DerivedVariable.ignoreNaN (base self)
  then Ok (MaskedArray (map Num maxdata) (any_nan data), self', tmp2)
  else Ok (Plain (map Num maxdata), self', tmp2).

End ConsecutiveExtrema.

(** ** Extrema of interval averages *)

(** [int(q)] of a rational: truncation towards zero. *)
Definition int_of_Q (q : Q) : Z := Z.quot (Qnum q) (Z.pos (Qden q)).

(** [data.reshape((nint, ilen) + pape)]: the first [nint] runs of [ilen]
    time slices. *)
Fixpoint blocks (nint ilen : nat) (data : chunk) : list chunk :=
  match nint with
  | O => []
  | S n => take ilen data :: blocks n ilen (drop ilen data)
  end.

(** np.concatenate((old, new), axis=0): the slices of the two arrays have
    one shape. *)
Definition concatenate (old new : chunk) : result chunk :=
  match old, new with
  | r :: _, r' :: _ =>
      if (length r =? length r')%nat then Ok (old ++ new) else Raise ValueError
  | _, _ => Ok (old ++ new)
  end.

Module MeanExtrema.

Record t : Type := {
  ext : Extrema.t;
  interval : Z
}.

Definition base (self : t) : DerivedVariable.t := Extrema.base (ext self).

Definition __init__ (var : source_var) (mode_ : string) (interval_ : Z)
    (name : option string) (long_name : option string)
    (dimmap : option (gmap string string)) (ignoreNaN : bool) : result t :=
  e <-- Extrema.__init__ var mode_ name long_name dimmap ignoreNaN ;;
  let b := Extrema.base e in
  (if (1 <? length (DerivedVariable.prerequisites b))%nat
   then Raise ValueError else Ok tt) ;;;
  let name' := (DerivedVariable.name b +:+ "_" +:+ pretty interval_ +:+ "d")%string in
  aggregation <-- match DerivedVariable.atts b !! "Aggregation"%string with
                  | Some (AStr s) => Ok s
                  | Some _ => Raise TypeError
                  | None => Raise KeyError
                  end ;;
  let a := <["AverageInterval"%string := AStr (pretty interval_ +:+ " days")]>
             (<["Aggregation"%string := AStr ("Averaged " +:+ aggregation)]>
                (<["name"%string := AStr name']> (DerivedVariable.atts b))) in
  let b' := DerivedVariable.set_tmpdata (Some ("MEX_" +:+ name')) true
              (DerivedVariable.set_name name' a b) in
  Ok {| ext := {| Extrema.base := b'; Extrema.mode := Extrema.mode e |};
        interval := interval_ * 24 * 60 * 60 |}.

Definition computeValues {V} (self : t) (indata : gmap string chunk)
    (delta : option Q) (const : option (gmap string V))
    (tmp : option tmpdict) : result (option field * tmpdict) :=
  match delta with
  | Some d => if Qeq_bool d 0 then Raise ValueError else Ok tt
  | None => Ok tt
  end ;;;
  v <-- match DerivedVariable.prerequisites (base self) with
        | v :: _ => Ok v
        | [] => Raise IndexError
        end ;;
  new <-- getitem indata v ;;
  tmp0 <-- match tmp with Some d => Ok d | None => Raise TypeError end ;;
  (* the handle is a string for every object the constructor builds *)
  key <-- match DerivedVariable.tmpdata (base self) with
          | Some k => Ok k
          | None => Raise TypeError
          end ;;
  data <-- match tmp0 !! key with
           | Some (TData old) => concatenate old new
           | Some _ => Raise ValueError
           | None => Ok new
           end ;;
  let lt := Z.of_nat (length data) in
  d <-- match delta with Some d => Ok d | None => Raise TypeError end ;;
  let ilen := int_of_Q (inject_Z (interval self) / d) in
  if ilen =? 0 then Raise ZeroDivisionError
  else
    let nint := Z.quot lt ilen in
    if 0 <? nint then
      let ui := ilen * nint in
      let data' := take (Z.to_nat ui) data in
      let rest := drop (Z.to_nat ui) data' in
      let meandata := map np_mean (blocks (Z.to_nat nint) (Z.to_nat ilen) data') in
      outdata <-- Extrema.computeValues (ext self) {[ v := meandata ]} const ;;
      Ok (Some outdata, <[key := TData rest]> tmp0)
    else Ok (None, <[key := TData data]> tmp0).

End MeanExtrema.

(** ** Mass-weighted vertical integrals *)

(** Division of two field values. The model has no infinities: a zero
    divisor gives NaN. *)
Definition ndiv (x y : num) : num :=
  match x, y with
  | Num a, Num b => if Qeq_bool b 0 then NaN else Num (a / b)
  | _, _ => NaN
  end.

(** np.diff of a one-dimensional array. *)
Definition np_diff (l : field) : field :=
  zip_with (fun a b => nsub b a) l (tail l).

(** A field on pressure levels: time, level, grid point. *)
Abbreviation field4 := (list (list field)).

Definition shape2 {A} (x : list (list A)) : nat * nat := (length x, width x).

(** np.nan_to_num on a field on pressure levels. *)
Definition np_nan_to_num (x : field4) : field4 := map (map (map nan_to_num)) x.

(** The levels of one time step with the two boundary levels, where the
    integrand is zero. *)
Definition with_boundaries (npt : nat) (levels : list field) : list field :=
  zeros npt :: levels ++ [zeros npt].

(** The extended pressure axis, inverted. *)
Definition extended_axis (p0 : field) : field :=
  map (nmul (Num (-1))) (Num 100000 :: p0 ++ [Num 0]).

Section PressureIntegral.

(** scipy.integrate.simps(y, x, axis=1, even='first'). *)
Variable simps : field4 -> field -> list field.

(** RMg * var * T / p on one level, [p] the pressure of the level. *)
Definition weight_level (RMg : Q) (var T : field) (p : num) : result field :=
  ewise (fun v t => ndiv (nmul (nmul (Num RMg) v) t) p) var T.

Fixpoint weight_levels (RMg : Q) (var T : list field) (p : field)
  : result (list field) :=
  match var, T, p with
  | [], [], [] => Ok []
  | v :: var', t :: T', pl :: p' =>
      r0 <-- weight_level RMg v t pl ;;
      r <-- weight_levels RMg var' T' p' ;;
      Ok (r0 :: r)
  | _, _, _ => Raise ValueError
  end.

Fixpoint weight_all (RMg : Q) (var T : field4) (p : list field)
  : result field4 :=
  match var, T, p with
  | [], [], [] => Ok []
  | v :: var', t :: T', pt :: p' =>
      r0 <-- weight_levels RMg v t pt ;;
      r <-- weight_all RMg var' T' p' ;;
      Ok (r0 :: r)
  | _, _, _ => Raise ValueError
  end.

Definition pressureIntegral (var T : field4) (p : list field) (RMg : Q)
  : result (list field) :=
  if negb (bool_decide (shape2 T = shape2 p)) then Raise AssertionError
  else
    let npt := width (default [] (head T)) in
    p0 <-- match p with p0 :: _ => Ok p0 | [] => Raise IndexError end ;;
    if negb (forallb (fun d => num_ltb d 0) (np_diff p0))
    then Raise AssertionError
    else
      let pax := extended_axis p0 in
      let var' := np_nan_to_num var in
      let T' := np_nan_to_num T in
      inner <-- weight_all RMg var' T' p ;;
      Ok (simps (map (with_boundaries npt) inner) pax).

End PressureIntegral.

(** * Definitions used by the statements *)

(** The name a prerequisite is looked up under. *)
Definition remap (varmap : option (gmap string string)) (var : string) : string :=
  match varmap with
  | Some m => default var (m !! var)
  | None => var
  end.


(** The descriptor of the time of convection (its constructor only): a
    variable that declares a constant field. *)
Module TimeOfConvection.

Record t : Type := {
  base : DerivedVariable.t;
  time_offset : Z
}.

Definition __init__ : t :=
  {| base := DerivedVariable.__init__ "TimeOfConvection" "s"
               ["TRAINCVMAX"; "Times"]%string (Some ["XLONG"%string])
               axes3 (Some float32) None false true true;
     time_offset := 0 |}.

End TimeOfConvection.

(** A source dataset with the fields of the time of convection. *)
Definition hydro_dataset : Dataset :=
  {| variables := {["TRAINCVMAX"; "Times"; "RAINNC"; "RAINC"]}%string |}.

(** The samples of grid point [j] along the time axis of a chunk. *)
Definition column (j : nat) (c : chunk) : field :=
  map (fun slice => default NaN (slice !! j)) c.

(** The sum of a series of samples, NaN counted as zero when [ign]. *)
Definition total (ign : bool) (l : field) : num :=
  foldl (fun s x => nadd s (if ign then nan_to_num x else x)) (Num 0) l.

(** The total precipitation once its prerequisites are checked. *)
Definition checked_rain : DerivedVariable.t :=
  DerivedVariable.set_checked true Rain.__init__.

(** The surface temperature of the source dataset. *)
Definition t2_var : source_var :=
  FromNetCDF "T2" ["time"; "south_north"; "west_east"]%string "K" (Some float32).

(** The effect of a successful checkPrerequisites on a wet-day object. *)
Definition WetDays_checked (self : WetDays.t) : WetDays.t :=
  {| WetDays.base := DerivedVariable.set_checked true (WetDays.base self);
     WetDays.threshold := WetDays.threshold self;
     WetDays.rain := WetDays.rain self |}.


(** A chunk of finite values. *)
Definition finite (x : list (list Q)) : chunk := map (map Num) x.

(** The two precipitation objects once their prerequisites are checked. *)
Definition checked_liquid_sr : DerivedVariable.t :=
  DerivedVariable.set_checked true LiquidPrecipSR.__init__.

Definition checked_solid_sr : DerivedVariable.t :=
  DerivedVariable.set_checked true SolidPrecipSR.__init__.

(** Element [(i, j)] of a two-dimensional array. *)
Definition at2 {A} (x : list (list A)) (i j : nat) : option A :=
  x !! i ≫= (.!! j).

(** A chunk of one time step and two grid points, with a solid fraction
    that exceeds one. *)
Definition sr_indata : gmap string chunk :=
  {[ "RAIN"%string := finite [[2; 4]]%Q; "SR"%string := finite [[1 # 2; 2]]%Q ]}.


(** The output interval is absent or differs from zero. *)
Definition nonzero_interval (delta : option Q) : Prop :=
  match delta with
  | Some d => ~ (d == 0)%Q
  | None => True
  end.






(** The order of two field values; nothing is below or above NaN. *)
Definition num_lt (x y : num) : Prop :=
  match x, y with
  | Num a, Num b => (a < b)%Q
  | _, _ => False
  end.

(** A pressure axis that decreases strictly from each level to the next. *)
Definition strictly_decreasing (p : field) : Prop :=
  forall i a b, p !! i = Some a -> p !! S i = Some b -> num_lt b a.

(** Element [(t, k, j)] of a field on pressure levels. *)
Definition at3 (x : field4) (t k j : nat) : option num :=
  levels ← x !! t; at2 levels k j.

(** A composite trapezoidal rule, to run the integral on an example. *)
Fixpoint trapezoid (y x : list Q) : Q :=
  match y, x with
  | y0 :: ((y1 :: _) as y'), x0 :: ((x1 :: _) as x') =>
      ((x1 - x0) * (y0 + y1) / 2 + trapezoid y' x')%Q
  | _, _ => 0%Q
  end.

Definition num_value (x : num) : Q :=
  match x with Num q => q | NaN => 0%Q end.

Definition trapezoid_levels (y : field4) (x : field) : list field :=
  map (fun levels =>
         map (fun j => Num (trapezoid (map num_value (column j levels))
                                      (map num_value x)))
             (seq 0 (width levels))) y.

(** One time step, two pressure levels, one grid point. *)
Definition pl_var : field4 := [[[Num 2]; [NaN]]].
Definition pl_T : field4 := [[[Num 280]; [Num 250]]].
Definition pl_p : list field := [[Num 85000; Num 50000]].

(** The integrand, the temperature and the pressure have one shape: the
    same time steps and levels, and the same grid points on every level. *)
Definition conform (var T : field4) (p : list field) : Prop :=
  Forall2 (Forall2 (fun v t : field => length v = length t)) var T
  /\ Forall2 (fun (t : list field) (pt : field) => length t = length pt) T p.

(** The maximum of the five-day means of T2. *)
Definition max_t2_5d : result MeanExtrema.t :=
  MeanExtrema.__init__ t2_var "max" 5 None None None false.

(** The effect of a successful checkPrerequisites on the object. *)
Definition MeanExtrema_checked (self : MeanExtrema.t) : MeanExtrema.t :=
  {| MeanExtrema.ext :=
       {| Extrema.base := DerivedVariable.set_checked true (MeanExtrema.base self);
          Extrema.mode := Extrema.mode (MeanExtrema.ext self) |};
     MeanExtrema.interval := MeanExtrema.interval self |}.

(** Daily samples on one grid point. *)
Definition days (l : list Q) : chunk := map (fun q => [Num q]) l.

(** One day, in seconds. *)
Definition daily : option Q := Some 86400%Q.

(** Samples of one grid point, one time slice each. *)
Definition series (l : field) : chunk := map (fun x => [x]) l.

(** The effect of a successful checkPrerequisites on the object. *)
Definition ConsecutiveExtrema_checked (self : ConsecutiveExtrema.t)
  : ConsecutiveExtrema.t :=
  {| ConsecutiveExtrema.ext :=
       {| Extrema.base :=
            DerivedVariable.set_checked true (ConsecutiveExtrema.base self);
          Extrema.mode := Extrema.mode (ConsecutiveExtrema.ext self) |};
     ConsecutiveExtrema.lengthofday := ConsecutiveExtrema.lengthofday self;
     ConsecutiveExtrema.period := ConsecutiveExtrema.period self;
     ConsecutiveExtrema.thresmode_ := ConsecutiveExtrema.thresmode_ self;
     ConsecutiveExtrema.threshold := ConsecutiveExtrema.threshold self |}.

(** The longest run of days with T2 above 298 K. *)
Definition hot_spell : result ConsecutiveExtrema.t :=
  ConsecutiveExtrema.__init__ t2_var "above" 298 "298" None None None false.

(** An object as the constructor leaves it and checkPrerequisites accepts
    it: one prerequisite [v], the handle [key] of its counters (which is
    not the key of the output interval), no period yet, the aggregation by
    maximum. *)
Definition fresh_counter (self : ConsecutiveExtrema.t) (v key : string) : Prop :=
  DerivedVariable.checked (ConsecutiveExtrema.base self) = true
  /\ DerivedVariable.constants (ConsecutiveExtrema.base self) = None
  /\ DerivedVariable.normalize (ConsecutiveExtrema.base self) = false
  /\ DerivedVariable.prerequisites (ConsecutiveExtrema.base self) = [v]
  /\ DerivedVariable.tmpdata (ConsecutiveExtrema.base self) = Some key
  /\ key <> "COX_DELTA"%string
  /\ Extrema.mode (ConsecutiveExtrema.ext self) = MaxMode
  /\ ConsecutiveExtrema.period self = 0%Q
  /\ ConsecutiveExtrema.lengthofday self = 86400%Q.

(** Daily temperatures above 298 K: three days, and two more. *)
Definition warm3 : field := [Num 300; Num 301; Num 302].
Definition warm2 : field := [Num 303; Num 299].


(** ** Further additive variables *)

Module LiquidPrecip.

Definition __init__ : DerivedVariable.t :=
  DerivedVariable.__init__ "LiquidPrecip" "kg/m^2/s"
    ["RAINNC"; "RAINC"; "ACSNOW"]%string None axes3 (Some float32) None
    true false true.

Definition computeValues {V} (self : DerivedVariable.t)
    (indata : gmap string chunk) (const : option (gmap string V))
  : result chunk :=
  DerivedVariable.computeValues self const ;;;
  RAINNC <-- getitem indata "RAINNC" ;;
  RAINC <-- getitem indata "RAINC" ;;
  ACSNOW <-- getitem indata "ACSNOW" ;;
  total <-- ewise2 nadd RAINNC RAINC ;;
  ewise2 nsub total ACSNOW.

End LiquidPrecip.

Module SolidPrecip.

Definition __init__ : DerivedVariable.t :=
  DerivedVariable.__init__ "SolidPrecip" "kg/m^2/s" ["ACSNOW"]%string None
    axes3 (Some float32) None true false true.

Definition computeValues {V} (self : DerivedVariable.t)
    (indata : gmap string chunk) (const : option (gmap string V))
  : result chunk :=
  DerivedVariable.computeValues self const ;;;
  getitem indata "ACSNOW".

End SolidPrecip.

(** The two water fluxes at the surface; both call the checks of the base
    class without the constants. *)
Module NetWaterFlux.

Definition __init__ : DerivedVariable.t :=
  DerivedVariable.__init__ "NetWaterFlux" "kg/m^2/s"
    ["LiquidPrecip"; "SFCEVP"; "ACSNOM"]%string None axes3 (Some float32) None
    true false true.

Definition computeValues (self : DerivedVariable.t)
    (indata : gmap string chunk) : result chunk :=
  DerivedVariable.computeValues (V:=unit) self None ;;;
  LiquidPrecip <-- getitem indata "LiquidPrecip" ;;
  SFCEVP <-- getitem indata "SFCEVP" ;;
  ACSNOM <-- getitem indata "ACSNOM" ;;
  net <-- ewise2 nsub LiquidPrecip SFCEVP ;;
  ewise2 nadd net ACSNOM.

End NetWaterFlux.

Module WaterForcing.

Definition __init__ : DerivedVariable.t :=
  DerivedVariable.__init__ "WaterForcing" "kg/m^2/s"
    ["LiquidPrecip"; "ACSNOM"]%string None axes3 (Some float32) None
    true false true.

Definition computeValues (self : DerivedVariable.t)
    (indata : gmap string chunk) : result chunk :=
  DerivedVariable.computeValues (V:=unit) self None ;;;
  LiquidPrecip <-- getitem indata "LiquidPrecip" ;;
  ACSNOM <-- getitem indata "ACSNOM" ;;
  ewise2 nadd LiquidPrecip ACSNOM.

End WaterForcing.

(** Two arrays of one shape. *)
Definition same_shape {A B} (a : list (list A)) (b : list (list B)) : Prop :=
  Forall2 (fun r s => length r = length s) a b.

(** The effect of a successful checkPrerequisites on an extremum. *)
Definition Extrema_checked (e : Extrema.t) : Extrema.t :=
  {| Extrema.base := DerivedVariable.set_checked true (Extrema.base e);
     Extrema.mode := Extrema.mode e |}.

(** ** Interval-averaged extrema: the samples of a call *)

(** The samples a call of MeanExtrema.computeValues works on: those held
    back in the storage under [key], then the chunk. *)
Definition MeanExtrema_available (tmp : tmpdict) (key : string) (new : chunk)
  : result chunk :=
  match tmp !! key with
  | Some (TData old) => concatenate old new
  | Some _ => Raise ValueError
  | None => Ok new
  end.

(** The number of time steps of one averaging interval,
    [int(self.interval / delta)]. *)
Definition MeanExtrema_ilen (self : MeanExtrema.t) (d : Q) : Z :=
  int_of_Q (inject_Z (MeanExtrema.interval self) / d).

(** ** Rain of the wet days *)

Module WetDayRain.

Record t : Type := {
  base : DerivedVariable.t;
  rain : string;
  wetdays : string
}.

Definition __init__ (threshold : float) (rain_ : string) (ignoreNaN : bool)
  : result t :=
  n <-- int_of_float (10 * threshold)%float ;;
  let name := ("WetDayRain_" +:+ fmt03d n)%string in
  let wetdays_ := ("WetDays_" +:+ fmt03d n)%string in
  let threshold' := (threshold / 86400)%float in
  Ok {| base := DerivedVariable.__init__ name "kg/m^2/s" [rain_; wetdays_] None
                  axes3 (Some float32)
                  (Some {["threshold" := AFloat threshold']})
                  false ignoreNaN true;
        rain := rain_;
        wetdays := wetdays_ |}.

(** [a == 0] on an array of the chunk: False is equal to 0, and so is the
    negative zero; NaN is not. *)
Definition is_zero (a : WetDays.out) : list (list bool) :=
  match a with
  | WetDays.BoolArray b => map (map negb) b
  | WetDays.FloatArray x => map (map (fun v => PrimFloat.eqb v 0)) x
  end.

(** The values of an array of the chunk, as np.where takes them next to a
    float: True is 1. *)
Definition as_float (a : WetDays.out) : list (list float) :=
  match a with
  | WetDays.BoolArray b => map (map (fun v : bool => if v then 1 else 0)%float) b
  | WetDays.FloatArray x => x
  end.

(** np.where(indata[wetdays] == 0, 0., indata[rain]). *)
Definition computeValues {V} (self : t) (indata : gmap string WetDays.out)
    (const : option (gmap string V)) : result (list (list float)) :=
  DerivedVariable.computeValues (base self) const ;;;
  wd <-- getitem indata (wetdays self) ;;
  r <-- getitem indata (rain self) ;;
  ewise2 (fun (z : bool) (x : float) => if z then 0%float else x)
         (is_zero wd) (as_float r).

End WetDayRain.

(** ** Frost days and summer days *)

(** ['{:+02d}'.format(z)]: the sign, always, then the digits; the sign and
    one digit fill the width of two. *)
Definition fmt_plus02d (z : Z) : string :=
  ((if (z <? 0)%Z then "-" else "+") +:+ pretty (Z.abs_N z))%string.

(** The diurnal extremes only make sense for daily output. A missing
    interval cannot be formatted into the message of the exception, which
    raises TypeError in its place. *)
Definition check_daily (delta : option Q) (temp : string) : result unit :=
  if delta_neqb delta (Some 86400%Q) && negb (String.eqb temp "T2")
  then match delta with
       | Some _ => Raise ValueError
       | None => Raise TypeError
       end
  else Ok tt.

(** 273.15, as the nearest binary64 number. *)
Definition celsius_offset : float := 0x1.1126666666666p+8%float.

Module FrostDays.

Record t : Type := {
  base : DerivedVariable.t;
  threshold : float;
  temp : string
}.

Definition __init__ (threshold_ : float) (temp_ : string) (ignoreNaN : bool)
  : result t :=
  n <-- int_of_float threshold_ ;;
  let name := ("FrostDays_" +:+ fmt_plus02d n)%string in
  let threshold' := (threshold_ + celsius_offset)%float in
  Ok {| base := DerivedVariable.__init__ name "" [temp_] None axes3
                  (Some float32) (Some {["threshold" := AFloat threshold']})
                  false ignoreNaN true;
        threshold := threshold';
        temp := temp_ |}.

(** np.where(x < threshold, 1, 0), then np.where(isnan(x), NaN, .). *)
Definition indicator_nan (thr x : float) : float :=
  if PrimFloat.is_nan x then PrimFloat.nan
  else if PrimFloat.ltb x thr then 1%float else 0%float.

Definition computeValues {V} (self : t)
    (indata : gmap string (list (list float))) (delta : option Q)
    (const : option (gmap string V)) : result WetDays.out :=
  DerivedVariable.computeValues (base self) const ;;;
  check_daily delta (temp self) ;;;
  x <-- getitem indata (temp self) ;;
  if DerivedVariable.ignoreNaN (base self)
  then Ok (WetDays.FloatArray (map (map (indicator_nan (threshold self))) x))
  else Ok (WetDays.BoolArray
             (map (map (fun v => PrimFloat.ltb v (threshold self))) x)).

End FrostDays.

Module SummerDays.

Record t : Type := {
  base : DerivedVariable.t;
  threshold : float;
  temp : string
}.

Definition __init__ (threshold_ : float) (temp_ : string) (ignoreNaN : bool)
  : result t :=
  n <-- int_of_float threshold_ ;;
  let name := ("SummerDays_" +:+ fmt_plus02d n)%string in
  let threshold' := (threshold_ + celsius_offset)%float in
  Ok {| base := DerivedVariable.__init__ name "" [temp_] None axes3
                  (Some float32) (Some {["threshold" := AFloat threshold']})
                  false ignoreNaN true;
        threshold := threshold';
        temp := temp_ |}.

(** np.where(x > threshold, 1, 0), then np.where(isnan(x), NaN, .). *)
Definition indicator_nan (thr x : float) : float :=
  if PrimFloat.is_nan x then PrimFloat.nan
  else if PrimFloat.ltb thr x then 1%float else 0%float.

Definition computeValues {V} (self : t)
    (indata : gmap string (list (list float))) (delta : option Q)
    (const : option (gmap string V)) : result WetDays.out :=
  DerivedVariable.computeValues (base self) const ;;;
  check_daily delta (temp self) ;;;
  x <-- getitem indata (temp self) ;;
  if DerivedVariable.ignoreNaN (base self)
  then Ok (WetDays.FloatArray (map (map (indicator_nan (threshold self))) x))
  else Ok (WetDays.BoolArray
             (map (map (PrimFloat.ltb (threshold self))) x)).

End SummerDays.

(** ** Net radiation at the surface *)

Module NetRadiation.

Definition __init__ : DerivedVariable.t :=
  DerivedVariable.__init__ "NetRadiation" "J m-2/s"
    ["ACSWDNB"; "ACSWUPB"; "ACLWDNB"; "ACLWUPB"]%string None axes3
    (Some float32) None true false true.

Definition computeValues {V} (self : DerivedVariable.t)
    (indata : gmap string chunk) (const : option (gmap string V))
  : result chunk :=
  DerivedVariable.computeValues self const ;;;
  SWDN <-- getitem indata "ACSWDNB" ;;
  SWUP <-- getitem indata "ACSWUPB" ;;
  LWDN <-- getitem indata "ACLWDNB" ;;
  LWUP <-- getitem indata "ACLWUPB" ;;
  sw <-- ewise2 nsub SWDN SWUP ;;
  down <-- ewise2 nadd sw LWDN ;;
  ewise2 nsub down LWUP.

End NetRadiation.

Module NetLWRadiation.

Definition __init__ : DerivedVariable.t :=
  DerivedVariable.__init__ "NetLWRadiation" "J m-2/s"
    ["ACLWDNB"; "ACLWUPB"]%string None axes3 (Some float32) None
    true false true.

Definition computeValues {V} (self : DerivedVariable.t)
    (indata : gmap string chunk) (const : option (gmap string V))
  : result chunk :=
  DerivedVariable.computeValues self const ;;;
  LWDN <-- getitem indata "ACLWDNB" ;;
  LWUP <-- getitem indata "ACLWUPB" ;;
  ewise2 nsub LWDN LWUP.

End NetLWRadiation.

(** ** Central differences *)

(** np.diff(data, n=1, axis=0): row i+1 less row i. *)
Definition np_diff0 (data : chunk) : chunk :=
  zip_with (zip_with (fun a b => nsub b a)) data (tail data).

(** The rows [1:-1] of an array of [n] rows, and the rows [[0,-1]]. *)
Definition interior (n i : nat) : bool := ((1 <=? i) && (i + 1 <? n))%nat.
Definition boundary (n i : nat) : bool := ((i =? 0) || (i + 1 =? n))%nat.

(** [a[rows,:] /= d]. *)
Definition divide_rows (rows : nat -> bool) (d : Q) (a : chunk) : chunk :=
  imap (fun i row => if rows i then map (fun x => ndivq x d) row else row) a.

(** [outdata[1:,:] = np.diff(data, n=1, axis=0)] on the array of zeros
    that np.zeros_like(data) returns. *)
Definition assign_diff (data : chunk) : chunk :=
  take 1 (map (map (fun _ => Num 0)) data) ++ np_diff0 data.

(** [outdata[0:-1,:] += outdata[1:,:]]: the in-place sum of the two
    overlapping views reads the rows as they were before the statement. *)
Definition add_next (outdata : chunk) : chunk :=
  zip_with (zip_with nadd) outdata (tail outdata)
  ++ drop (length outdata - 1) outdata.

(** ctrDiff(data, axis=0, delta) on an array of two dimensions. *)
Definition ctrDiff (data : chunk) (delta : Q) : result chunk :=
  let n := length data in
  let outdata := add_next (assign_diff data) in
  if Qeq_bool delta 1 then Ok (divide_rows (interior n) 2 outdata)
  else
    let outdata := divide_rows (interior n) (2 * delta) outdata in
    (* outdata[[0,-1],:] /= delta: row 0 has to exist *)
    if (n =? 0)%nat then Raise IndexError
    else Ok (divide_rows (boundary n) delta outdata).

(** ** Time stamps *)

(** str.split(sep), the separator one character. *)
Fixpoint split (sep : ascii) (s : string) : list string :=
  match s with
  | EmptyString => [EmptyString]
  | String c r =>
      if Ascii.eqb c sep then EmptyString :: split sep r
      else match split sep r with
           | h :: t => String c h :: t
           | [] => [String c EmptyString]
           end
  end.

(** [a[idx]] on the first axis: a negative index counts from the end. *)
Definition getrow {A} (a : list A) (idx : Z) : result A :=
  let i := if idx <? 0 then idx + Z.of_nat (length a) else idx in
  if i <? 0 then Raise IndexError
  else match a !! Z.to_nat i with
       | Some x => Ok x
       | None => Raise IndexError
       end.

(** getTimeStamp(dataset, idx, timestamp_var). A character variable of the
    dataset is the list of its rows, each read as a string
    (nc.chartostring). *)
Definition getTimeStamp (dataset : gmap string (list string)) (idx : Z)
    (timestamp_var : string) : result string :=
  rows <-- getitem dataset timestamp_var ;;
  row <-- getrow rows idx ;;
  let timestamp := split "_" row in
  if negb (length timestamp =? 2)%nat then Raise AssertionError
  else Ok (String.concat " " timestamp).

(** * Further definitions used by the statements *)

(** The effect of a successful checkPrerequisites on the objects. *)
Definition WetDayRain_checked (self : WetDayRain.t) : WetDayRain.t :=
  {| WetDayRain.base := DerivedVariable.set_checked true (WetDayRain.base self);
     WetDayRain.rain := WetDayRain.rain self;
     WetDayRain.wetdays := WetDayRain.wetdays self |}.

Definition FrostDays_checked (self : FrostDays.t) : FrostDays.t :=
  {| FrostDays.base := DerivedVariable.set_checked true (FrostDays.base self);
     FrostDays.threshold := FrostDays.threshold self;
     FrostDays.temp := FrostDays.temp self |}.

Definition SummerDays_checked (self : SummerDays.t) : SummerDays.t :=
  {| SummerDays.base := DerivedVariable.set_checked true (SummerDays.base self);
     SummerDays.threshold := SummerDays.threshold self;
     SummerDays.temp := SummerDays.temp self |}.

(** A string without the character [c]. *)
Fixpoint without (c : ascii) (s : string) : bool :=
  match s with
  | EmptyString => true
  | String a r => negb (Ascii.eqb a c) && without c r
  end.

(** A chunk of [n] time slices of [m] grid points. *)
Definition rectangular {A} (n m : nat) (c : list (list A)) : Prop :=
  length c = n /\ Forall (fun slice => length slice = m) c.

(** Rain on two days, around the default threshold of 1 mm/day. *)
Definition two_days : list (list float) := [[0x1p-10%float]; [0%float]].

(** The rain that WetDayRain keeps of a sample [v], the threshold [thr]. *)
Definition wet_day_rain (ign : bool) (thr v : float) : float :=
  if PrimFloat.ltb thr v then v
  else if ign && PrimFloat.is_nan v then v else 0%float.

(** Rain on three days: above the default threshold of 1 mm/day, none,
    and missing. *)
Definition rain_record : list (list float) :=
  [[0x1p-10%float]; [0%float]; [PrimFloat.nan]].

(** The output interval is one day, or the variable is the snapshot T2. *)
Definition daily_or_T2 (delta : option Q) (temp : string) : Prop :=
  temp = "T2"%string \/ exists d, delta = Some d /\ (d == 86400)%Q.

(** Daily minima and maxima of the temperature on one grid point. *)
Definition temperatures : gmap string (list (list float)) :=
  {[ "T2MIN"%string := [[270%float]; [280%float]];
     "T2MAX"%string := [[285%float]; [300%float]] ]}.

(** Terrain heights on three rows of two grid points. *)
Definition heights : list (list Q) := [[10; 0]; [30; 5]; [70; 10]]%Q.


(** The time stamps of two daily records. *)
Definition wrf_times : gmap string (list string) :=
  {[ "Times"%string := ["2010-01-01_00:00:00"; "2010-01-02_00:00:00"]%string ]}.

(** The radiation fluxes at the surface on one time step and two grid
    points. *)
Definition radiation : gmap string chunk :=
  {[ "ACSWDNB"%string := finite [[200; 150]]%Q;
     "ACSWUPB"%string := finite [[30; 20]]%Q;
     "ACLWDNB"%string := finite [[300; 310]]%Q;
     "ACLWUPB"%string := finite [[350; 340]]%Q ]}.

(** * Properties *)

(** ** Checking of the prerequisites *)

Lemma check_prerequisites_false target varmap l :
  foldl (DerivedVariable.check_prerequisite target varmap) false l = false.
Proof.
  induction l as [|v l IH]; simpl; [reflexivity|].
  unfold DerivedVariable.check_prerequisite at 2.
  destruct (decide _); exact IH.
Qed.

Lemma check_prerequisites_present target varmap l :
  Forall (fun var => remap varmap var ∈ variables target) l ->
  foldl (DerivedVariable.check_prerequisite target varmap) true l = true.
Proof.
  induction 1 as [|v l Hv _ IH]; simpl; [reflexivity|].
  unfold DerivedVariable.check_prerequisite at 2.
  fold (remap varmap v). rewrite decide_True by exact Hv. exact IH.
Qed.

Lemma check_prerequisites_missing target varmap l :
  Exists (fun var => remap varmap var ∉ variables target) l ->
  foldl (DerivedVariable.check_prerequisite target varmap) true l = false.
Proof.
  induction 1 as [v l Hv|v l _ IH]; simpl.
  - unfold DerivedVariable.check_prerequisite at 2.
    fold (remap varmap v). rewrite decide_False by exact Hv.
    apply check_prerequisites_false.
  - unfold DerivedVariable.check_prerequisite at 2.
    destruct (decide _); [exact IH | apply check_prerequisites_false].
Qed.

(** C9. Without a constants dataset the declared constants are not looked
    at: when every (re-mapped) prerequisite is a variable of the target,
    checkPrerequisites returns True and sets the flag, whatever constants
    the descriptor declares, and the operations gated on the flag go
    through: createVariable creates the variable and computeValues does not
    stop at the gate. *)
Theorem checkPrerequisites_ignores_constants_without_const
    (self : DerivedVariable.t) (target : Dataset)
    (varmap : option (gmap string string)) :
  Forall (fun var => remap varmap var ∈ variables target)
         (DerivedVariable.prerequisites self) ->
  DerivedVariable.checkPrerequisites self target None varmap
    = Ok (DerivedVariable.set_checked true self, true)
  /\ DerivedVariable.checked (DerivedVariable.set_checked true self) = true
  /\ DerivedVariable.constants (DerivedVariable.set_checked true self)
     = DerivedVariable.constants self
  /\ (forall (NCVar : Type) (add_var : Dataset -> DerivedVariable.add_var_call -> NCVar)
        (out : Dataset),
        exists ncvar,
          DerivedVariable.createVariable add_var
            (DerivedVariable.set_checked true self) out = Ok ncvar)
  /\ (forall (V : Type) (const : option (gmap string V)),
        DerivedVariable.computeValues (DerivedVariable.set_checked true self) const
          <> Raise DerivedVariableError).
Proof.
  intros Hpre. repeat split.
  - unfold DerivedVariable.checkPrerequisites.
    rewrite (check_prerequisites_present _ _ _ Hpre). reflexivity.
  - intros NCVar add_var out. eexists. reflexivity.
  - intros V const. unfold DerivedVariable.computeValues. simpl.
    destruct (DerivedVariable.constants self) as [[|c cs]|]; try discriminate.
    destruct const as [c'|]; [|discriminate].
    destruct (decide _); discriminate.
Qed.

Lemma checkPrerequisites_ignores_constants_witness :
  Forall (fun var => remap None var ∈ variables hydro_dataset)
         (DerivedVariable.prerequisites (TimeOfConvection.base TimeOfConvection.__init__))
  /\ DerivedVariable.constants (TimeOfConvection.base TimeOfConvection.__init__)
     = Some ["XLONG"%string]
  /\ DerivedVariable.checkPrerequisites
       (TimeOfConvection.base TimeOfConvection.__init__) hydro_dataset None None
     = Ok (DerivedVariable.set_checked true
             (TimeOfConvection.base TimeOfConvection.__init__), true).
Proof.
  assert (H : Forall (fun var => remap None var ∈ variables hydro_dataset)
                (DerivedVariable.prerequisites
                   (TimeOfConvection.base TimeOfConvection.__init__))).
  { simpl. repeat constructor; vm_compute; reflexivity. }
  split; [exact H|]. split; [reflexivity|].
  exact (proj1 (checkPrerequisites_ignores_constants_without_const
                  (TimeOfConvection.base TimeOfConvection.__init__)
                  hydro_dataset None H)).
Defined.

(** ** Arrays *)

Lemma ewise_same_length {A B C} (f : A -> B -> C) (a : list A) (b : list B) :
  length a = length b -> ewise f a b = Ok (zip_with f a b).
Proof.
  revert b. induction a as [|x a IH]; intros [|y b] Hlen; simpl in *;
    try discriminate; [reflexivity|].
  rewrite IH by lia. reflexivity.
Qed.

Lemma reduce0_length f (init : field) (c : chunk) :
  Forall (fun slice => length slice = length init) c ->
  length (reduce0 f init c) = length init.
Proof.
  unfold reduce0. revert init.
  induction c as [|slice c IH]; intros init Hc; simpl; [reflexivity|].
  inversion Hc as [|? ? Hs Hc']; subst.
  assert (Hz : length (zip_with f init slice) = length init)
    by (rewrite length_zip_with; lia).
  rewrite IH; [exact Hz|].
  eapply Forall_impl; [exact Hc'|]. simpl. intros s Hs'. lia.
Qed.

Lemma reduce0_lookup f (init : field) (c : chunk) (j : nat) (x : num) :
  Forall (fun slice => length slice = length init) c ->
  init !! j = Some x ->
  reduce0 f init c !! j = Some (foldl f x (column j c)).
Proof.
  unfold reduce0. revert init x.
  induction c as [|slice c IH]; intros init x Hc Hj; simpl; [exact Hj|].
  inversion Hc as [|? ? Hs Hc']; subst.
  assert (Hlt : (j < length slice)%nat)
    by (rewrite Hs; eapply lookup_lt_Some; exact Hj).
  destruct (lookup_lt_is_Some_2 _ _ Hlt) as [y Hy].
  rewrite Hy. simpl. apply IH.
  - eapply Forall_impl; [exact Hc'|]. simpl. intros s Hs'.
    rewrite length_zip_with. lia.
  - rewrite lookup_zip_with, Hj. simpl. rewrite Hy. reflexivity.
Qed.

Lemma zeros_lookup (n j : nat) : (j < n)%nat -> zeros n !! j = Some (Num 0).
Proof. intros H. unfold zeros. apply lookup_replicate. auto. Qed.

Lemma width_rectangular {A} (c : list (list A)) (m : nat) :
  (0 < size c)%nat -> Forall (fun slice => length slice = m) c -> width c = m.
Proof.
  destruct c as [|slice c]; unfold size; simpl; [lia|].
  intros _ H. inversion H; subst. reflexivity.
Qed.

(** ** The default aggregation *)

(** C3 (amended to a chunk that is not empty). With normalize set and an
    accumulator, the default aggregation returns, at every grid point, the
    accumulator plus the sum of the samples of the chunk along the
    aggregation axis (NaN counted as zero when ignoreNaN is set); nothing is
    divided by the number of samples. Without an accumulator the call raises
    DerivedVariableError. *)
Theorem aggregateValues_adds_sum_of_chunk
    (self : DerivedVariable.t) (c : chunk) (a : field) :
  DerivedVariable.normalize self = true ->
  (0 < size c)%nat ->
  Forall (fun slice => length slice = length a) c ->
  (exists r,
     DerivedVariable.aggregateValues self (Some c) (Some a) = Ok (Some r)
     /\ length r = length a
     /\ forall j x, a !! j = Some x ->
          r !! j = Some (nadd x (total (DerivedVariable.ignoreNaN self) (column j c))))
  /\ DerivedVariable.aggregateValues self (Some c) None = Raise DerivedVariableError.
Proof.
  intros Hnorm Hsize Hrect.
  assert (Hw : width c = length a) by (eapply width_rectangular; eauto).
  assert (Hz : length (zeros (width c)) = length a)
    by (unfold zeros; rewrite length_replicate; exact Hw).
  assert (Hrect' : Forall (fun slice => length slice = length (zeros (width c))) c)
    by (eapply Forall_impl; [exact Hrect|]; simpl; intros; lia).
  unfold DerivedVariable.aggregateValues.
  apply Nat.ltb_lt in Hsize. rewrite Hsize, Hnorm. simpl.
  split; [|reflexivity].
  destruct (DerivedVariable.ignoreNaN self).
  - unfold np_nansum. rewrite ewise_same_length
      by (rewrite reduce0_length by exact Hrect'; lia).
    simpl. eexists. split; [reflexivity|]. split.
    + rewrite length_zip_with, reduce0_length by exact Hrect'. lia.
    + intros j x Hj. rewrite lookup_zip_with, Hj. simpl.
      erewrite reduce0_lookup; [reflexivity|exact Hrect'|].
      apply zeros_lookup. rewrite Hw. eapply lookup_lt_Some; exact Hj.
  - unfold np_sum. rewrite ewise_same_length
      by (rewrite reduce0_length by exact Hrect'; lia).
    simpl. eexists. split; [reflexivity|]. split.
    + rewrite length_zip_with, reduce0_length by exact Hrect'. lia.
    + intros j x Hj. rewrite lookup_zip_with, Hj. simpl.
      erewrite reduce0_lookup; [reflexivity|exact Hrect'|].
      apply zeros_lookup. rewrite Hw. eapply lookup_lt_Some; exact Hj.
Qed.

Lemma aggregateValues_adds_sum_witness :
  DerivedVariable.normalize checked_rain = true
  /\ (0 < size [[Num 2; NaN]; [Num 4; Num 1]])%nat
  /\ exists r,
       DerivedVariable.aggregateValues checked_rain
         (Some [[Num 2; NaN]; [Num 4; Num 1]]) (Some [Num 10; Num 20]) = Ok (Some r)
       /\ length r = 2%nat.
Proof.
  split; [reflexivity|]. split; [vm_compute; lia|].
  destruct (aggregateValues_adds_sum_of_chunk checked_rain
              [[Num 2; NaN]; [Num 4; Num 1]] [Num 10; Num 20])
    as [[r [Hr [Hlen _]]] _].
  - reflexivity.
  - vm_compute. lia.
  - repeat constructor.
  - exists r. split; [exact Hr | exact Hlen].
Defined.

(** The claim C3 as stated fails on an empty chunk: with normalize set and
    no accumulator, the call returns None and raises nothing. *)
Lemma aggregateValues_empty_chunk_no_error :
  DerivedVariable.normalize checked_rain = true
  /\ DerivedVariable.aggregateValues checked_rain (Some []) None = Ok None.
Proof. split; reflexivity. Qed.

(** C4 (amended). On a chunk that is not empty and without an accumulator,
    the default aggregation raises DerivedVariableError when normalize is
    set; it is with normalize unset that it returns the mean of the chunk
    along the aggregation axis (the mean of the samples that are not NaN
    when ignoreNaN is set). *)
Theorem aggregateValues_without_accumulator
    (self : DerivedVariable.t) (c : chunk) :
  (0 < size c)%nat ->
  DerivedVariable.aggregateValues self (Some c) None
  = if DerivedVariable.normalize self then Raise DerivedVariableError
    else Ok (Some (if DerivedVariable.ignoreNaN self then np_nanmean c
                   else np_mean c)).
Proof.
  intros Hsize. unfold DerivedVariable.aggregateValues.
  apply Nat.ltb_lt in Hsize. rewrite Hsize.
  destruct (DerivedVariable.normalize self), (DerivedVariable.ignoreNaN self);
    reflexivity.
Qed.

Lemma aggregateValues_without_accumulator_witness :
  (0 < size [[Num 2]; [Num 4]])%nat
  /\ DerivedVariable.aggregateValues checked_rain (Some [[Num 2]; [Num 4]]) None
     = Raise DerivedVariableError.
Proof.
  split; [vm_compute; lia|].
  rewrite (aggregateValues_without_accumulator checked_rain [[Num 2]; [Num 4]])
    by (vm_compute; lia).
  reflexivity.
Defined.

(** The claim C4 as stated fails: normalize is set, the accumulator is None
    and the chunk holds two samples, and the call raises. *)
Lemma aggregateValues_normalize_without_accumulator_raises :
  DerivedVariable.normalize checked_rain = true
  /\ DerivedVariable.aggregateValues checked_rain (Some [[Num 2]; [Num 4]]) None
     = Raise DerivedVariableError.
Proof. split; reflexivity. Qed.

(** ** Chunks without a result *)

Lemma Extrema_init_normalize var mode name long_name dimmap ign e :
  Extrema.__init__ var mode name long_name dimmap ign = Ok e ->
  DerivedVariable.normalize (Extrema.base e) = false.
Proof.
  unfold Extrema.__init__. intros H.
  destruct (String.eqb (lower mode) "max");
    [|destruct (String.eqb (lower mode) "min"); [|discriminate]];
    simpl in H; destruct name as [n|]; simpl in H;
    try destruct (capitalize (var_name var)); simpl in H;
    inversion H; reflexivity.
Qed.

(** C5 (amended). A chunk result without elements leaves the accumulator
    as it is, in the default aggregation and in the aggregation of extrema,
    and no exception is raised; a chunk result that is None does the same
    in the aggregation of extrema, whereas the default aggregation rejects
    it with TypeError. *)
Theorem aggregateValues_empty_chunk_noop
    (self : DerivedVariable.t) (e : Extrema.t) (c : chunk) (f : field)
    (acc : option field) :
  size c = 0%nat ->
  length f = 0%nat ->
  DerivedVariable.normalize (Extrema.base e) = false ->
  DerivedVariable.aggregateValues self (Some c) acc = Ok acc
  /\ Extrema.aggregateValues e (Some f) acc = Ok acc
  /\ Extrema.aggregateValues e None acc = Ok acc
  /\ DerivedVariable.aggregateValues self None acc = Raise TypeError.
Proof.
  intros Hc Hf Hn. repeat split.
  - unfold DerivedVariable.aggregateValues. rewrite Hc. reflexivity.
  - unfold Extrema.aggregateValues. rewrite Hn, Hf. reflexivity.
  - unfold Extrema.aggregateValues. rewrite Hn. reflexivity.
Qed.

Lemma aggregateValues_empty_chunk_noop_witness :
  exists e,
    Extrema.__init__ t2_var "max" None None None false = Ok e
    /\ DerivedVariable.aggregateValues checked_rain (Some [[]; []]) (Some [Num 1])
       = Ok (Some [Num 1])
    /\ Extrema.aggregateValues e (Some []) (Some [Num 1]) = Ok (Some [Num 1])
    /\ Extrema.aggregateValues e None (Some [Num 1]) = Ok (Some [Num 1]).
Proof.
  destruct (Extrema.__init__ t2_var "max" None None None false) as [e|x] eqn:He;
    [|vm_compute in He; discriminate].
  exists e. split; [reflexivity|].
  destruct (aggregateValues_empty_chunk_noop checked_rain e [[]; []] []
              (Some [Num 1])) as [H1 [H2 [H3 _]]].
  - reflexivity.
  - reflexivity.
  - eapply Extrema_init_normalize. exact He.
  - auto.
Defined.

(** The claim C5 as stated fails for the default aggregation: a chunk
    result that is None raises TypeError. *)
Lemma aggregateValues_default_rejects_None :
  DerivedVariable.aggregateValues checked_rain None (Some [Num 1])
  = Raise TypeError.
Proof. reflexivity. Qed.

(** ** The wet-day indicator *)


Lemma float_ltb_nan (x : float) : PrimFloat.ltb x PrimFloat.nan = false.
Proof.
  rewrite ltb_spec. unfold SFltb.
  replace (Prim2SF PrimFloat.nan) with S754_nan by reflexivity.
  destruct (Prim2SF x) as [s|s| |s m e]; simpl; try reflexivity.
Qed.


Lemma lookup2_map {A B} (f : A -> B) (x : list (list A)) (i j : nat) (v : A) :
  x !! i ≫= (.!! j) = Some v ->
  map (map f) x !! i ≫= (.!! j) = Some (f v).
Proof.
  intros H. rewrite list_lookup_fmap.
  destruct (x !! i) as [row|]; simpl in *; [|discriminate].
  rewrite list_lookup_fmap, H. reflexivity.
Qed.



(** ** Partition of the precipitation by the solid fraction *)

Lemma ewise2_same_shape {A B C} (f : A -> B -> C)
    (a : list (list A)) (b : list (list B)) :
  Forall2 (fun r s => length r = length s) a b ->
  ewise2 f a b = Ok (zip_with (zip_with f) a b).
Proof.
  induction 1 as [|r s a b Hlen _ IH]; simpl; [reflexivity|].
  rewrite (ewise_same_length f r s Hlen), IH. reflexivity.
Qed.

Lemma finite_same_shape (R S : list (list Q)) :
  Forall2 (fun r s => length r = length s) R S ->
  Forall2 (fun r s => length r = length s) (finite R) (finite S).
Proof.
  induction 1 as [|r s R S Hlen _ IH]; simpl; constructor; [|exact IH].
  rewrite !length_map. exact Hlen.
Qed.

Lemma at2_zip_with {A B C} (f : A -> B -> C) (a : list (list A))
    (b : list (list B)) (i j : nat) (x : A) (y : B) :
  at2 a i j = Some x -> at2 b i j = Some y ->
  at2 (zip_with (zip_with f) a b) i j = Some (f x y).
Proof.
  unfold at2. intros Ha Hb. rewrite lookup_zip_with.
  destruct (a !! i) as [r|]; simpl in *; [|discriminate].
  destruct (b !! i) as [s|]; simpl in *; [|discriminate].
  rewrite lookup_zip_with, Ha. simpl. rewrite Hb. reflexivity.
Qed.

Lemma at2_map {A B} (f : A -> B) (a : list (list A)) (i j : nat) (x : A) :
  at2 a i j = Some x -> at2 (map (map f) a) i j = Some (f x).
Proof. apply lookup2_map. Qed.

Lemma at2_finite (R : list (list Q)) (i j : nat) (r : Q) :
  at2 R i j = Some r -> at2 (finite R) i j = Some (Num r).
Proof. apply at2_map. Qed.

Lemma np_max_all_finite (S : list (list Q)) :
  (concat S = [] /\ np_max_all (finite S) = Raise ValueError)
  \/ exists m, np_max_all (finite S) = Ok (Num m).
Proof.
  unfold np_max_all, finite.
  assert (Hc : concat (map (map Num) S) = map Num (concat S)).
  { induction S as [|r S IH]; simpl; [reflexivity|].
    rewrite IH, map_app. reflexivity. }
  rewrite Hc. clear Hc. destruct (concat S) as [|q l]; simpl; [left; auto|].
  right. revert q. induction l as [|q' l IH]; intros q; simpl; eauto.
Qed.

Section RowPartition.

Variables (fl : num -> num -> num) (h : num -> num).
Hypothesis parts_sum :
  forall r s : Q,
    num_eq (nadd (fl (Num r) (Num s)) (h (nmul (Num r) (Num s)))) (Num r).

Lemma row_partition (r s : list Q) :
  length r = length s ->
  exists sum,
    ewise nadd (zip_with fl (map Num r) (map Num s))
               (map h (zip_with nmul (map Num r) (map Num s))) = Ok sum
    /\ Forall2 num_eq sum (map Num r).
Proof.
  revert s. induction r as [|x r IH]; intros [|y s] Hlen; simpl in *;
    try discriminate.
  - eexists. split; [reflexivity|constructor].
  - destruct (IH s) as [sum [Hsum Heq]]; [lia|].
    rewrite Hsum. simpl. eexists. split; [reflexivity|].
    constructor; [apply parts_sum | exact Heq].
Qed.

Lemma chunk_partition (R S : list (list Q)) :
  Forall2 (fun r s => length r = length s) R S ->
  exists sum,
    ewise2 nadd (zip_with (zip_with fl) (finite R) (finite S))
                (map (map h) (zip_with (zip_with nmul) (finite R) (finite S)))
      = Ok sum
    /\ Forall2 (Forall2 num_eq) sum (finite R).
Proof.
  induction 1 as [|r s R S Hlen _ [sum [Hsum Heq]]]; simpl.
  - eexists. split; [reflexivity|constructor].
  - destruct (row_partition r s Hlen) as [sum0 [Hsum0 Heq0]].
    rewrite Hsum0. simpl. rewrite Hsum. simpl.
    eexists. split; [reflexivity|]. constructor; assumption.
Qed.

End RowPartition.

Lemma map_map_id {A} (x : list (list A)) : map (map (fun a => a)) x = x.
Proof.
  induction x as [|r x IH]; simpl; [reflexivity|].
  rewrite IH. f_equal. induction r as [|a r IHr]; simpl; congruence.
Qed.

(** C10. For finite RAIN and SR fields of one shape, the liquid and the
    solid precipitation computed from the solid fraction add up, element by
    element, to RAIN, in the branch that halves the ratio (max(SR) > 1) and
    in the branch that takes it as it is; on fields without elements both
    computations raise. *)
Theorem SR_partition_sums_to_RAIN
    (V : Type) (R S : list (list Q)) (indata : gmap string chunk)
    (const : option (gmap string V)) :
  Forall2 (fun r s => length r = length s) R S ->
  indata !! "RAIN"%string = Some (finite R) ->
  indata !! "SR"%string = Some (finite S) ->
  (concat S = []
   /\ LiquidPrecipSR.computeValues checked_liquid_sr indata const = Raise ValueError
   /\ SolidPrecipSR.computeValues checked_solid_sr indata const = Raise ValueError)
  \/ exists m liquid solid sum,
       np_max_all (finite S) = Ok (Num m)
       /\ LiquidPrecipSR.computeValues checked_liquid_sr indata const = Ok liquid
       /\ SolidPrecipSR.computeValues checked_solid_sr indata const = Ok solid
       /\ ewise2 nadd liquid solid = Ok sum
       /\ Forall2 (Forall2 num_eq) sum (finite R)
       /\ forall i j r sr, at2 R i j = Some r -> at2 S i j = Some sr ->
            if Qle_bool m 1
            then at2 liquid i j = Some (Num (r * (1 - sr)))
                 /\ at2 solid i j = Some (Num (r * sr))
            else at2 liquid i j = Some (Num (r * (1 - sr / 2)))
                 /\ at2 solid i j = Some (Num (r * sr / 2)).
Proof.
  intros Hshape HR HS.
  pose proof (finite_same_shape R S Hshape) as Hshape'.
  unfold LiquidPrecipSR.computeValues, SolidPrecipSR.computeValues, getitem.
  rewrite HR, HS. simpl.
  rewrite !(ewise2_same_shape _ _ _ Hshape'). simpl.
  destruct (np_max_all_finite S) as [[Hempty Hmax]|[m Hmax]]; rewrite Hmax; simpl.
  - left. auto.
  - right. exists m. unfold num_gtb.
    destruct (Qle_bool m 1); simpl.
    + destruct (chunk_partition (fun r sr => nmul r (nsub (Num 1) sr))
                  (fun x => x)) with (R := R) (S := S) as [sum [Hsum Heq]];
        [intros r s; simpl; ring | exact Hshape |].
      rewrite map_map_id in Hsum.
      do 3 eexists. split; [reflexivity|]. split; [reflexivity|].
      split; [reflexivity|]. split; [exact Hsum|]. split; [exact Heq|].
      intros i j r sr Hr Hsr. split.
      * erewrite at2_zip_with by (apply at2_finite; eassumption). reflexivity.
      * erewrite at2_zip_with by (apply at2_finite; eassumption). reflexivity.
    + destruct (chunk_partition
                  (fun r sr => nmul r (nsub (Num 1) (ndivq sr 2)))
                  (fun x => ndivq x 2)) with (R := R) (S := S)
        as [sum [Hsum Heq]];
        [intros r s; simpl; field | exact Hshape |].
      do 3 eexists. split; [reflexivity|]. split; [reflexivity|].
      split; [reflexivity|]. split; [exact Hsum|]. split; [exact Heq|].
      intros i j r sr Hr Hsr. split.
      * erewrite at2_zip_with by (apply at2_finite; eassumption). reflexivity.
      * rewrite (at2_map _ _ i j (nmul (Num r) (Num sr))); [reflexivity|].
        erewrite at2_zip_with by (apply at2_finite; eassumption). reflexivity.
Qed.

Lemma SR_partition_sums_to_RAIN_witness :
  Forall2 (fun r s : list Q => length r = length s) [[2; 4]]%Q [[1 # 2; 2]]%Q
  /\ exists liquid solid sum,
       LiquidPrecipSR.computeValues (V:=unit) checked_liquid_sr sr_indata None = Ok liquid
       /\ SolidPrecipSR.computeValues (V:=unit) checked_solid_sr sr_indata None = Ok solid
       /\ ewise2 nadd liquid solid = Ok sum
       /\ Forall2 (Forall2 num_eq) sum (finite [[2; 4]]%Q).
Proof.
  assert (Hshape : Forall2 (fun r s : list Q => length r = length s)
                     [[2; 4]]%Q [[1 # 2; 2]]%Q) by (repeat constructor).
  split; [exact Hshape|].
  destruct (SR_partition_sums_to_RAIN unit [[2; 4]]%Q [[1 # 2; 2]]%Q
              sr_indata None Hshape)
    as [[Hempty _]|(m & liquid & solid & sum & _ & Hl & Hs & Hsum & Heq & _)].
  - reflexivity.
  - reflexivity.
  - discriminate Hempty.
  - exists liquid, solid, sum. auto.
Defined.

(** ** Linear variables and the time average *)

Lemma num_eq_refl (x : num) : num_eq x x.
Proof. destruct x; simpl; [exact I | reflexivity]. Qed.






Lemma Rain_computeValues_sum (V : Type) (indata : gmap string chunk)
    (nc c : chunk) (delta : option Q) (const : option (gmap string V)) :
  indata !! "RAINNC"%string = Some nc ->
  indata !! "RAINC"%string = Some c ->
  nonzero_interval delta ->
  Rain.computeValues checked_rain indata delta const = ewise2 nadd nc c.
Proof.
  intros Hnc Hc Hd. unfold Rain.computeValues, getitem. rewrite Hnc, Hc. simpl.
  destruct delta as [d|]; simpl; [|reflexivity].
  destruct (Qeq_bool d 0) eqn:E; [|reflexivity].
  apply Qeq_bool_iff in E. contradiction.
Qed.





(** ** The pressure integral *)

Lemma monotonic_test_spec (p : field) :
  forallb (fun d => num_ltb d 0) (np_diff p) = true <-> strictly_decreasing p.
Proof.
  unfold strictly_decreasing, np_diff. rewrite forallb_forall. split.
  - intros H i a b Ha Hb.
    assert (Hin : In (nsub b a) (zip_with (fun a b => nsub b a) p (tail p))).
    { apply list_elem_of_In, list_elem_of_lookup. exists i.
      rewrite lookup_zip_with, Ha. simpl. rewrite lookup_tail, Hb. reflexivity. }
    specialize (H _ Hin). destruct a as [|a], b as [|b]; simpl in *;
      try discriminate.
    apply negb_true_iff in H.
    destruct (Qlt_le_dec b a) as [Hlt|Hle]; [exact Hlt|].
    assert (Hle' : (0 <= b - a)%Q) by lra.
    apply Qle_bool_iff in Hle'. congruence.
  - intros H x Hin.
    apply list_elem_of_In, list_elem_of_lookup in Hin. destruct Hin as [i Hi].
    rewrite lookup_zip_with in Hi.
    destruct (p !! i) as [a|] eqn:Ha; simpl in Hi; [|discriminate].
    rewrite lookup_tail in Hi.
    destruct (p !! S i) as [b|] eqn:Hb; simpl in Hi; [|discriminate].
    inversion Hi; subst. specialize (H i a b Ha Hb).
    destruct a as [|a], b as [|b]; simpl in *; try contradiction.
    apply negb_true_iff. destruct (Qle_bool 0 (b - a)) eqn:E; [|reflexivity].
    apply Qle_bool_iff in E. lra.
Qed.

Lemma nan_to_num_idem (x : num) : nan_to_num (nan_to_num x) = nan_to_num x.
Proof. destruct x; reflexivity. Qed.

Lemma np_nan_to_num_idem (x : field4) :
  np_nan_to_num (np_nan_to_num x) = np_nan_to_num x.
Proof.
  unfold np_nan_to_num. rewrite map_map. apply map_ext. intros levels.
  rewrite map_map. apply map_ext. intros l.
  rewrite map_map. apply map_ext. intros a. apply nan_to_num_idem.
Qed.

Lemma np_nan_to_num_shape (x : field4) :
  shape2 (np_nan_to_num x) = shape2 x
  /\ width (default [] (head (np_nan_to_num x))) = width (default [] (head x)).
Proof.
  unfold shape2, np_nan_to_num. destruct x as [|levels x]; simpl; [auto|].
  rewrite !length_map. split; [reflexivity|].
  destruct levels as [|l levels]; simpl; [reflexivity|].
  rewrite length_map. reflexivity.
Qed.

Lemma at3_np_nan_to_num (x : field4) (t k j : nat) (v : num) :
  at3 x t k j = Some v -> at3 (np_nan_to_num x) t k j = Some (nan_to_num v).
Proof.
  unfold at3, at2, np_nan_to_num. intros H. rewrite list_lookup_fmap.
  destruct (x !! t) as [levels|]; simpl in *; [|discriminate].
  rewrite list_lookup_fmap.
  destruct (levels !! k) as [l|]; simpl in *; [|discriminate].
  rewrite list_lookup_fmap, H. reflexivity.
Qed.

Lemma ewise_lookup {A B C} (f : A -> B -> C) (a : list A) (b : list B)
    (r : list C) (j : nat) (x : A) (y : B) :
  ewise f a b = Ok r -> a !! j = Some x -> b !! j = Some y ->
  r !! j = Some (f x y).
Proof.
  revert b r j. induction a as [|x0 a IH]; intros [|y0 b] r j Hr Ha Hb;
    simpl in *; try discriminate.
  destruct (ewise f a b) as [r'|e] eqn:E; simpl in Hr; [|discriminate].
  inversion Hr; subst. destruct j as [|j]; simpl in *.
  - inversion Ha; inversion Hb; subst. reflexivity.
  - eapply IH; eauto.
Qed.

Lemma weight_levels_lookup RMg (v t : list field) (p : field) (r : list field)
    (k : nat) (vl tl : field) (pk : num) :
  weight_levels RMg v t p = Ok r ->
  v !! k = Some vl -> t !! k = Some tl -> p !! k = Some pk ->
  exists rl, r !! k = Some rl /\ weight_level RMg vl tl pk = Ok rl.
Proof.
  revert t p r k. induction v as [|v0 v IH]; intros [|t0 t] [|p0 p] r k Hr Hv Ht Hp;
    simpl in *; try discriminate.
  destruct (weight_level RMg v0 t0 p0) as [r0|e] eqn:E0; simpl in Hr; [|discriminate].
  destruct (weight_levels RMg v t p) as [r'|e] eqn:E; simpl in Hr; [|discriminate].
  inversion Hr; subst. destruct k as [|k]; simpl in *.
  - inversion Hv; inversion Ht; inversion Hp; subst. eauto.
  - eapply IH; eauto.
Qed.

Lemma weight_all_lookup RMg (var T : field4) (p : list field) (r : field4)
    (i : nat) (v t : list field) (pt : field) :
  weight_all RMg var T p = Ok r ->
  var !! i = Some v -> T !! i = Some t -> p !! i = Some pt ->
  exists rt, r !! i = Some rt /\ weight_levels RMg v t pt = Ok rt.
Proof.
  revert T p r i. induction var as [|v0 var IH];
    intros [|t0 T] [|p0 p] r i Hr Hv Ht Hp; simpl in *; try discriminate.
  destruct (weight_levels RMg v0 t0 p0) as [r0|e] eqn:E0; simpl in Hr; [|discriminate].
  destruct (weight_all RMg var T p) as [r'|e] eqn:E; simpl in Hr; [|discriminate].
  inversion Hr; subst. destruct i as [|i]; simpl in *.
  - inversion Hv; inversion Ht; inversion Hp; subst. eauto.
  - eapply IH; eauto.
Qed.

Lemma weight_all_at3 RMg (var T : field4) (p : list field) (r : field4)
    (i k j : nat) (v t pk : num) :
  weight_all RMg var T p = Ok r ->
  at3 var i k j = Some v -> at3 T i k j = Some t -> at2 p i k = Some pk ->
  at3 r i k j = Some (ndiv (nmul (nmul (Num RMg) v) t) pk).
Proof.
  unfold at3, at2. intros Hr Hv Ht Hp.
  destruct (var !! i) as [vi|] eqn:Hvi; simpl in Hv; [|discriminate].
  destruct (T !! i) as [ti|] eqn:Hti; simpl in Ht; [|discriminate].
  destruct (p !! i) as [pi|] eqn:Hpi; simpl in Hp; [|discriminate].
  destruct (vi !! k) as [vl|] eqn:Hvl; simpl in Hv; [|discriminate].
  destruct (ti !! k) as [tl|] eqn:Htl; simpl in Ht; [|discriminate].
  destruct (weight_all_lookup _ _ _ _ _ _ _ _ _ Hr Hvi Hti Hpi) as [rt [Hrt Hlev]].
  destruct (weight_levels_lookup _ _ _ _ _ _ _ _ _ Hlev Hvl Htl Hp) as [rl [Hrl Hw]].
  rewrite Hrt. simpl. rewrite Hrl. simpl.
  unfold weight_level in Hw. eapply (ewise_lookup _ _ _ _ _ _ _ Hw); eauto.
Qed.

Lemma weight_levels_total RMg (v t : list field) (p : field) :
  Forall2 (fun a b : field => length a = length b) v t ->
  length t = length p ->
  exists r, weight_levels RMg v t p = Ok r.
Proof.
  intros H. revert p. induction H as [|a b v t Hab _ IH]; intros [|pk p] Hlen;
    simpl in *; try discriminate; [eauto|].
  unfold weight_level. rewrite (ewise_same_length _ a b Hab). simpl.
  destruct (IH p) as [r Hr]; [lia|]. rewrite Hr. simpl. eauto.
Qed.

Lemma weight_all_total RMg (var T : field4) (p : list field) :
  conform var T p -> exists r, weight_all RMg var T p = Ok r.
Proof.
  intros [H1 H2]. revert p H2.
  induction H1 as [|v t var T Hvt _ IH]; intros p H2; inversion H2; subst;
    simpl; [eauto|].
  destruct (weight_levels_total RMg v t y) as [r0 Hr0]; [exact Hvt|assumption|].
  rewrite Hr0. simpl. destruct (IH l') as [r Hr]; [assumption|].
  rewrite Hr. simpl. eauto.
Qed.

Lemma conform_np_nan_to_num (var T : field4) (p : list field) :
  conform var T p -> conform (np_nan_to_num var) (np_nan_to_num T) p.
Proof.
  intros [H1 H2]. unfold np_nan_to_num. split.
  - apply Forall2_fmap. eapply Forall2_impl; [exact H1|].
    intros v t Hvt. apply Forall2_fmap. eapply Forall2_impl; [exact Hvt|].
    simpl. intros a b Hab. rewrite !length_map. exact Hab.
  - apply Forall2_fmap_l. eapply Forall2_impl; [exact H2|].
    simpl. intros t pt Hlen. rewrite length_map. exact Hlen.
Qed.

Lemma conform_shape2 (var T : field4) (p : list field) :
  conform var T p -> shape2 T = shape2 p.
Proof.
  intros [_ H2]. unfold shape2. destruct H2 as [|t pt T p Hlen H2]; simpl.
  - reflexivity.
  - apply Forall2_length in H2. congruence.
Qed.

(** C6. pressureIntegral raises whenever the pressure axis (the levels of
    the first time step) does not decrease strictly. When it does, for
    fields of one shape the result is the quadrature, by simps, over the
    axis extended by the levels 10^5 Pa and 0 Pa (inverted), of the
    integrand RMg * var * T / p in which the NaNs of var and of T are
    replaced by zero, with a level of zeros at either boundary; the result
    does not change when the NaNs are replaced beforehand. *)
Theorem pressureIntegral_contract
    (simps : field4 -> field -> list field) (var T : field4)
    (p : list field) (p0 : field) (RMg : Q) :
  head p = Some p0 ->
  (~ strictly_decreasing p0 ->
     exists e, pressureIntegral simps var T p RMg = Raise e)
  /\ (strictly_decreasing p0 -> conform var T p ->
      let npt := width (default [] (head T)) in
      exists inner,
        weight_all RMg (np_nan_to_num var) (np_nan_to_num T) p = Ok inner
        /\ pressureIntegral simps var T p RMg
           = Ok (simps (map (with_boundaries npt) inner) (extended_axis p0))
        /\ extended_axis p0
           = Num (-1 * 100000) :: map (nmul (Num (-1))) p0 ++ [Num (-1 * 0)]
        /\ Forall (fun levels => head levels = Some (zeros npt)
                                 /\ last levels = Some (zeros npt))
                  (map (with_boundaries npt) inner)
        /\ forall i k j v t pk,
             at3 var i k j = Some v -> at3 T i k j = Some t ->
             at2 p i k = Some pk ->
             at3 (map (with_boundaries npt) inner) i (S k) j
             = Some (ndiv (nmul (nmul (Num RMg) (nan_to_num v)) (nan_to_num t)) pk))
  /\ pressureIntegral simps var T p RMg
     = pressureIntegral simps (np_nan_to_num var) (np_nan_to_num T) p RMg.
Proof.
  intros Hp0. destruct p as [|p0' p']; simpl in Hp0; [discriminate|].
  inversion Hp0; subst p0'. clear Hp0.
  split; [|split].
  - intros Hnot. unfold pressureIntegral.
    destruct (bool_decide (shape2 T = shape2 (p0 :: p'))); simpl; [|eauto].
    destruct (forallb (fun d => num_ltb d 0) (np_diff p0)) eqn:E; simpl; [|eauto].
    apply monotonic_test_spec in E. contradiction.
  - intros Hdec Hconf npt.
    destruct (weight_all_total RMg _ _ _ (conform_np_nan_to_num _ _ _ Hconf))
      as [inner Hinner].
    exists inner. split; [exact Hinner|]. split; [|split; [|split]].
    + unfold pressureIntegral.
      rewrite (bool_decide_eq_true_2 _ (conform_shape2 _ _ _ Hconf)).
      cbn [rbind negb].
      apply monotonic_test_spec in Hdec. rewrite Hdec. cbn [rbind negb].
      rewrite Hinner. reflexivity.
    + unfold extended_axis. simpl. rewrite map_app. reflexivity.
    + apply Forall_forall. intros levels Hin.
      apply list_elem_of_fmap in Hin. destruct Hin as [l [-> _]].
      unfold with_boundaries. split; [reflexivity|].
      rewrite app_comm_cons. apply last_snoc.
    + intros i k j v t pk Hv Ht Hpk.
      pose proof (weight_all_at3 _ _ _ _ _ _ _ _ _ _ _ Hinner
                    (at3_np_nan_to_num _ _ _ _ _ Hv)
                    (at3_np_nan_to_num _ _ _ _ _ Ht) Hpk) as H.
      unfold at3, at2 in *. rewrite list_lookup_fmap.
      destruct (inner !! i) as [levels|]; simpl in *; [|discriminate].
      destruct (levels !! k) as [l|] eqn:Hl; simpl in *; [|discriminate].
      rewrite (lookup_app_l_Some _ _ _ _ Hl). simpl. exact H.
  - unfold pressureIntegral.
    rewrite !np_nan_to_num_idem.
    destruct (np_nan_to_num_shape T) as [-> ->]. reflexivity.
Qed.

Lemma pressureIntegral_contract_witness :
  head pl_p = Some [Num 85000; Num 50000]
  /\ strictly_decreasing [Num 85000; Num 50000]
  /\ conform pl_var pl_T pl_p
  /\ exists inner,
       weight_all 3 (np_nan_to_num pl_var) (np_nan_to_num pl_T) pl_p = Ok inner
       /\ pressureIntegral trapezoid_levels pl_var pl_T pl_p 3
          = Ok (trapezoid_levels (map (with_boundaries 1) inner)
                  (extended_axis [Num 85000; Num 50000])).
Proof.
  assert (Hdec : strictly_decreasing [Num 85000; Num 50000])
    by (apply monotonic_test_spec; vm_compute; reflexivity).
  assert (Hconf : conform pl_var pl_T pl_p)
    by (split; repeat constructor).
  split; [reflexivity|]. split; [exact Hdec|]. split; [exact Hconf|].
  destruct (pressureIntegral_contract trapezoid_levels pl_var pl_T pl_p
              [Num 85000; Num 50000] 3 eq_refl)
    as [_ [Hok _]].
  destruct (Hok Hdec Hconf) as (inner & Hinner & Hrun & _).
  exists inner. split; [exact Hinner | exact Hrun].
Defined.

(** ** Extrema of interval averages *)

Lemma drop_take_same {A} (n : nat) (l : list A) : drop n (take n l) = [].
Proof. apply drop_ge. rewrite length_take. lia. Qed.

(** Whenever computeValues of an interval-averaged extremum returns a
    field, what it leaves in the temporary storage is an empty array: the
    remainder is sliced from the data that was truncated to the full
    intervals on the line before. *)
Lemma MeanExtrema_keeps_no_remainder (V : Type) (self : MeanExtrema.t)
    (indata : gmap string chunk) (delta : option Q)
    (const : option (gmap string V)) (tmp : option tmpdict)
    (out : field) (tmp' : tmpdict) (key : string) :
  DerivedVariable.tmpdata (MeanExtrema.base self) = Some key ->
  MeanExtrema.computeValues self indata delta const tmp = Ok (Some out, tmp') ->
  tmp' !! key = Some (TData []).
Proof.
  intros Hkey. unfold MeanExtrema.computeValues. rewrite Hkey.
  destruct (match delta with
            | Some d => if Qeq_bool d 0 then Raise ValueError else Ok tt
            | None => Ok tt
            end) as [[]|e]; simpl; [|discriminate].
  destruct (DerivedVariable.prerequisites (MeanExtrema.base self)) as [|v l];
    simpl; [discriminate|].
  destruct (getitem indata v) as [new|e]; simpl; [|discriminate].
  destruct tmp as [tmp0|]; simpl; [|discriminate].
  destruct (match tmp0 !! key with
            | Some (TData old) => concatenate old new
            | Some _ => Raise ValueError
            | None => Ok new
            end) as [data|e]; simpl; [|discriminate].
  destruct delta as [d|]; simpl; [|discriminate].
  destruct (int_of_Q (inject_Z (MeanExtrema.interval self) / d) =? 0);
    [discriminate|].
  destruct (0 <? Z.quot _ _); [|discriminate].
  destruct (Extrema.computeValues _ _ _) as [o|e]; simpl; [|discriminate].
  intros H. inversion H; subst. rewrite drop_take_same.
  apply lookup_insert_eq.
Qed.

(** Fewer samples than one interval: computeValues returns None and keeps
    all the samples, those of the storage first. *)
Lemma MeanExtrema_short_record (V : Type) (self : MeanExtrema.t)
    (indata : gmap string chunk) (d : Q) (const : option (gmap string V))
    (tmp : tmpdict) (key v : string) (new data : chunk) :
  DerivedVariable.tmpdata (MeanExtrema.base self) = Some key ->
  DerivedVariable.prerequisites (MeanExtrema.base self) = [v] ->
  indata !! v = Some new ->
  match tmp !! key with
  | Some (TData old) => concatenate old new
  | Some _ => Raise ValueError
  | None => Ok new
  end = Ok data ->
  ~ (d == 0)%Q ->
  (0 <= Z.of_nat (length data)
        < int_of_Q (inject_Z (MeanExtrema.interval self) / d))%Z ->
  MeanExtrema.computeValues self indata (Some d) const (Some tmp)
  = Ok (None, <[key := TData data]> tmp).
Proof.
  intros Hkey Hpre Hnew Hdata Hd Hlt.
  unfold MeanExtrema.computeValues.
  destruct (Qeq_bool d 0) eqn:E; [apply Qeq_bool_iff in E; contradiction|].
  rewrite Hkey, Hpre. cbn [rbind]. unfold getitem. rewrite Hnew. cbn [rbind].
  rewrite Hdata. cbn [rbind].
  destruct (int_of_Q _ =? 0) eqn:E0; [apply Z.eqb_eq in E0; lia|].
  rewrite Z.quot_small by lia. reflexivity.
Qed.

(** C1, on the code. Seven daily samples and a five-day interval: the first
    call returns the maximum of the one five-day mean, (1+2+3+4+10)/5, and
    leaves an empty array in the temporary storage where the samples of
    days six and seven were to be kept; the second call, with three more
    days, finds three samples where five were expected and returns None. *)
Theorem MeanExtrema_drops_leftover_days :
  exists self tmp1 tmp2,
    max_t2_5d = Ok self
    /\ DerivedVariable.tmpdata (MeanExtrema.base self) = Some "MEX_MaxT2_5d"%string
    /\ MeanExtrema.computeValues (V:=unit) (MeanExtrema_checked self)
         {[ "T2"%string := days [1; 2; 3; 4; 10; 6; 7]%Q ]} daily None (Some ∅)
       = Ok (Some [Num (20 # 5)], tmp1)
    /\ tmp1 !! "MEX_MaxT2_5d"%string = Some (TData [])
    /\ MeanExtrema.computeValues (V:=unit) (MeanExtrema_checked self)
         {[ "T2"%string := days [8; 9; 10]%Q ]} daily None (Some tmp1)
       = Ok (None, tmp2)
    /\ tmp2 !! "MEX_MaxT2_5d"%string = Some (TData (days [8; 9; 10]%Q)).
Proof.
  destruct max_t2_5d as [self|e] eqn:Hinit; vm_compute in Hinit; [|discriminate].
  injection Hinit as <-.
  eexists _, _, _. split; [reflexivity|]. split; [reflexivity|].
  split; [vm_compute; reflexivity|]. split; [vm_compute; reflexivity|].
  split; [vm_compute; reflexivity|]. vm_compute; reflexivity.
Qed.

(** ** Consecutive exceedances *)

Lemma wrap16_small (z : Z) : -32768 <= z <= 32767 -> wrap16 z = z.
Proof.
  intros H. unfold wrap16. rewrite Z.mod_small by lia. lia.
Qed.

Lemma qmax_ge_l (a b : Q) : (a <= b)%Q -> (qmax a b == b)%Q.
Proof.
  intros H. unfold qmax. apply Qle_bool_iff in H. rewrite H. reflexivity.
Qed.

Lemma qmax_spec (a b : Q) :
  ((b <= a)%Q -> (qmax a b == a)%Q) /\ ((a <= b)%Q -> (qmax a b == b)%Q).
Proof.
  unfold qmax. destruct (Qle_bool a b) eqn:E; split; intros H; try reflexivity.
  - apply Qle_bool_iff in E. lra.
  - apply Qle_bool_iff in H. congruence.
Qed.

Lemma exceeds_set_period (self : ConsecutiveExtrema.t) (p : Q) (x : num) :
  ConsecutiveExtrema.exceeds (ConsecutiveExtrema.set_period p self) x
  = ConsecutiveExtrema.exceeds self x.
Proof. reflexivity. Qed.

Lemma exceeds_finite (self : ConsecutiveExtrema.t) (x : num) :
  ConsecutiveExtrema.exceeds self x = true -> isnan x = false.
Proof.
  unfold ConsecutiveExtrema.exceeds.
  destruct (ConsecutiveExtrema.thresmode_ self), x; simpl; congruence.
Qed.

(** A run of exceedances moves the counter up and leaves the record of
    maxima where it is. *)
Lemma march_exceeding (self : ConsecutiveExtrema.t) (l : field) (c : Z) (m : Q) :
  Forall (fun x => ConsecutiveExtrema.exceeds self x = true) l ->
  0 <= c -> c + Z.of_nat (length l) <= 32767 ->
  (0 <= m)%Q ->
  exists m',
    ConsecutiveExtrema.march self ([c], [m]) (series l)
    = Ok ([c + Z.of_nat (length l)], [m'])
    /\ (m' == m)%Q.
Proof.
  intros Hl. revert c m. induction Hl as [|x l Hx _ IH]; intros c m Hc Hlen Hm.
  - simpl. exists m. rewrite Z.add_0_r. split; reflexivity.
  - simpl in *. rewrite Hx. simpl.
    rewrite wrap16_small by lia.
    assert (Hq : (qmax m (inject_Z 0 * ConsecutiveExtrema.period self) == m)%Q).
    { destruct (qmax_spec m (inject_Z 0 * ConsecutiveExtrema.period self))
        as [H1 H2].
      destruct (Qlt_le_dec 0 m) as [Hlt|Hle].
      - apply H1. unfold inject_Z. lra.
      - rewrite H2; unfold inject_Z; lra. }
    destruct (IH (c + 1) (qmax m (inject_Z 0 * ConsecutiveExtrema.period self)))
      as [m' [Hm' Heq]]; [lia|lia|rewrite Hq; exact Hm|].
    exists m'. split.
    + rewrite Hm'. do 3 f_equal. lia.
    + rewrite Heq. exact Hq.
Qed.

(** A step without exceedance records the run that ends and resets the
    counter. *)
Lemma step_reset (self : ConsecutiveExtrema.t) (y : num) (c : Z) (m : Q) :
  ConsecutiveExtrema.exceeds self y = false ->
  ConsecutiveExtrema.step self ([c], [m]) [y]
  = Ok ([0], [qmax m (inject_Z c * ConsecutiveExtrema.period self)]).
Proof. intros Hy. simpl. rewrite Hy. reflexivity. Qed.

Lemma march_app (self : ConsecutiveExtrema.t) (st : list Z * list Q)
    (d1 d2 : chunk) :
  ConsecutiveExtrema.march self st (d1 ++ d2)
  = (st' <-- ConsecutiveExtrema.march self st d1 ;;
     ConsecutiveExtrema.march self st' d2).
Proof.
  revert st. induction d1 as [|s d1 IH]; intros st; simpl; [reflexivity|].
  destruct (ConsecutiveExtrema.step self st s) as [st'|e]; simpl; [|reflexivity].
  apply IH.
Qed.

Lemma any_nan_series (l : field) :
  l <> [] -> Forall (fun x => isnan x = false) l ->
  ConsecutiveExtrema.any_nan (series l) = [false].
Proof.
  intros Hne Hl. unfold ConsecutiveExtrema.any_nan.
  assert (H : forall (k : field) (b : bool),
             Forall (fun x => isnan x = false) k ->
             foldl (zip_with (fun (b : bool) x => b || isnan x)) [b] (series k)
             = [b]).
  { intros k b Hk. revert b.
    induction Hk as [|y k Hy _ IH]; intros b; simpl; [reflexivity|].
    rewrite Hy, orb_false_r. apply IH. }
  destruct l as [|x l]; [contradiction|].
  change (width (series (x :: l))) with 1%nat. apply H. exact Hl.
Qed.

Lemma width_series (x : num) (l : field) : width (series (x :: l)) = 1%nat.
Proof. reflexivity. Qed.

Lemma series_app (l1 l2 : field) : series (l1 ++ l2) = series l1 ++ series l2.
Proof. unfold series. apply map_app. Qed.

(** The first call on a fresh storage, along a run of exceedances. *)
Lemma ConsecutiveExtrema_first_call (V : Type) (self : ConsecutiveExtrema.t)
    (v key : string) (indata : gmap string chunk) (l : field) (d : Q)
    (const : option (gmap string V)) :
  fresh_counter self v key ->
  indata !! v = Some (series l) ->
  l <> [] ->
  Forall (fun x => ConsecutiveExtrema.exceeds self x = true) l ->
  Z.of_nat (length l) <= 32767 ->
  exists r m,
    ConsecutiveExtrema.computeValues self indata (Some d) const (Some ∅)
    = Ok (r, ConsecutiveExtrema.set_period (d / 86400) self,
          <[key := TCount [Z.of_nat (length l)]]>
            (<["COX_DELTA"%string := TDelta (Some d)]> ∅))
    /\ unmasked r = Some [Num m] /\ (m == 0)%Q.
Proof.
  intros (Hchk & Hconst & _ & Hpre & Hkey & Hne & _ & Hper & Hday) Hin Hl Hex Hlen.
  unfold ConsecutiveExtrema.computeValues, DerivedVariable.computeValues, getitem.
  rewrite Hchk, Hconst, Hpre, Hkey, Hper, Hday. cbn [rbind negb].
  rewrite lookup_empty. cbn [rbind].
  change (Qeq_bool 0 0) with true. cbn [rbind].
  rewrite Hin. cbn [rbind].
  rewrite lookup_insert_ne by congruence. rewrite lookup_empty. cbn [rbind].
  destruct l as [|x l]; [contradiction|]. rewrite width_series.
  destruct (march_exceeding (ConsecutiveExtrema.set_period (d / 86400) self)
              (x :: l) 0 0) as [m [Hm Heq]];
    [exact Hex | lia | lia | lra |].
  change (replicate 1 0) with [0]. change (replicate 1 0%Q) with [0%Q].
  rewrite Hm. cbn [rbind]. rewrite Z.add_0_l.
  destruct (DerivedVariable.ignoreNaN (ConsecutiveExtrema.base self)).
  - eexists _, m. split; [reflexivity|]. split; [|exact Heq].
    unfold unmasked. rewrite any_nan_series; [reflexivity|discriminate|].
    eapply Forall_impl; [exact Hex|]. intros y. apply exceeds_finite.
  - eexists _, m. split; [reflexivity|]. split; [reflexivity|exact Heq].
Qed.

Lemma period_positive (d : Q) : (0 < d)%Q -> (0 < d / 86400)%Q.
Proof.
  intros Hd. apply Qlt_shift_div_l; lra.
Qed.

(** A later call, with the counter [n1] in the storage: the run goes on
    for the samples of [l] and ends at the sample [y]. *)
Lemma ConsecutiveExtrema_next_call (V : Type) (self : ConsecutiveExtrema.t)
    (v key : string) (indata : gmap string chunk) (l : field) (y d : Q)
    (n1 : Z) (const : option (gmap string V)) :
  fresh_counter self v key ->
  indata !! v = Some (series (l ++ [Num y])) ->
  Forall (fun x => ConsecutiveExtrema.exceeds self x = true) l ->
  ConsecutiveExtrema.exceeds self (Num y) = false ->
  0 <= n1 -> n1 + Z.of_nat (length l) <= 32767 ->
  (0 < d)%Q ->
  exists r m tmp2,
    ConsecutiveExtrema.computeValues
      (ConsecutiveExtrema.set_period (d / 86400) self) indata (Some d) const
      (Some (<[key := TCount [n1]]>
               (<["COX_DELTA"%string := TDelta (Some d)]> ∅)))
    = Ok (r, ConsecutiveExtrema.set_period (d / 86400) self, tmp2)
    /\ tmp2 !! key = Some (TCount [0])
    /\ unmasked r = Some [Num m]
    /\ (m == inject_Z (n1 + Z.of_nat (length l)) * (d / 86400))%Q.
Proof.
  intros (Hchk & Hconst & _ & Hpre & Hkey & Hne & _ & Hper & Hday)
         Hin Hex Hy Hn1 Hlen Hd.
  pose proof (period_positive d Hd) as Hp.
  unfold ConsecutiveExtrema.computeValues, DerivedVariable.computeValues, getitem.
  unfold ConsecutiveExtrema.base in *.
  cbn [ConsecutiveExtrema.ext ConsecutiveExtrema.set_period
       ConsecutiveExtrema.period ConsecutiveExtrema.lengthofday].
  rewrite Hchk, Hconst, Hpre, Hkey. cbn [rbind negb].
  rewrite lookup_insert_ne by congruence. rewrite lookup_insert_eq.
  unfold delta_neqb. rewrite Qeq_bool_refl. cbn [rbind negb].
  destruct (Qeq_bool (d / 86400) 0) eqn:E;
    [apply Qeq_bool_iff in E; rewrite E in Hp; lra|].
  cbn [rbind]. rewrite Hin. cbn [rbind].
  rewrite lookup_insert_eq. cbn [rbind].
  assert (Hw : width (series (l ++ [Num y])) = 1%nat) by (destruct l; reflexivity).
  rewrite Hw. change (replicate 1 0%Q) with [0%Q].
  rewrite series_app, march_app.
  destruct (march_exceeding (ConsecutiveExtrema.set_period (d / 86400) self)
              l n1 0) as [m [Hm Heq]];
    [exact Hex | lia | lia | lra |].
  rewrite Hm. cbn [rbind].
  change (series [Num y]) with [[Num y]].
  cbn [ConsecutiveExtrema.march].
  rewrite step_reset by exact Hy. cbn [rbind].
  cbn [ConsecutiveExtrema.set_period ConsecutiveExtrema.period].
  assert (Hq : (qmax m (inject_Z (n1 + Z.of_nat (length l)) * (d / 86400))
                == inject_Z (n1 + Z.of_nat (length l)) * (d / 86400))%Q).
  { apply qmax_spec. rewrite Heq. apply Qmult_le_0_compat; [|lra].
    change 0%Q with (inject_Z 0). rewrite <- Zle_Qle. lia. }
  assert (Hfin : Forall (fun x => isnan x = false) (l ++ [Num y])).
  { apply Forall_app. split.
    - eapply Forall_impl; [exact Hex|]. intros x. apply exceeds_finite.
    - repeat constructor. }
  destruct (DerivedVariable.ignoreNaN _).
  - eexists _, _, _. split; [reflexivity|].
    split; [apply lookup_insert_eq|]. split; [|exact Hq].
    unfold unmasked.
    replace (series l ++ [[Num y]]) with (series (l ++ [Num y]))
      by apply series_app.
    rewrite any_nan_series; [reflexivity| |exact Hfin].
    destruct l; discriminate.
  - eexists _, _, _. split; [reflexivity|].
    split; [apply lookup_insert_eq|]. split; [reflexivity|exact Hq].
Qed.

(** C2 (amended). A run of exceedances that starts in one chunk and goes
    on in the next is counted as one run: the counter kept in the temporary
    storage after the first chunk is the length of the run so far, and when
    the run ends in the second chunk, at a step that does not exceed the
    threshold, the second call reports the whole run, in days, and the
    aggregation of the two results is that length: n1 + n2 days for daily
    steps. (A run is recorded at the step that ends it; a run that is still
    going at the end of the chunk is kept in the counter and not yet
    reported.) *)
Theorem streak_across_chunks_reported_when_it_ends
    (V : Type) (self : ConsecutiveExtrema.t) (v key : string)
    (l1 l2 : field) (y d : Q) (const : option (gmap string V)) :
  fresh_counter self v key ->
  l1 <> [] ->
  Forall (fun x => ConsecutiveExtrema.exceeds self x = true) l1 ->
  Forall (fun x => ConsecutiveExtrema.exceeds self x = true) l2 ->
  ConsecutiveExtrema.exceeds self (Num y) = false ->
  Z.of_nat (length l1) + Z.of_nat (length l2) <= 32767 ->
  (0 < d)%Q ->
  exists r1 self1 tmp1 r2 self2 tmp2 a1 a2 agg,
    ConsecutiveExtrema.computeValues self {[ v := series l1 ]} (Some d) const
      (Some ∅) = Ok (r1, self1, tmp1)
    /\ tmp1 !! key = Some (TCount [Z.of_nat (length l1)])
    /\ ConsecutiveExtrema.computeValues self1 {[ v := series (l2 ++ [Num y]) ]}
         (Some d) const (Some tmp1) = Ok (r2, self2, tmp2)
    /\ tmp2 !! key = Some (TCount [0])
    /\ unmasked r1 = Some a1
    /\ unmasked r2 = Some a2
    /\ (agg1 <-- Extrema.aggregateValues (ConsecutiveExtrema.ext self2)
                   (Some a1) None ;;
        Extrema.aggregateValues (ConsecutiveExtrema.ext self2) (Some a2) agg1)
       = Ok (Some [Num agg])
    /\ (agg == inject_Z (Z.of_nat (length l1) + Z.of_nat (length l2))
               * (d / 86400))%Q.
Proof.
  intros Hfresh Hl1 Hex1 Hex2 Hy Hlen Hd.
  destruct (ConsecutiveExtrema_first_call V self v key {[ v := series l1 ]}
              l1 d const Hfresh) as (r1 & m1 & Hrun1 & Hr1 & Hm1);
    [apply lookup_singleton_eq | exact Hl1 | exact Hex1 | lia |].
  destruct (ConsecutiveExtrema_next_call V self v key
              {[ v := series (l2 ++ [Num y]) ]} l2 y d
              (Z.of_nat (length l1)) const Hfresh)
    as (r2 & m2 & tmp2 & Hrun2 & Htmp2 & Hr2 & Hm2);
    [apply lookup_singleton_eq | exact Hex2 | exact Hy | lia | lia | exact Hd |].
  destruct Hfresh as (_ & _ & Hnorm & _ & _ & _ & Hmode & _ & _).
  exists r1, (ConsecutiveExtrema.set_period (d / 86400) self),
         (<[key := TCount [Z.of_nat (length l1)]]>
            (<["COX_DELTA"%string := TDelta (Some d)]> ∅)),
         r2, (ConsecutiveExtrema.set_period (d / 86400) self), tmp2,
         [Num m1], [Num m2], (qmax m1 m2).
  split; [exact Hrun1|]. split; [apply lookup_insert_eq|].
  split; [exact Hrun2|]. split; [exact Htmp2|].
  split; [exact Hr1|]. split; [exact Hr2|]. split.
  - unfold Extrema.aggregateValues.
    cbn [ConsecutiveExtrema.ext ConsecutiveExtrema.set_period].
    unfold ConsecutiveExtrema.base in Hnorm. rewrite Hnorm, Hmode.
    cbn [length Nat.ltb Nat.leb rbind].
    destruct (DerivedVariable.ignoreNaN _); reflexivity.
  - rewrite <- Hm2. apply qmax_spec. rewrite Hm1, Hm2.
    apply Qmult_le_0_compat; [|pose proof (period_positive d Hd); lra].
    change 0%Q with (inject_Z 0). rewrite <- Zle_Qle. lia.
Qed.

Lemma streak_across_chunks_witness :
  exists self r1 self1 tmp1 r2 self2 tmp2 a1 a2 agg,
    hot_spell = Ok self
    /\ ConsecutiveExtrema.computeValues (V:=unit) (ConsecutiveExtrema_checked self)
         {[ "T2"%string := series warm3 ]} daily None (Some ∅)
       = Ok (r1, self1, tmp1)
    /\ ConsecutiveExtrema.computeValues (V:=unit) self1
         {[ "T2"%string := series (warm2 ++ [Num 290]) ]} daily None (Some tmp1)
       = Ok (r2, self2, tmp2)
    /\ unmasked r1 = Some a1
    /\ unmasked r2 = Some a2
    /\ (agg1 <-- Extrema.aggregateValues (ConsecutiveExtrema.ext self2)
                   (Some a1) None ;;
        Extrema.aggregateValues (ConsecutiveExtrema.ext self2) (Some a2) agg1)
       = Ok (Some [Num agg])
    /\ (agg == 5)%Q.
Proof.
  destruct hot_spell as [self|e] eqn:Hinit; [|vm_compute in Hinit; discriminate].
  assert (Hfacts :
            fresh_counter (ConsecutiveExtrema_checked self) "T2" "COX_>298.000000T2"
            /\ Forall (fun x => ConsecutiveExtrema.exceeds
                                  (ConsecutiveExtrema_checked self) x = true) warm3
            /\ Forall (fun x => ConsecutiveExtrema.exceeds
                                  (ConsecutiveExtrema_checked self) x = true) warm2
            /\ ConsecutiveExtrema.exceeds (ConsecutiveExtrema_checked self)
                 (Num 290) = false).
  { vm_compute in Hinit. injection Hinit as <-.
    split; [repeat split; try reflexivity; discriminate|].
    split; [repeat constructor|]. split; [repeat constructor|reflexivity]. }
  destruct Hfacts as (Hfresh & Hw3 & Hw2 & Hcool).
  destruct (streak_across_chunks_reported_when_it_ends unit
              (ConsecutiveExtrema_checked self) "T2" "COX_>298.000000T2"
              warm3 warm2 290 86400 None Hfresh)
    as (r1 & self1 & tmp1 & r2 & self2 & tmp2 & a1 & a2 & agg &
        H1 & _ & H2 & _ & Ha1 & Ha2 & Hagg & Heq).
  - discriminate.
  - exact Hw3.
  - exact Hw2.
  - exact Hcool.
  - vm_compute. discriminate.
  - reflexivity.
  - exists self, r1, self1, tmp1, r2, self2, tmp2, a1, a2, agg.
    split; [reflexivity|]. split; [exact H1|]. split; [exact H2|].
    split; [exact Ha1|]. split; [exact Ha2|]. split; [exact Hagg|].
    rewrite Heq. vm_compute. reflexivity.
Defined.

(** The claim C2 as stated fails: three daily steps above the threshold in
    the first chunk and two more in the second, with nothing after them.
    The counter carried in the storage is 5, and the maximum reported after
    the aggregation of the second chunk is 0: the run has not ended. *)
Lemma streak_still_running_reports_zero :
  exists self a1 self1 tmp1 a2 self2 tmp2 agg,
    hot_spell = Ok self
    /\ ConsecutiveExtrema.computeValues (V:=unit) (ConsecutiveExtrema_checked self)
         {[ "T2"%string := series warm3 ]} daily None (Some ∅)
       = Ok (Plain a1, self1, tmp1)
    /\ ConsecutiveExtrema.computeValues (V:=unit) self1
         {[ "T2"%string := series warm2 ]} daily None (Some tmp1)
       = Ok (Plain a2, self2, tmp2)
    /\ tmp2 !! "COX_>298.000000T2"%string = Some (TCount [5])
    /\ (agg1 <-- Extrema.aggregateValues (ConsecutiveExtrema.ext self2)
                   (Some a1) None ;;
        Extrema.aggregateValues (ConsecutiveExtrema.ext self2) (Some a2) agg1)
       = Ok (Some [Num agg])
    /\ (agg == 0)%Q
    /\ ~ (agg == 5)%Q.
Proof.
  destruct hot_spell as [self|e] eqn:Hinit; vm_compute in Hinit; [|discriminate].
  injection Hinit as <-.
  eexists _, _, _, _, _, _, _, _. split; [reflexivity|].
  split; [vm_compute; reflexivity|]. split; [vm_compute; reflexivity|].
  split; [vm_compute; reflexivity|]. split; [vm_compute; reflexivity|].
  split; vm_compute; [reflexivity|discriminate].
Qed.

(** The constructor builds such an object, under the handle made of its
    name. *)
Lemma ConsecutiveExtrema_init_fresh var mode thr str name long_name dimmap ign self :
  ConsecutiveExtrema.__init__ var mode thr str name long_name dimmap ign = Ok self ->
  let key := ("COX_" +:+ DerivedVariable.name (ConsecutiveExtrema.base self))%string in
  key <> "COX_DELTA"%string ->
  fresh_counter (ConsecutiveExtrema_checked self) (var_name var) key.
Proof.
  intros H key Hkey. unfold ConsecutiveExtrema.__init__ in H.
  destruct (String.eqb (lower mode) "above");
    [|destruct (String.eqb (lower mode) "below"); [|discriminate]];
    simpl in H; destruct name as [n|]; simpl in H;
    try destruct (capitalize (var_name var)); simpl in H;
    try discriminate; inversion H; subst; clear H;
    repeat split; try reflexivity; exact Hkey.
Qed.

(** * Further properties *)

(** ** The base class *)

Lemma fold_check_prerequisite target varmap (b : bool) (l : list string) :
  foldl (DerivedVariable.check_prerequisite target varmap) b l = true
  <-> b = true /\ Forall (fun var => remap varmap var ∈ variables target) l.
Proof.
  revert b. induction l as [|v l IH]; intros b; simpl.
  - split; [intros H; split; [exact H|constructor] | intros [H _]; exact H].
  - rewrite IH. unfold DerivedVariable.check_prerequisite. fold (remap varmap v).
    destruct (decide (remap varmap v ∈ variables target)) as [Hin|Hout].
    + split; intros [Hb Hl]; (split; [exact Hb|]).
      * constructor; assumption.
      * inversion Hl; assumption.
    + split; [intros [Hb _]; discriminate|].
      intros [_ Hl]. inversion Hl; contradiction.
Qed.

Lemma fold_check_constant const (b : bool) (l : list string) :
  foldl (DerivedVariable.check_constant const) b l = true
  <-> b = true /\ Forall (fun var => var ∈ variables const) l.
Proof.
  revert b. induction l as [|v l IH]; intros b; simpl.
  - split; [intros H; split; [exact H|constructor] | intros [H _]; exact H].
  - rewrite IH. unfold DerivedVariable.check_constant.
    destruct (decide (v ∈ variables const)) as [Hin|Hout].
    + split; intros [Hb Hl]; (split; [exact Hb|]).
      * constructor; assumption.
      * inversion Hl; assumption.
    + split; [intros [Hb _]; discriminate|].
      intros [_ Hl]. inversion Hl; contradiction.
Qed.

(** X1. checkPrerequisites returns True exactly when every prerequisite,
    under the name the map gives it, is a variable of the target and, if a
    constants dataset is passed, every declared constant is a variable of
    it; the flag of the object is the value returned. A constants dataset
    for a descriptor that declares no constants list raises TypeError. *)
Theorem checkPrerequisites_true_iff
    (self : DerivedVariable.t) (target : Dataset) (const : option Dataset)
    (varmap : option (gmap string string)) :
  match const, DerivedVariable.constants self with
  | Some _, None =>
      DerivedVariable.checkPrerequisites self target const varmap = Raise TypeError
  | _, _ =>
      exists b,
        DerivedVariable.checkPrerequisites self target const varmap
        = Ok (DerivedVariable.set_checked b self, b)
        /\ (b = true <->
            Forall (fun var => remap varmap var ∈ variables target)
                   (DerivedVariable.prerequisites self)
            /\ match const, DerivedVariable.constants self with
               | Some c, Some cs => Forall (fun var => var ∈ variables c) cs
               | _, _ => True
               end)
  end.
Proof.
  unfold DerivedVariable.checkPrerequisites.
  destruct const as [c|], (DerivedVariable.constants self) as [cs|]; simpl;
    try reflexivity.
  - eexists. split; [reflexivity|].
    rewrite fold_check_constant, fold_check_prerequisite. tauto.
  - eexists. split; [reflexivity|]. rewrite fold_check_prerequisite. tauto.
  - eexists. split; [reflexivity|]. rewrite fold_check_prerequisite. tauto.
Qed.

(** X2. The outcome of checkPrerequisites does not depend on the flag the
    object carries: checking the object it returns once more, against the
    same datasets, returns the same object and the same value. *)
Theorem checkPrerequisites_idempotent
    (self self' : DerivedVariable.t) (target : Dataset) (const : option Dataset)
    (varmap : option (gmap string string)) (b : bool) :
  DerivedVariable.checkPrerequisites self target const varmap = Ok (self', b) ->
  DerivedVariable.checkPrerequisites self' target const varmap = Ok (self', b).
Proof.
  unfold DerivedVariable.checkPrerequisites. intros H.
  destruct const as [c|]; simpl in *.
  - destruct (DerivedVariable.constants self) as [cs|] eqn:Hcs; simpl in *;
      [|discriminate].
    inversion H; subst. simpl. rewrite Hcs. reflexivity.
  - inversion H; subst. reflexivity.
Qed.

Lemma checkPrerequisites_idempotent_witness :
  exists self' b,
    DerivedVariable.checkPrerequisites Rain.__init__ hydro_dataset None None
    = Ok (self', b)
    /\ DerivedVariable.checkPrerequisites self' hydro_dataset None None
       = Ok (self', b).
Proof.
  destruct (DerivedVariable.checkPrerequisites Rain.__init__ hydro_dataset None None)
    as [[self' b]|e] eqn:H; [|vm_compute in H; discriminate].
  exists self', b. split; [reflexivity|].
  exact (checkPrerequisites_idempotent _ _ _ _ _ _ H).
Defined.



(** ** Additive variables *)




Lemma budget_row (nc c s : list Q) :
  length nc = length c -> length nc = length s ->
  exists sum,
    ewise nadd (zip_with nsub (zip_with nadd (map Num nc) (map Num c)) (map Num s))
               (map Num s) = Ok sum
    /\ Forall2 num_eq sum (zip_with nadd (map Num nc) (map Num c)).
Proof.
  revert c s. induction nc as [|x nc IH]; intros [|y c] [|z s] H1 H2;
    simpl in *; try discriminate.
  - eexists. split; [reflexivity|constructor].
  - destruct (IH c s) as [sum [Hsum Heq]]; [lia|lia|].
    rewrite Hsum. simpl. eexists. split; [reflexivity|].
    constructor; [simpl; ring|exact Heq].
Qed.

Lemma budget_chunk (NC C S : list (list Q)) :
  same_shape NC C -> same_shape NC S ->
  same_shape (zip_with (zip_with nadd) (finite NC) (finite C)) (finite S)
  /\ exists sum,
       ewise2 nadd
         (zip_with (zip_with nsub)
            (zip_with (zip_with nadd) (finite NC) (finite C)) (finite S))
         (finite S) = Ok sum
       /\ Forall2 (Forall2 num_eq) sum
            (zip_with (zip_with nadd) (finite NC) (finite C)).
Proof.
  unfold same_shape. intros H1. revert S.
  induction H1 as [|nc c NC C Hlen _ IH]; intros S H2;
    inversion H2 as [|? s ? S' Hls HS']; subst; simpl.
  - split; [constructor|]. eexists. split; [reflexivity|constructor].
  - destruct (IH _ HS') as [Hs [sum [Hsum Heq]]].
    split.
    + constructor; [|exact Hs]. rewrite length_zip_with, !length_map. lia.
    + destruct (budget_row nc c s Hlen Hls) as [sum0 [Hsum0 Heq0]].
      rewrite Hsum0. simpl. rewrite Hsum. simpl.
      eexists. split; [reflexivity|]. constructor; assumption.
Qed.

(** X5. The liquid and the solid precipitation (the latter the snow
    accumulation itself) add up to the total precipitation: on finite
    fields RAINNC, RAINC and ACSNOW of one shape the three variables are
    computed and LiquidPrecip + SolidPrecip equals RAIN element by
    element. *)
Theorem LiquidPrecip_plus_SolidPrecip_is_Rain
    (V : Type) (NC C S : list (list Q)) (indata : gmap string chunk)
    (delta : option Q) (const : option (gmap string V)) :
  same_shape NC C -> same_shape NC S ->
  nonzero_interval delta ->
  indata !! "RAINNC"%string = Some (finite NC) ->
  indata !! "RAINC"%string = Some (finite C) ->
  indata !! "ACSNOW"%string = Some (finite S) ->
  exists liquid rain sum,
    LiquidPrecip.computeValues
      (DerivedVariable.set_checked true LiquidPrecip.__init__) indata const
    = Ok liquid
    /\ SolidPrecip.computeValues
         (DerivedVariable.set_checked true SolidPrecip.__init__) indata const
       = Ok (finite S)
    /\ Rain.computeValues checked_rain indata delta const = Ok rain
    /\ ewise2 nadd liquid (finite S) = Ok sum
    /\ Forall2 (Forall2 num_eq) sum rain.
Proof.
  intros H1 H2 Hd HNC HC HS.
  destruct (budget_chunk NC C S H1 H2) as [Hs [sum [Hsum Heq]]].
  pose proof (finite_same_shape NC C H1) as H1'.
  exists (zip_with (zip_with nsub)
            (zip_with (zip_with nadd) (finite NC) (finite C)) (finite S)),
         (zip_with (zip_with nadd) (finite NC) (finite C)), sum.
  split; [|split; [|split; [|split]]].
  - unfold LiquidPrecip.computeValues, getitem. rewrite HNC, HC, HS. simpl.
    rewrite (ewise2_same_shape _ _ _ H1'). simpl.
    apply ewise2_same_shape. exact Hs.
  - unfold SolidPrecip.computeValues, getitem. rewrite HS. reflexivity.
  - rewrite (Rain_computeValues_sum V indata _ _ delta const HNC HC Hd).
    apply ewise2_same_shape. exact H1'.
  - exact Hsum.
  - exact Heq.
Qed.

Lemma LiquidPrecip_plus_SolidPrecip_witness :
  same_shape [[3; 1]]%Q [[2; 0]]%Q
  /\ exists liquid rain sum,
       LiquidPrecip.computeValues (V:=unit)
         (DerivedVariable.set_checked true LiquidPrecip.__init__)
         {[ "RAINNC"%string := finite [[3; 1]]%Q; "RAINC"%string := finite [[2; 0]]%Q;
            "ACSNOW"%string := finite [[1; 1]]%Q ]} None
       = Ok liquid
       /\ Rain.computeValues (V:=unit) checked_rain
            {[ "RAINNC"%string := finite [[3; 1]]%Q; "RAINC"%string := finite [[2; 0]]%Q;
               "ACSNOW"%string := finite [[1; 1]]%Q ]} (Some 86400%Q) None
          = Ok rain
       /\ ewise2 nadd liquid (finite [[1; 1]]%Q) = Ok sum
       /\ Forall2 (Forall2 num_eq) sum rain.
Proof.
  assert (H1 : same_shape [[3; 1]]%Q [[2; 0]]%Q) by (repeat constructor).
  assert (H2 : same_shape [[3; 1]]%Q [[1; 1]]%Q) by (repeat constructor).
  split; [exact H1|].
  destruct (LiquidPrecip_plus_SolidPrecip_is_Rain unit
              [[3; 1]]%Q [[2; 0]]%Q [[1; 1]]%Q
              {[ "RAINNC"%string := finite [[3; 1]]%Q; "RAINC"%string := finite [[2; 0]]%Q;
                 "ACSNOW"%string := finite [[1; 1]]%Q ]}
              (Some 86400%Q) None H1 H2)
    as (liquid & rain & sum & Hl & _ & Hr & Hsum & Heq).
  - vm_compute. discriminate.
  - reflexivity.
  - reflexivity.
  - reflexivity.
  - exists liquid, rain, sum. auto.
Defined.

Lemma forcing_row (l e m : list Q) :
  length l = length e -> length l = length m ->
  exists diff,
    ewise nsub (zip_with nadd (map Num l) (map Num m)) (map Num e) = Ok diff
    /\ Forall2 num_eq
         (zip_with nadd (zip_with nsub (map Num l) (map Num e)) (map Num m)) diff.
Proof.
  revert e m. induction l as [|x l IH]; intros [|y e] [|z m] H1 H2;
    simpl in *; try discriminate.
  - eexists. split; [reflexivity|constructor].
  - destruct (IH e m) as [diff [Hdiff Heq]]; [lia|lia|].
    rewrite Hdiff. simpl. eexists. split; [reflexivity|].
    constructor; [simpl; ring|exact Heq].
Qed.

Lemma forcing_chunk (L E M : list (list Q)) :
  same_shape L E -> same_shape L M ->
  same_shape (zip_with (zip_with nsub) (finite L) (finite E)) (finite M)
  /\ same_shape (finite L) (finite M)
  /\ exists diff,
       ewise2 nsub (zip_with (zip_with nadd) (finite L) (finite M)) (finite E)
       = Ok diff
       /\ Forall2 (Forall2 num_eq)
            (zip_with (zip_with nadd)
               (zip_with (zip_with nsub) (finite L) (finite E)) (finite M))
            diff.
Proof.
  unfold same_shape. intros H1. revert M.
  induction H1 as [|l e L E Hlen _ IH]; intros M H2;
    inversion H2 as [|? m ? M' Hlm HM']; subst; simpl.
  - split; [constructor|]. split; [constructor|].
    eexists. split; [reflexivity|constructor].
  - destruct (IH _ HM') as [Hs [Hs' [diff [Hdiff Heq]]]].
    split; [|split].
    + constructor; [|exact Hs]. rewrite length_zip_with, !length_map. lia.
    + constructor; [|exact Hs']. rewrite !length_map. exact Hlm.
    + destruct (forcing_row l e m Hlen Hlm) as [diff0 [Hdiff0 Heq0]].
      rewrite Hdiff0. simpl. rewrite Hdiff. simpl.
      eexists. split; [reflexivity|]. constructor; assumption.
Qed.

(** X6. The net water flux at the surface is the water forcing less the
    evapo-transpiration: on finite fields LiquidPrecip, SFCEVP and ACSNOM of
    one shape both variables are computed, and NetWaterFlux equals
    WaterForcing - SFCEVP element by element. *)
Theorem NetWaterFlux_is_WaterForcing_less_evaporation
    (L E M : list (list Q)) (indata : gmap string chunk) :
  same_shape L E -> same_shape L M ->
  indata !! "LiquidPrecip"%string = Some (finite L) ->
  indata !! "SFCEVP"%string = Some (finite E) ->
  indata !! "ACSNOM"%string = Some (finite M) ->
  exists net forcing diff,
    NetWaterFlux.computeValues
      (DerivedVariable.set_checked true NetWaterFlux.__init__) indata = Ok net
    /\ WaterForcing.computeValues
         (DerivedVariable.set_checked true WaterForcing.__init__) indata
       = Ok forcing
    /\ ewise2 nsub forcing (finite E) = Ok diff
    /\ Forall2 (Forall2 num_eq) net diff.
Proof.
  intros H1 H2 HL HE HM.
  destruct (forcing_chunk L E M H1 H2) as [Hs [Hs' [diff [Hdiff Heq]]]].
  pose proof (finite_same_shape L E H1) as H1'.
  exists (zip_with (zip_with nadd)
            (zip_with (zip_with nsub) (finite L) (finite E)) (finite M)),
         (zip_with (zip_with nadd) (finite L) (finite M)), diff.
  split; [|split; [|split]].
  - unfold NetWaterFlux.computeValues, getitem. rewrite HL, HE, HM. simpl.
    rewrite (ewise2_same_shape _ _ _ H1'). simpl.
    apply ewise2_same_shape. exact Hs.
  - unfold WaterForcing.computeValues, getitem. rewrite HL, HM. simpl.
    apply ewise2_same_shape. exact Hs'.
  - exact Hdiff.
  - exact Heq.
Qed.

Lemma NetWaterFlux_is_WaterForcing_witness :
  same_shape [[3; 1]]%Q [[2; 0]]%Q
  /\ exists net forcing diff,
       NetWaterFlux.computeValues
         (DerivedVariable.set_checked true NetWaterFlux.__init__)
         {[ "LiquidPrecip"%string := finite [[3; 1]]%Q;
            "SFCEVP"%string := finite [[2; 0]]%Q;
            "ACSNOM"%string := finite [[1; 1]]%Q ]} = Ok net
       /\ WaterForcing.computeValues
            (DerivedVariable.set_checked true WaterForcing.__init__)
            {[ "LiquidPrecip"%string := finite [[3; 1]]%Q;
               "SFCEVP"%string := finite [[2; 0]]%Q;
               "ACSNOM"%string := finite [[1; 1]]%Q ]} = Ok forcing
       /\ ewise2 nsub forcing (finite [[2; 0]]%Q) = Ok diff
       /\ Forall2 (Forall2 num_eq) net diff.
Proof.
  assert (H1 : same_shape [[3; 1]]%Q [[2; 0]]%Q) by (repeat constructor).
  assert (H2 : same_shape [[3; 1]]%Q [[1; 1]]%Q) by (repeat constructor).
  split; [exact H1|].
  destruct (NetWaterFlux_is_WaterForcing_less_evaporation
              [[3; 1]]%Q [[2; 0]]%Q [[1; 1]]%Q
              {[ "LiquidPrecip"%string := finite [[3; 1]]%Q;
                 "SFCEVP"%string := finite [[2; 0]]%Q;
                 "ACSNOM"%string := finite [[1; 1]]%Q ]} H1 H2)
    as (net & forcing & diff & Hn & Hf & Hd & Heq).
  - reflexivity.
  - reflexivity.
  - reflexivity.
  - exists net, forcing, diff. auto.
Defined.

(** ** Extrema over a record in several chunks *)

Lemma Qle_bool_trans (a b c : Q) :
  Qle_bool a b = true -> Qle_bool b c = true -> Qle_bool a c = true.
Proof.
  rewrite !Qle_bool_iff. intros. lra.
Qed.

Lemma Qle_bool_total_lt (a b c : Q) :
  Qle_bool a b = false -> Qle_bool b c = false -> Qle_bool a c = false.
Proof.
  intros H1 H2. destruct (Qle_bool a c) eqn:E; [|reflexivity].
  apply Qle_bool_iff in E.
  assert (Hab : ~ (a <= b)%Q) by (rewrite <- Qle_bool_iff; congruence).
  assert (Hbc : ~ (b <= c)%Q) by (rewrite <- Qle_bool_iff; congruence).
  lra.
Qed.

Lemma qmax_assoc (a b c : Q) : qmax (qmax a b) c = qmax a (qmax b c).
Proof.
  unfold qmax.
  destruct (Qle_bool a b) eqn:Eab, (Qle_bool b c) eqn:Ebc;
    rewrite ?Eab, ?Ebc; try reflexivity.
  - rewrite (Qle_bool_trans _ _ _ Eab Ebc). reflexivity.
  - rewrite (Qle_bool_total_lt _ _ _ Eab Ebc). reflexivity.
Qed.

Lemma qmin_assoc (a b c : Q) : qmin (qmin a b) c = qmin a (qmin b c).
Proof.
  unfold qmin.
  destruct (Qle_bool a b) eqn:Eab, (Qle_bool b c) eqn:Ebc;
    rewrite ?Eab, ?Ebc; try reflexivity.
  - rewrite (Qle_bool_trans _ _ _ Eab Ebc). reflexivity.
  - rewrite (Qle_bool_total_lt _ _ _ Eab Ebc). reflexivity.
Qed.

Lemma np_maximum_assoc (x y z : num) :
  np_maximum (np_maximum x y) z = np_maximum x (np_maximum y z).
Proof. destruct x, y, z; simpl; try reflexivity. rewrite qmax_assoc. reflexivity. Qed.

Lemma np_minimum_assoc (x y z : num) :
  np_minimum (np_minimum x y) z = np_minimum x (np_minimum y z).
Proof. destruct x, y, z; simpl; try reflexivity. rewrite qmin_assoc. reflexivity. Qed.

Lemma np_fmax_assoc (x y z : num) :
  np_fmax (np_fmax x y) z = np_fmax x (np_fmax y z).
Proof. destruct x, y, z; simpl; try reflexivity. rewrite qmax_assoc. reflexivity. Qed.

Lemma np_fmin_assoc (x y z : num) :
  np_fmin (np_fmin x y) z = np_fmin x (np_fmin y z).
Proof. destruct x, y, z; simpl; try reflexivity. rewrite qmin_assoc. reflexivity. Qed.

Section ReduceChunks.

Variable f : num -> num -> num.
Hypothesis f_assoc : forall x y z, f (f x y) z = f x (f y z).

Lemma zip_with_assoc (a b c : field) :
  zip_with f (zip_with f a b) c = zip_with f a (zip_with f b c).
Proof.
  revert b c. induction a as [|x a IH]; intros [|y b] [|z c]; simpl;
    try reflexivity.
  rewrite f_assoc, IH. reflexivity.
Qed.

Lemma foldl_zip_with_cons (a r : field) (rs : chunk) :
  foldl (zip_with f) a (r :: rs) = zip_with f a (foldl (zip_with f) r rs).
Proof.
  revert a r. induction rs as [|x rs IH]; intros a r; [reflexivity|].
  rewrite (IH r x).
  change (foldl (zip_with f) a (r :: x :: rs))
    with (foldl (zip_with f) (zip_with f a r) (x :: rs)).
  rewrite (IH (zip_with f a r) x). apply zip_with_assoc.
Qed.

Lemma foldl_zip_with_length (r : field) (rs : chunk) :
  Forall (fun slice => length slice = length r) rs ->
  length (foldl (zip_with f) r rs) = length r.
Proof.
  revert r. induction rs as [|x rs IH]; intros r H; simpl; [reflexivity|].
  inversion H as [|? ? Hx Hrs]; subst.
  rewrite IH; rewrite length_zip_with; [lia|].
  eapply Forall_impl; [exact Hrs|]. simpl. intros s Hs. lia.
Qed.

(** The reduction of a record in two chunks is the reduction of the two
    reductions. *)
Lemma reduce1_app (c1 c2 : chunk) (m : nat) :
  c1 <> [] -> c2 <> [] ->
  Forall (fun slice => length slice = m) c1 ->
  Forall (fun slice => length slice = m) c2 ->
  exists r1 r2 whole,
    reduce1 f c1 = Ok r1 /\ reduce1 f c2 = Ok r2
    /\ reduce1 f (c1 ++ c2) = Ok whole
    /\ length r1 = m /\ length r2 = m
    /\ ewise f r1 r2 = Ok whole.
Proof.
  intros H1 H2 Hc1 Hc2.
  destruct c1 as [|a c1]; [contradiction|].
  destruct c2 as [|b c2]; [contradiction|].
  inversion Hc1 as [|? ? Ha Hc1']; inversion Hc2 as [|? ? Hb Hc2']; subst.
  assert (L1 : length (foldl (zip_with f) a c1) = length a).
  { apply foldl_zip_with_length. exact Hc1'. }
  assert (L2 : length (foldl (zip_with f) b c2) = length a).
  { rewrite foldl_zip_with_length; [exact Hb|].
    eapply Forall_impl; [exact Hc2'|]. simpl. intros s Hs. lia. }
  exists (foldl (zip_with f) a c1), (foldl (zip_with f) b c2),
         (foldl (zip_with f) a (c1 ++ b :: c2)).
  split; [reflexivity|]. split; [reflexivity|].
  split; [reflexivity|]. split; [exact L1|]. split; [exact L2|].
  rewrite ewise_same_length by lia.
  rewrite foldl_app, foldl_zip_with_cons. reflexivity.
Qed.

End ReduceChunks.

(** X7. The extremum of a record does not depend on how the record is cut
    into chunks: for two chunks of one grid, the aggregation of the extrema
    of the chunks (first chunk into an empty accumulator, second into the
    result) is the extremum computed on the two chunks joined, for maxima
    and minima, with and without ignoreNaN. *)
Theorem Extrema_of_record_in_two_chunks
    (V : Type) (e : Extrema.t) (v : string) (c1 c2 : chunk) (m : nat)
    (const : option (gmap string V)) :
  DerivedVariable.computeValues (Extrema.base e) const = Ok tt ->
  DerivedVariable.normalize (Extrema.base e) = false ->
  DerivedVariable.prerequisites (Extrema.base e) = [v] ->
  c1 <> [] -> c2 <> [] -> (0 < m)%nat ->
  Forall (fun slice => length slice = m) c1 ->
  Forall (fun slice => length slice = m) c2 ->
  exists r1 r2 whole,
    Extrema.computeValues e {[ v := c1 ]} const = Ok r1
    /\ Extrema.computeValues e {[ v := c2 ]} const = Ok r2
    /\ Extrema.computeValues e {[ v := c1 ++ c2 ]} const = Ok whole
    /\ (a1 <-- Extrema.aggregateValues e (Some r1) None ;;
        Extrema.aggregateValues e (Some r2) a1) = Ok (Some whole).
Proof.
  intros Hbase Hnorm Hpre H1 H2 Hm Hc1 Hc2.
  unfold Extrema.computeValues, Extrema.aggregateValues, getitem.
  rewrite Hbase, Hnorm, Hpre. cbn [rbind].
  rewrite !lookup_singleton_eq. cbn [rbind].
  assert (Hpos : forall r : field, length r = m -> (0 <? length r)%nat = true).
  { intros r Hr. apply Nat.ltb_lt. lia. }
  destruct (Extrema.mode e), (DerivedVariable.ignoreNaN (Extrema.base e)).
  - destruct (reduce1_app np_fmin np_fmin_assoc c1 c2 m H1 H2 Hc1 Hc2)
      as (r1 & r2 & whole & -> & -> & -> & L1 & L2 & Hw).
    exists r1, r2, whole. repeat (split; [reflexivity|]).
    rewrite (Hpos _ L1). cbn [rbind]. rewrite (Hpos _ L2), Hw. reflexivity.
  - destruct (reduce1_app np_minimum np_minimum_assoc c1 c2 m H1 H2 Hc1 Hc2)
      as (r1 & r2 & whole & -> & -> & -> & L1 & L2 & Hw).
    exists r1, r2, whole. repeat (split; [reflexivity|]).
    rewrite (Hpos _ L1). cbn [rbind]. rewrite (Hpos _ L2), Hw. reflexivity.
  - destruct (reduce1_app np_fmax np_fmax_assoc c1 c2 m H1 H2 Hc1 Hc2)
      as (r1 & r2 & whole & -> & -> & -> & L1 & L2 & Hw).
    exists r1, r2, whole. repeat (split; [reflexivity|]).
    rewrite (Hpos _ L1). cbn [rbind]. rewrite (Hpos _ L2), Hw. reflexivity.
  - destruct (reduce1_app np_maximum np_maximum_assoc c1 c2 m H1 H2 Hc1 Hc2)
      as (r1 & r2 & whole & -> & -> & -> & L1 & L2 & Hw).
    exists r1, r2, whole. repeat (split; [reflexivity|]).
    rewrite (Hpos _ L1). cbn [rbind]. rewrite (Hpos _ L2), Hw. reflexivity.
Qed.

Lemma Extrema_of_record_in_two_chunks_witness :
  exists e r1 r2 whole,
    Extrema.__init__ t2_var "MAX" None None None true = Ok e
    /\ Extrema.computeValues (V:=unit) (Extrema_checked e)
         {[ "T2"%string := [[Num 280; NaN]; [Num 285; Num 270]] ]} None = Ok r1
    /\ Extrema.computeValues (V:=unit) (Extrema_checked e)
         {[ "T2"%string := [[NaN; Num 275]] ]} None = Ok r2
    /\ Extrema.computeValues (V:=unit) (Extrema_checked e)
         {[ "T2"%string := [[Num 280; NaN]; [Num 285; Num 270]] ++ [[NaN; Num 275]] ]}
         None = Ok whole
    /\ (a1 <-- Extrema.aggregateValues (Extrema_checked e) (Some r1) None ;;
        Extrema.aggregateValues (Extrema_checked e) (Some r2) a1)
       = Ok (Some whole).
Proof.
  destruct (Extrema.__init__ t2_var "MAX" None None None true) as [e|x] eqn:He;
    [|vm_compute in He; discriminate].
  assert (Hfacts :
            DerivedVariable.computeValues (V:=unit)
              (Extrema.base (Extrema_checked e)) None = Ok tt
            /\ DerivedVariable.normalize (Extrema.base (Extrema_checked e)) = false
            /\ DerivedVariable.prerequisites (Extrema.base (Extrema_checked e))
               = ["T2"%string]).
  { vm_compute in He. injection He as <-. repeat split. }
  destruct Hfacts as (Hb & Hn & Hp).
  destruct (Extrema_of_record_in_two_chunks unit (Extrema_checked e) "T2"
              [[Num 280; NaN]; [Num 285; Num 270]] [[NaN; Num 275]] 2 None
              Hb Hn Hp)
    as (r1 & r2 & whole & H1 & H2 & Hw & Hagg).
  - discriminate.
  - discriminate.
  - lia.
  - repeat constructor.
  - repeat constructor.
  - exists e, r1, r2, whole. auto.
Defined.

Lemma ConsecutiveExtrema_init_normalize var mode thr str name long_name dimmap ign self :
  ConsecutiveExtrema.__init__ var mode thr str name long_name dimmap ign = Ok self ->
  DerivedVariable.normalize (ConsecutiveExtrema.base self) = false.
Proof.
  intros H. unfold ConsecutiveExtrema.__init__ in H.
  destruct (String.eqb (lower mode) "above");
    [|destruct (String.eqb (lower mode) "below"); [|discriminate]];
    simpl in H; destruct name as [n|]; simpl in H;
    try destruct (capitalize (var_name var)); simpl in H;
    try discriminate; inversion H; reflexivity.
Qed.

Lemma MeanExtrema_init_normalize var mode interval name long_name dimmap ign self :
  MeanExtrema.__init__ var mode interval name long_name dimmap ign = Ok self ->
  DerivedVariable.normalize (MeanExtrema.base self) = false.
Proof.
  intros H. unfold MeanExtrema.__init__ in H.
  destruct (Extrema.__init__ var mode name long_name dimmap ign) as [e|x] eqn:He;
    simpl in H; [|discriminate].
  pose proof (Extrema_init_normalize _ _ _ _ _ _ _ He) as Hn.
  destruct (1 <? length (DerivedVariable.prerequisites (Extrema.base e)))%nat;
    simpl in H; [discriminate|].
  destruct (DerivedVariable.atts (Extrema.base e) !! "Aggregation"%string)
    as [[s|x]|]; simpl in H; try discriminate.
  inversion H. simpl. exact Hn.
Qed.

(** X8. The aggregation of extrema is defined for every object the three
    constructors of extrema build (they all switch normalize off): given a
    chunk result and an accumulator of one length, or one of the two
    absent, aggregateValues returns a field and raises nothing. *)
Theorem constructed_extrema_aggregate
    (e : Extrema.t) (comdata aggdata : option field) :
  (exists var mode name long_name dimmap ign,
      Extrema.__init__ var mode name long_name dimmap ign = Ok e)
  \/ (exists var mode thr str name long_name dimmap ign self,
        ConsecutiveExtrema.__init__ var mode thr str name long_name dimmap ign
        = Ok self /\ e = ConsecutiveExtrema.ext self)
  \/ (exists var mode interval name long_name dimmap ign self,
        MeanExtrema.__init__ var mode interval name long_name dimmap ign
        = Ok self /\ e = MeanExtrema.ext self) ->
  match comdata, aggdata with
  | Some c, Some a => length c = length a
  | _, _ => True
  end ->
  exists r, Extrema.aggregateValues e comdata aggdata = Ok r.
Proof.
  intros Hbuilt Hlen.
  assert (Hn : DerivedVariable.normalize (Extrema.base e) = false).
  { destruct Hbuilt as [H|[H|H]].
    - destruct H as (var & mode & name & ln & dm & ign & H).
      eapply Extrema_init_normalize; exact H.
    - destruct H as (var & mode & thr & str & name & ln & dm & ign & self & H & ->).
      eapply ConsecutiveExtrema_init_normalize; exact H.
    - destruct H as (var & mode & i & name & ln & dm & ign & self & H & ->).
      eapply MeanExtrema_init_normalize; exact H. }
  unfold Extrema.aggregateValues. rewrite Hn.
  destruct comdata as [c|]; [|eauto].
  destruct (0 <? length c)%nat; [|eauto].
  destruct aggdata as [a|]; [|eauto].
  destruct (Extrema.mode e), (DerivedVariable.ignoreNaN (Extrema.base e));
    rewrite ewise_same_length by lia; simpl; eauto.
Qed.

Lemma constructed_extrema_aggregate_witness :
  exists self r,
    max_t2_5d = Ok self
    /\ Extrema.aggregateValues (MeanExtrema.ext self) (Some [Num 4]) (Some [Num 7])
       = Ok r.
Proof.
  destruct max_t2_5d as [self|x] eqn:He; [|vm_compute in He; discriminate].
  destruct (constructed_extrema_aggregate (MeanExtrema.ext self)
              (Some [Num 4]) (Some [Num 7])) as [r Hr].
  - right. right. exists t2_var, "max"%string, 5, None, None, None, false, self.
    split; [exact He|reflexivity].
  - reflexivity.
  - exists self, r. split; [reflexivity|exact Hr].
Defined.

(** ** Consecutive exceedances: the output interval and the counters *)

Lemma delta_neqb_trans (d' d d0 : option Q) :
  delta_neqb d' d = true -> delta_neqb d d0 = false -> delta_neqb d' d0 = true.
Proof.
  destruct d' as [a|], d as [b|], d0 as [c|]; simpl; try congruence.
  intros H1 H2. apply negb_true_iff in H1. apply negb_false_iff in H2.
  apply negb_true_iff. apply Qeq_bool_iff in H2.
  destruct (Qeq_bool a c) eqn:E; [|reflexivity].
  apply Qeq_bool_iff in E.
  assert (Hab : (a == b)%Q) by (rewrite E, H2; reflexivity).
  apply Qeq_bool_iff in Hab. congruence.
Qed.

(** What a call that returns leaves behind: the checks of the base class
    passed, the object differs at most in its period, and the storage holds
    an output interval that the interval of the call equals. *)
Lemma ConsecutiveExtrema_call_inv (V : Type) (self self' : ConsecutiveExtrema.t)
    (indata : gmap string chunk) (delta : option Q)
    (const : option (gmap string V)) (tmp : option tmpdict)
    (r : ndarray1) (tmp' : tmpdict) :
  ConsecutiveExtrema.computeValues self indata delta const tmp
  = Ok (r, self', tmp') ->
  DerivedVariable.computeValues (ConsecutiveExtrema.base self) const = Ok tt
  /\ ConsecutiveExtrema.base self' = ConsecutiveExtrema.base self
  /\ exists key cnt tmp1 d0,
       DerivedVariable.tmpdata (ConsecutiveExtrema.base self) = Some key
       /\ tmp' = <[key := TCount cnt]> tmp1
       /\ tmp1 !! "COX_DELTA"%string = Some (TDelta d0)
       /\ delta_neqb delta d0 = false.
Proof.
  unfold ConsecutiveExtrema.computeValues. intros H.
  destruct (DerivedVariable.computeValues (ConsecutiveExtrema.base self) const)
    as [[]|e]; cbn [rbind] in H; [|discriminate].
  split; [reflexivity|].
  destruct tmp as [tmp0|]; cbn [rbind] in H; [|discriminate].
  assert (Hd : exists tmp1 d0,
             match tmp0 !! "COX_DELTA"%string with
             | Some (TDelta d') =>
                 if delta_neqb delta d' then Raise NotImplementedError else Ok tmp0
             | Some _ => Raise ValueError
             | None => Ok (<["COX_DELTA"%string := TDelta delta]> tmp0)
             end = Ok tmp1
             /\ tmp1 !! "COX_DELTA"%string = Some (TDelta d0)
             /\ delta_neqb delta d0 = false
           \/ exists e, match tmp0 !! "COX_DELTA"%string with
             | Some (TDelta d') =>
                 if delta_neqb delta d' then Raise NotImplementedError else Ok tmp0
             | Some _ => Raise ValueError
             | None => Ok (<["COX_DELTA"%string := TDelta delta]> tmp0)
             end = Raise e).
  { destruct (tmp0 !! "COX_DELTA"%string) as [[d'|x|a]|] eqn:E.
    - destruct (delta_neqb delta d') eqn:En.
      + exists tmp0, d'. right. eauto.
      + exists tmp0, d'. left. auto.
    - exists tmp0, None. right. eauto.
    - exists tmp0, None. right. eauto.
    - exists (<["COX_DELTA"%string := TDelta delta]> tmp0), delta. left.
      split; [reflexivity|]. split; [apply lookup_insert_eq|].
      destruct delta as [d|]; simpl; [|reflexivity].
      rewrite Qeq_bool_refl. reflexivity. }
  destruct Hd as (tmp1 & d0 & [(Heq & Hl & Hn)|[e Heq]]); rewrite Heq in H;
    cbn [rbind] in H; [|discriminate].
  destruct (if Qeq_bool (ConsecutiveExtrema.period self) 0
            then match delta with
                 | Some d =>
                     Ok (ConsecutiveExtrema.set_period
                           (d / ConsecutiveExtrema.lengthofday self) self)
                 | None => Raise TypeError
                 end
            else Ok self) as [s1|e] eqn:Es; cbn [rbind] in H; [|discriminate].
  assert (Hs1 : ConsecutiveExtrema.base s1 = ConsecutiveExtrema.base self).
  { destruct (Qeq_bool (ConsecutiveExtrema.period self) 0).
    - destruct delta; inversion Es; reflexivity.
    - inversion Es; reflexivity. }
  destruct (DerivedVariable.prerequisites (ConsecutiveExtrema.base self))
    as [|v l]; cbn [rbind] in H; [discriminate|].
  destruct (getitem indata v) as [data|e]; cbn [rbind] in H; [|discriminate].
  destruct (DerivedVariable.tmpdata (ConsecutiveExtrema.base self)) as [key|];
    cbn [rbind] in H; [|discriminate].
  destruct (match tmp1 !! key with
            | Some (TCount c) => Ok c
            | Some _ => Raise TypeError
            | None => Ok (replicate (width data) 0)
            end) as [xcnt|e]; cbn [rbind] in H; [|discriminate].
  destruct (ConsecutiveExtrema.march s1 _ data) as [[xcnt' maxdata]|e];
    cbn [rbind] in H; [|discriminate].
  destruct (DerivedVariable.ignoreNaN (ConsecutiveExtrema.base self));
    inversion H; subst; (split; [exact Hs1|]);
    exists key, xcnt', tmp1, d0; auto.
Qed.

(** X9. Consecutive extrema do not mix output intervals: once a call has
    returned, a call on the object and the storage it left, with an output
    interval that differs from the first, raises NotImplementedError,
    whatever the chunk is. *)
Theorem ConsecutiveExtrema_interval_change_refused
    (V : Type) (self self' : ConsecutiveExtrema.t)
    (indata indata' : gmap string chunk) (delta delta' : option Q)
    (const : option (gmap string V)) (tmp : option tmpdict)
    (r : ndarray1) (tmp' : tmpdict) :
  ConsecutiveExtrema.computeValues self indata delta const tmp
  = Ok (r, self', tmp') ->
  DerivedVariable.tmpdata (ConsecutiveExtrema.base self)
  <> Some "COX_DELTA"%string ->
  delta_neqb delta' delta = true ->
  ConsecutiveExtrema.computeValues self' indata' delta' const (Some tmp')
  = Raise NotImplementedError.
Proof.
  intros Hrun Hkey Hneq.
  destruct (ConsecutiveExtrema_call_inv _ _ _ _ _ _ _ _ _ Hrun)
    as (Hbase & Hself & key & cnt & tmp1 & d0 & Hk & -> & Hl & Hn).
  unfold ConsecutiveExtrema.computeValues. rewrite Hself, Hbase. cbn [rbind].
  rewrite lookup_insert_ne by (intros ->; apply Hkey; exact Hk).
  rewrite Hl, (delta_neqb_trans _ _ _ Hneq Hn). reflexivity.
Qed.

Lemma ConsecutiveExtrema_interval_change_witness :
  exists self r self' tmp',
    hot_spell = Ok self
    /\ ConsecutiveExtrema.computeValues (V:=unit) (ConsecutiveExtrema_checked self)
         {[ "T2"%string := series warm3 ]} daily None (Some ∅)
       = Ok (r, self', tmp')
    /\ delta_neqb (Some 3600%Q) daily = true
    /\ ConsecutiveExtrema.computeValues (V:=unit) self'
         {[ "T2"%string := series warm2 ]} (Some 3600%Q) None (Some tmp')
       = Raise NotImplementedError.
Proof.
  destruct hot_spell as [self|e] eqn:Hinit; [|vm_compute in Hinit; discriminate].
  destruct (ConsecutiveExtrema.computeValues (V:=unit)
              (ConsecutiveExtrema_checked self)
              {[ "T2"%string := series warm3 ]} daily None (Some ∅))
    as [[[r self'] tmp']|e] eqn:Hrun.
  2:{ vm_compute in Hinit. injection Hinit as <-. vm_compute in Hrun.
      discriminate. }
  exists self, r, self', tmp'. split; [reflexivity|]. split; [exact Hrun|].
  split; [reflexivity|].
  apply (ConsecutiveExtrema_interval_change_refused unit _ _ _ _ _ _ _ _ _ _ Hrun).
  - vm_compute in Hinit. injection Hinit as <-. discriminate.
  - reflexivity.
Defined.

Lemma wrap16_range (z : Z) : -32768 <= wrap16 z <= 32767.
Proof.
  unfold wrap16. pose proof (Z.mod_pos_bound (z + 32768) 65536). lia.
Qed.

Lemma wrap16_succ (z : Z) : wrap16 (wrap16 z + 1) = wrap16 (z + 1).
Proof.
  unfold wrap16.
  replace ((z + 32768) mod 65536 - 32768 + 1 + 32768)
    with ((z + 32768) mod 65536 + 1) by lia.
  replace (z + 1 + 32768) with ((z + 32768) + 1) by lia.
  rewrite Zplus_mod_idemp_l. reflexivity.
Qed.

(** A run of exceedances moves the 16-bit counter up, wrapping around. *)
Lemma march_exceeding_wraps (self : ConsecutiveExtrema.t) (l : field)
    (c : Z) (m : Q) :
  Forall (fun x => ConsecutiveExtrema.exceeds self x = true) l ->
  (0 <= m)%Q ->
  exists m',
    ConsecutiveExtrema.march self ([wrap16 c], [m]) (series l)
    = Ok ([wrap16 (c + Z.of_nat (length l))], [m'])
    /\ (m' == m)%Q.
Proof.
  intros Hl. revert c m. induction Hl as [|x l Hx _ IH]; intros c m Hm.
  - simpl. exists m. rewrite Z.add_0_r. split; reflexivity.
  - change (series (x :: l)) with ([x] :: series l).
    cbn [ConsecutiveExtrema.march].
    assert (Hstep :
              ConsecutiveExtrema.step self ([wrap16 c], [m]) [x]
              = Ok ([wrap16 (c + 1)],
                    [qmax m (inject_Z 0 * ConsecutiveExtrema.period self)])).
    { simpl. rewrite Hx. simpl. rewrite wrap16_succ. reflexivity. }
    rewrite Hstep. cbn [rbind].
    assert (Hq : (qmax m (inject_Z 0 * ConsecutiveExtrema.period self) == m)%Q).
    { destruct (qmax_spec m (inject_Z 0 * ConsecutiveExtrema.period self))
        as [H1 H2].
      destruct (Qlt_le_dec 0 m) as [Hlt|Hle].
      - apply H1. unfold inject_Z. lra.
      - rewrite H2; unfold inject_Z; lra. }
    destruct (IH (c + 1) (qmax m (inject_Z 0 * ConsecutiveExtrema.period self)))
      as [m' [Hm' Heq]]; [rewrite Hq; exact Hm|].
    exists m'. split.
    + rewrite Hm'.
      replace (c + 1 + Z.of_nat (length l))
        with (c + Z.of_nat (length (x :: l))) by (simpl length; lia).
      reflexivity.
    + rewrite Heq. exact Hq.
Qed.

(** X10. The counter of consecutive exceedances is a 16-bit integer and
    wraps around: a run of n time steps, 32768 <= n <= 65535, that starts
    on a fresh storage and ends in the same chunk leaves the reported
    maximum at 0 instead of n periods, and the counter at 0. *)
Theorem ConsecutiveExtrema_long_run_is_lost
    (V : Type) (self : ConsecutiveExtrema.t) (v key : string)
    (l : field) (y d : Q) (const : option (gmap string V)) :
  fresh_counter self v key ->
  Forall (fun x => ConsecutiveExtrema.exceeds self x = true) l ->
  ConsecutiveExtrema.exceeds self (Num y) = false ->
  32768 <= Z.of_nat (length l) <= 65535 ->
  (0 < d)%Q ->
  exists r self' tmp' m,
    ConsecutiveExtrema.computeValues self {[ v := series (l ++ [Num y]) ]}
      (Some d) const (Some ∅) = Ok (r, self', tmp')
    /\ tmp' !! key = Some (TCount [0])
    /\ unmasked r = Some [Num m]
    /\ (m == 0)%Q.
Proof.
  intros (Hchk & Hconst & _ & Hpre & Hkey & Hne & _ & Hper & Hday) Hex Hy Hlen Hd.
  pose proof (period_positive d Hd) as Hp.
  unfold ConsecutiveExtrema.computeValues, DerivedVariable.computeValues, getitem.
  rewrite Hchk, Hconst, Hpre, Hkey, Hper, Hday. cbn [rbind negb].
  rewrite lookup_empty. cbn [rbind].
  change (Qeq_bool 0 0) with true. cbn [rbind].
  rewrite lookup_singleton_eq. cbn [rbind].
  rewrite lookup_insert_ne by congruence. rewrite lookup_empty. cbn [rbind].
  assert (Hw : width (series (l ++ [Num y])) = 1%nat) by (destruct l; reflexivity).
  rewrite Hw. change (replicate 1 0) with [wrap16 0].
  change (replicate 1 0%Q) with [0%Q].
  rewrite series_app, march_app.
  destruct (march_exceeding_wraps (ConsecutiveExtrema.set_period (d / 86400) self)
              l 0 0) as [m [Hm Heq]]; [exact Hex | lra |].
  rewrite Hm. cbn [rbind].
  change (series [Num y]) with [[Num y]].
  cbn [ConsecutiveExtrema.march].
  rewrite step_reset by exact Hy. cbn [rbind].
  cbn [ConsecutiveExtrema.set_period ConsecutiveExtrema.period].
  assert (Hwrap : wrap16 (0 + Z.of_nat (length l)) = Z.of_nat (length l) - 65536).
  { unfold wrap16.
    replace (0 + Z.of_nat (length l) + 32768)
      with ((Z.of_nat (length l) - 32768) + 1 * 65536) by lia.
    rewrite Z_mod_plus_full, Z.mod_small by lia. lia. }
  rewrite Hwrap.
  assert (Hq : (qmax m (inject_Z (Z.of_nat (length l) - 65536) * (d / 86400))
                == 0)%Q).
  { assert (Hneg : (inject_Z (Z.of_nat (length l) - 65536) * (d / 86400) <= 0)%Q).
    { assert (Hz : (inject_Z (Z.of_nat (length l) - 65536) <= 0)%Q).
      { change 0%Q with (inject_Z 0). rewrite <- Zle_Qle. lia. }
      apply Qle_trans with (0 * (d / 86400))%Q;
        [apply Qmult_le_compat_r; [exact Hz|lra]|].
      rewrite Qmult_0_l. apply Qle_refl. }
    destruct (qmax_spec m (inject_Z (Z.of_nat (length l) - 65536) * (d / 86400)))
      as [H1 _].
    rewrite H1; [exact Heq|]. rewrite Heq. exact Hneg. }
  assert (Hfin : Forall (fun x => isnan x = false) (l ++ [Num y])).
  { apply Forall_app. split.
    - eapply Forall_impl; [exact Hex|]. intros x. apply exceeds_finite.
    - repeat constructor. }
  destruct (DerivedVariable.ignoreNaN _).
  - eexists _, _, _, _. split; [reflexivity|].
    split; [apply lookup_insert_eq|]. split; [|exact Hq].
    unfold unmasked.
    replace (series l ++ [[Num y]]) with (series (l ++ [Num y]))
      by apply series_app.
    rewrite any_nan_series; [reflexivity| |exact Hfin].
    destruct l; discriminate.
  - eexists _, _, _, _. split; [reflexivity|].
    split; [apply lookup_insert_eq|]. split; [reflexivity|exact Hq].
Qed.

Lemma ConsecutiveExtrema_long_run_witness :
  exists self r self' tmp' m,
    hot_spell = Ok self
    /\ 32768 <= Z.of_nat (length (replicate (Z.to_nat 32768) (Num 300))) <= 65535
    /\ ConsecutiveExtrema.computeValues (V:=unit) (ConsecutiveExtrema_checked self)
         {[ "T2"%string := series (replicate (Z.to_nat 32768) (Num 300) ++ [Num 290]) ]}
         daily None (Some ∅) = Ok (r, self', tmp')
    /\ unmasked r = Some [Num m]
    /\ (m == 0)%Q.
Proof.
  destruct hot_spell as [self|e] eqn:Hinit; [|vm_compute in Hinit; discriminate].
  assert (Hfacts :
            fresh_counter (ConsecutiveExtrema_checked self) "T2" "COX_>298.000000T2"
            /\ ConsecutiveExtrema.exceeds (ConsecutiveExtrema_checked self)
                 (Num 300) = true
            /\ ConsecutiveExtrema.exceeds (ConsecutiveExtrema_checked self)
                 (Num 290) = false).
  { vm_compute in Hinit. injection Hinit as <-.
    split; [repeat split; try reflexivity; discriminate|].
    split; reflexivity. }
  destruct Hfacts as (Hfresh & Hwarm & Hcool).
  assert (Hlen : 32768 <= Z.of_nat (length (replicate (Z.to_nat 32768) (Num 300)))
                 <= 65535)
    by (rewrite length_replicate, Z2Nat.id; lia).
  destruct (ConsecutiveExtrema_long_run_is_lost unit
              (ConsecutiveExtrema_checked self) "T2" "COX_>298.000000T2"
              (replicate (Z.to_nat 32768) (Num 300)) 290 86400 None Hfresh)
    as (r & self' & tmp' & m & Hrun & _ & Hr & Hm).
  - apply Forall_replicate. exact Hwarm.
  - exact Hcool.
  - exact Hlen.
  - reflexivity.
  - exists self, r, self', tmp', m. split; [reflexivity|].
    split; [exact Hlen|]. split; [exact Hrun|]. split; [exact Hr|exact Hm].
Defined.

(** ** Extrema of interval averages: intervals, the gate and the first mean *)

(** What the constructor of an interval-averaged extremum fixes. *)
Lemma MeanExtrema_init_fields var mode interval name long_name dimmap ign self :
  MeanExtrema.__init__ var mode interval name long_name dimmap ign = Ok self ->
  DerivedVariable.prerequisites (MeanExtrema.base self) = [var_name var]
  /\ DerivedVariable.constants (MeanExtrema.base self) = None
  /\ DerivedVariable.checked (MeanExtrema.base self) = false
  /\ DerivedVariable.ignoreNaN (MeanExtrema.base self) = ign
  /\ DerivedVariable.tmpdata (MeanExtrema.base self)
     = Some ("MEX_" +:+ DerivedVariable.name (MeanExtrema.base self))%string
  /\ MeanExtrema.interval self = interval * 24 * 60 * 60.
Proof.
  intros H. unfold MeanExtrema.__init__ in H.
  destruct (Extrema.__init__ var mode name long_name dimmap ign) as [e|x] eqn:He;
    cbn [rbind] in H; [|discriminate].
  assert (Hb : DerivedVariable.prerequisites (Extrema.base e) = [var_name var]
               /\ DerivedVariable.constants (Extrema.base e) = None
               /\ DerivedVariable.checked (Extrema.base e) = false
               /\ DerivedVariable.ignoreNaN (Extrema.base e) = ign).
  { unfold Extrema.__init__ in He.
    destruct (if String.eqb (lower mode) "max"
              then Ok ("Monthly Maximum"%string, "Max"%string, MaxMode)
              else if String.eqb (lower mode) "min"
              then Ok ("Monthly Minimum"%string, "Min"%string, MinMode)
              else Raise NameError) as [[[a p] m]|x]; cbn [rbind] in He;
      [|discriminate].
    destruct (match name with
              | Some n => Ok n
              | None => c <-- capitalize (var_name var) ;; Ok (p +:+ c)%string
              end) as [n|x]; cbn [rbind] in He; [|discriminate].
    injection He as <-. repeat split. }
  destruct Hb as (Hp & Hc & Hk & Hi).
  destruct (1 <? length (DerivedVariable.prerequisites (Extrema.base e)))%nat;
    cbn [rbind] in H; [discriminate|].
  destruct (DerivedVariable.atts (Extrema.base e) !! "Aggregation"%string)
    as [[s|x]|]; cbn [rbind] in H; try discriminate.
  injection H as <-. repeat split; assumption.
Qed.

Lemma MeanExtrema_checked_fields (self : MeanExtrema.t) :
  DerivedVariable.prerequisites (MeanExtrema.base (MeanExtrema_checked self))
  = DerivedVariable.prerequisites (MeanExtrema.base self)
  /\ DerivedVariable.constants (MeanExtrema.base (MeanExtrema_checked self))
     = DerivedVariable.constants (MeanExtrema.base self)
  /\ DerivedVariable.checked (MeanExtrema.base (MeanExtrema_checked self)) = true
  /\ DerivedVariable.ignoreNaN (MeanExtrema.base (MeanExtrema_checked self))
     = DerivedVariable.ignoreNaN (MeanExtrema.base self)
  /\ DerivedVariable.tmpdata (MeanExtrema.base (MeanExtrema_checked self))
     = DerivedVariable.tmpdata (MeanExtrema.base self)
  /\ MeanExtrema.interval (MeanExtrema_checked self) = MeanExtrema.interval self
  /\ Extrema.mode (MeanExtrema.ext (MeanExtrema_checked self))
     = Extrema.mode (MeanExtrema.ext self).
Proof. repeat split. Qed.

(** int(q) of a rational between 0 and 1 is 0. *)
Lemma int_of_Q_small (q : Q) : (0 <= q)%Q -> (q < 1)%Q -> int_of_Q q = 0.
Proof.
  intros H0 H1. unfold int_of_Q. apply Z.quot_small.
  unfold Qle, Qlt in *. simpl in *. lia.
Qed.

Lemma int_of_Q_ratio_small (i : Z) (d : Q) :
  0 <= i -> (inject_Z i < d)%Q -> int_of_Q (inject_Z i / d) = 0.
Proof.
  intros Hi Hd.
  assert (H0 : (0 <= inject_Z i)%Q).
  { change 0%Q with (inject_Z 0). rewrite <- Zle_Qle. exact Hi. }
  assert (Hpos : (0 < d)%Q) by lra.
  apply int_of_Q_small.
  - apply Qle_shift_div_l; [exact Hpos|]. lra.
  - apply Qlt_shift_div_r; [exact Hpos|]. lra.
Qed.


(** X11. An output interval longer than the averaging interval is not
    rejected with a message: the number of steps per interval is then 0 and
    the division of the number of samples by it raises ZeroDivisionError.
    This holds for every object the constructor builds with a non-negative
    number of days, checked or not, whatever the chunk of the variable
    holds. *)
Theorem MeanExtrema_interval_shorter_than_step
    (V : Type) var mode (ndays : Z) name long_name dimmap ign
    (self0 self : MeanExtrema.t) (indata : gmap string chunk) (d : Q)
    (const : option (gmap string V)) (tmp : tmpdict) (new data : chunk) :
  MeanExtrema.__init__ var mode ndays name long_name dimmap ign = Ok self0 ->
  self = self0 \/ self = MeanExtrema_checked self0 ->
  indata !! var_name var = Some new ->
  MeanExtrema_available tmp
    ("MEX_" +:+ DerivedVariable.name (MeanExtrema.base self0)) new = Ok data ->
  0 <= ndays ->
  (inject_Z (ndays * 24 * 60 * 60) < d)%Q ->
  MeanExtrema.computeValues self indata (Some d) const (Some tmp)
  = Raise ZeroDivisionError.
Proof.
  intros Hinit Hself Hnew Hdata Hn Hd.
  destruct (MeanExtrema_init_fields _ _ _ _ _ _ _ _ Hinit)
    as (Hp & Hc & Hk & Hi & Ht & Hiv).
  assert (Hf : DerivedVariable.prerequisites (MeanExtrema.base self)
               = [var_name var]
               /\ DerivedVariable.tmpdata (MeanExtrema.base self)
                  = Some ("MEX_" +:+ DerivedVariable.name (MeanExtrema.base self0))%string
               /\ MeanExtrema.interval self = ndays * 24 * 60 * 60).
  { destruct Hself as [->| ->]; repeat split; assumption. }
  destruct Hf as (Hp' & Ht' & Hiv').
  assert (Hd0 : Qeq_bool d 0 = false).
  { destruct (Qeq_bool d 0) eqn:E; [|reflexivity].
    apply Qeq_bool_iff in E.
    assert ((0 <= inject_Z (ndays * 24 * 60 * 60))%Q).
    { change 0%Q with (inject_Z 0). rewrite <- Zle_Qle. lia. }
    lra. }
  unfold MeanExtrema.computeValues.
  rewrite Hd0, Hp', Ht', Hiv'. cbn [rbind]. unfold getitem. rewrite Hnew.
  cbn [rbind]. unfold MeanExtrema_available in Hdata. rewrite Hdata.
  cbn [rbind]. rewrite int_of_Q_ratio_small by (assumption || lia).
  reflexivity.
Qed.

Lemma MeanExtrema_interval_shorter_than_step_witness :
  exists self,
    max_t2_5d = Ok self
    /\ MeanExtrema.computeValues (V:=unit) (MeanExtrema_checked self)
         {[ "T2"%string := days [1; 2; 3]%Q ]} (Some 2592000%Q) None (Some ∅)
       = Raise ZeroDivisionError.
Proof.
  destruct max_t2_5d as [self|e] eqn:Hinit; [|vm_compute in Hinit; discriminate].
  exists self. split; [reflexivity|].
  apply (MeanExtrema_interval_shorter_than_step unit t2_var "max" 5 None None
           None false self _ _ _ None ∅ (days [1; 2; 3]%Q) (days [1; 2; 3]%Q)
           Hinit).
  - right. reflexivity.
  - reflexivity.
  - reflexivity.
  - lia.
  - reflexivity.
Defined.

(** X12. The gate on the checked flag is behind the buffering: an
    interval-averaged extremum whose prerequisites were never checked takes
    the samples of a chunk into the storage and returns None as long as
    they do not fill one interval, and raises DerivedVariableError only once
    a full interval is available. *)
Theorem MeanExtrema_unchecked_refused_only_with_full_interval
    (V : Type) var mode (ndays : Z) name long_name dimmap ign
    (self : MeanExtrema.t) (indata : gmap string chunk) (d : Q)
    (const : option (gmap string V)) (tmp : tmpdict) (new data : chunk) :
  MeanExtrema.__init__ var mode ndays name long_name dimmap ign = Ok self ->
  indata !! var_name var = Some new ->
  MeanExtrema_available tmp
    ("MEX_" +:+ DerivedVariable.name (MeanExtrema.base self)) new = Ok data ->
  ~ (d == 0)%Q ->
  0 < MeanExtrema_ilen self d ->
  MeanExtrema.computeValues self indata (Some d) const (Some tmp)
  = if Z.of_nat (length data) <? MeanExtrema_ilen self d
    then Ok (None,
             <[("MEX_" +:+ DerivedVariable.name (MeanExtrema.base self))%string
               := TData data]> tmp)
    else Raise DerivedVariableError.
Proof.
  intros Hinit Hnew Hdata Hd Hil.
  destruct (MeanExtrema_init_fields _ _ _ _ _ _ _ _ Hinit)
    as (Hp & Hc & Hk & Hi & Ht & Hiv).
  unfold MeanExtrema_ilen in *.
  destruct (Z.of_nat (length data) <? _) eqn:Hlt.
  - apply Z.ltb_lt in Hlt.
    apply (MeanExtrema_short_record V self indata d const tmp _ _ new data
             Ht Hp Hnew Hdata Hd). lia.
  - apply Z.ltb_ge in Hlt.
    unfold MeanExtrema.computeValues.
    destruct (Qeq_bool d 0) eqn:E; [apply Qeq_bool_iff in E; contradiction|].
    rewrite Hp, Ht. cbn [rbind]. unfold getitem. rewrite Hnew. cbn [rbind].
    unfold MeanExtrema_available in Hdata. rewrite Hdata. cbn [rbind].
    destruct (int_of_Q _ =? 0) eqn:E0; [apply Z.eqb_eq in E0; lia|].
    assert (Hq : 0 < Z.quot (Z.of_nat (length data))
                        (int_of_Q (inject_Z (MeanExtrema.interval self) / d))).
    { apply Z.quot_str_pos. lia. }
    apply Z.ltb_lt in Hq. rewrite Hq.
    unfold Extrema.computeValues, DerivedVariable.computeValues.
    change (Extrema.base (MeanExtrema.ext self)) with (MeanExtrema.base self).
    rewrite Hk. reflexivity.
Qed.

Lemma MeanExtrema_unchecked_witness :
  exists self,
    max_t2_5d = Ok self
    /\ MeanExtrema.computeValues (V:=unit) self
         {[ "T2"%string := days [1; 2; 3]%Q ]} daily None (Some ∅)
       = Ok (None, {[ "MEX_MaxT2_5d"%string := TData (days [1; 2; 3]%Q) ]})
    /\ MeanExtrema.computeValues (V:=unit) self
         {[ "T2"%string := days [1; 2; 3; 4; 5]%Q ]} daily None (Some ∅)
       = Raise DerivedVariableError.
Proof.
  destruct max_t2_5d as [self|e] eqn:Hinit; [|vm_compute in Hinit; discriminate].
  exists self. split; [reflexivity|].
  assert (Hfacts : DerivedVariable.name (MeanExtrema.base self) = "MaxT2_5d"%string
                   /\ MeanExtrema_ilen self 86400 = 5).
  { vm_compute in Hinit. injection Hinit as <-. split; reflexivity. }
  destruct Hfacts as [Hname Hilen].
  split.
  - rewrite (MeanExtrema_unchecked_refused_only_with_full_interval unit t2_var
               "max" 5 None None None false self _ 86400%Q None ∅
               (days [1; 2; 3]%Q) (days [1; 2; 3]%Q) Hinit).
    + rewrite Hilen, Hname. reflexivity.
    + reflexivity.
    + reflexivity.
    + discriminate.
    + rewrite Hilen. lia.
  - rewrite (MeanExtrema_unchecked_refused_only_with_full_interval unit t2_var
               "max" 5 None None None false self _ 86400%Q None ∅
               (days [1; 2; 3; 4; 5]%Q) (days [1; 2; 3; 4; 5]%Q) Hinit).
    + rewrite Hilen. reflexivity.
    + reflexivity.
    + reflexivity.
    + discriminate.
    + rewrite Hilen. lia.
Defined.

Lemma blocks_one (ilen : nat) (data : chunk) :
  blocks 1 ilen data = [take ilen data].
Proof. reflexivity. Qed.

(** X13. With at least one and fewer than two intervals of samples
    available, a checked interval-averaged extremum returns the time mean of
    the first interval, whatever its mode and its ignoreNaN flag are (the
    extremum of one mean is that mean), and leaves an empty array in the
    storage: the samples after the first interval are not kept. *)
Theorem MeanExtrema_first_interval_is_mean
    (V : Type) var mode (ndays : Z) name long_name dimmap ign
    (self : MeanExtrema.t) (indata : gmap string chunk) (d : Q)
    (const : option (gmap string V)) (tmp : tmpdict) (new data : chunk) :
  MeanExtrema.__init__ var mode ndays name long_name dimmap ign = Ok self ->
  indata !! var_name var = Some new ->
  MeanExtrema_available tmp
    ("MEX_" +:+ DerivedVariable.name (MeanExtrema.base self)) new = Ok data ->
  ~ (d == 0)%Q ->
  0 < MeanExtrema_ilen self d <= Z.of_nat (length data) ->
  Z.of_nat (length data) < 2 * MeanExtrema_ilen self d ->
  MeanExtrema.computeValues (MeanExtrema_checked self) indata (Some d) const
    (Some tmp)
  = Ok (Some (np_mean (take (Z.to_nat (MeanExtrema_ilen self d)) data)),
        <[("MEX_" +:+ DerivedVariable.name (MeanExtrema.base self))%string
          := TData []]> tmp).
Proof.
  intros Hinit Hnew Hdata Hd Hil Hlt.
  destruct (MeanExtrema_init_fields _ _ _ _ _ _ _ _ Hinit)
    as (Hp & Hc & Hk & Hi & Ht & Hiv).
  destruct (MeanExtrema_checked_fields self) as (Hp' & Hc' & Hk' & Hi' & Ht' & Hiv' & Hm').
  unfold MeanExtrema_ilen in *.
  unfold MeanExtrema.computeValues.
  destruct (Qeq_bool d 0) eqn:E; [apply Qeq_bool_iff in E; contradiction|].
  rewrite Hp', Ht', Hiv', Hp, Ht. cbn [rbind]. unfold getitem. rewrite Hnew.
  cbn [rbind]. unfold MeanExtrema_available in Hdata. rewrite Hdata.
  cbn [rbind].
  set (ilen := int_of_Q (inject_Z (MeanExtrema.interval self) / d)) in *.
  destruct (ilen =? 0) eqn:E0; [apply Z.eqb_eq in E0; lia|].
  assert (Hq : Z.quot (Z.of_nat (length data)) ilen = 1).
  { rewrite Z.quot_div_nonneg by lia. symmetry.
    apply (Z.div_unique _ _ 1 (Z.of_nat (length data) - ilen)); lia. }
  rewrite Hq. change (0 <? 1) with true. cbv iota.
  rewrite Z.mul_1_r. change (Z.to_nat 1) with 1%nat. rewrite blocks_one.
  rewrite drop_take_same.
  rewrite take_take, Nat.min_id.
  unfold Extrema.computeValues, DerivedVariable.computeValues.
  change (Extrema.base (MeanExtrema.ext (MeanExtrema_checked self)))
    with (MeanExtrema.base (MeanExtrema_checked self)).
  rewrite Hk', Hc', Hc, Hp', Hp. cbn [negb rbind]. unfold getitem.
  rewrite lookup_singleton_eq. cbn [rbind map reduce1 foldl].
  destruct (Extrema.mode (MeanExtrema.ext (MeanExtrema_checked self)));
    destruct (DerivedVariable.ignoreNaN
                (MeanExtrema.base (MeanExtrema_checked self)));
    reflexivity.
Qed.

Lemma MeanExtrema_first_interval_witness :
  exists self,
    max_t2_5d = Ok self
    /\ MeanExtrema.computeValues (V:=unit) (MeanExtrema_checked self)
         {[ "T2"%string := days [1; 2; 3; 4; 10; 6; 7]%Q ]} daily None (Some ∅)
       = Ok (Some (np_mean (days [1; 2; 3; 4; 10]%Q)),
             {[ "MEX_MaxT2_5d"%string := TData [] ]}).
Proof.
  destruct max_t2_5d as [self|e] eqn:Hinit; [|vm_compute in Hinit; discriminate].
  exists self. split; [reflexivity|].
  assert (Hfacts : DerivedVariable.name (MeanExtrema.base self) = "MaxT2_5d"%string
                   /\ MeanExtrema_ilen self 86400 = 5).
  { vm_compute in Hinit. injection Hinit as <-. split; reflexivity. }
  destruct Hfacts as [Hname Hilen].
  rewrite (MeanExtrema_first_interval_is_mean unit t2_var
             "max" 5 None None None false self _ 86400%Q None ∅
             (days [1; 2; 3; 4; 10; 6; 7]%Q) (days [1; 2; 3; 4; 10; 6; 7]%Q)
             Hinit).
  - rewrite Hilen, Hname. reflexivity.
  - reflexivity.
  - reflexivity.
  - discriminate.
  - rewrite Hilen. simpl. lia.
  - rewrite Hilen. simpl. lia.
Defined.

(** ** Wet days: the output interval *)

Lemma delta_neqb_refl_eq (d q : Q) :
  delta_neqb (Some d) (Some q) = false <-> (d == q)%Q.
Proof.
  simpl. rewrite negb_false_iff. apply Qeq_bool_iff.
Qed.

(** What a call of the interval check that returned leaves in the
    storage. *)
Lemma WetDays_check_delta_inv (d : Q) (tmp : tmpdict) (tmp1 : option tmpdict) :
  WetDays.check_delta (Some d) (Some tmp) = Ok tmp1 ->
  exists t1 q,
    tmp1 = Some t1
    /\ t1 !! "WETDAYS_DELTA"%string = Some (TDelta (Some q))
    /\ (d == q)%Q.
Proof.
  unfold WetDays.check_delta.
  destruct (tmp !! "WETDAYS_DELTA"%string) as [[d'| |]|] eqn:E;
    try discriminate.
  - destruct (delta_neqb (Some d) d') eqn:En; [discriminate|].
    intros H. injection H as <-. destruct d' as [q|]; [|discriminate].
    exists tmp, q. split; [reflexivity|]. split; [exact E|].
    apply delta_neqb_refl_eq. exact En.
  - intros H. injection H as <-. eexists _, d. split; [reflexivity|].
    split; [apply lookup_insert_eq|reflexivity].
Qed.

(** X14. The wet-day indicator keeps the output interval of its first call
    in the scratch store and compares every later interval with it: after
    a call that returned, a call on the returned store raises
    NotImplementedError for a different interval and TypeError for a
    missing one (the message cannot be formatted), whatever the chunk is;
    with an equal interval it returns what a call without a store returns,
    and the store as it was. *)
Theorem WetDays_interval_protocol
    (V : Type) (self : WetDays.t) (indata : gmap string (list (list float)))
    (d : Q) (const : option (gmap string V)) (tmp : tmpdict)
    (o : WetDays.out) (tmp1 : option tmpdict) :
  WetDays.computeValues self indata (Some d) const (Some tmp) = Ok (o, tmp1) ->
  forall indata',
    (forall d', ~ (d' == d)%Q ->
       WetDays.computeValues self indata' (Some d') const tmp1
       = Raise NotImplementedError)
    /\ WetDays.computeValues self indata' None const tmp1 = Raise TypeError
    /\ (forall d', (d' == d)%Q ->
          WetDays.computeValues self indata' (Some d') const tmp1
          = (r <-- WetDays.computeValues self indata' (Some d') const None ;;
             Ok (r.1, tmp1))).
Proof.
  unfold WetDays.computeValues at 1. intros H indata'.
  destruct (DerivedVariable.computeValues (WetDays.base self) const)
    as [[]|e] eqn:Hgate; cbn [rbind] in H; [|discriminate].
  destruct (WetDays.check_delta (Some d) (Some tmp)) as [t|e] eqn:Hchk;
    cbn [rbind] in H; [|discriminate].
  assert (Ht : t = tmp1).
  { destruct (getitem indata (WetDays.rain self)); cbn [rbind] in H;
      [|discriminate].
    destruct (DerivedVariable.ignoreNaN (WetDays.base self));
      injection H as _ Ht; exact Ht. }
  subst t. destruct (WetDays_check_delta_inv _ _ _ Hchk) as (t1 & q & -> & Hq & Hdq).
  unfold WetDays.computeValues. rewrite Hgate. cbn [rbind].
  unfold WetDays.check_delta. rewrite Hq.
  split; [|split].
  - intros d' Hne.
    destruct (delta_neqb (Some d') (Some q)) eqn:En; [reflexivity|].
    apply delta_neqb_refl_eq in En. exfalso. apply Hne.
    rewrite En, Hdq. reflexivity.
  - reflexivity.
  - intros d' He.
    destruct (delta_neqb (Some d') (Some q)) eqn:En.
    + exfalso. apply not_false_iff_true in En. apply En.
      apply delta_neqb_refl_eq. rewrite He, Hdq. reflexivity.
    + cbn [rbind].
      destruct (getitem indata' (WetDays.rain self)); cbn [rbind];
        [|reflexivity].
      destruct (DerivedVariable.ignoreNaN (WetDays.base self)); reflexivity.
Qed.

Lemma WetDays_interval_protocol_witness :
  exists self o tmp1,
    WetDays.__init__ 1 "RAIN" false = Ok self
    /\ WetDays.computeValues (V:=unit) (WetDays_checked self)
         {[ "RAIN"%string := two_days ]} daily None (Some ∅) = Ok (o, tmp1)
    /\ WetDays.computeValues (V:=unit) (WetDays_checked self)
         {[ "RAIN"%string := two_days ]} (Some 3600%Q) None tmp1
       = Raise NotImplementedError
    /\ WetDays.computeValues (V:=unit) (WetDays_checked self)
         {[ "RAIN"%string := two_days ]} None None tmp1
       = Raise TypeError.
Proof.
  destruct (WetDays.__init__ 1 "RAIN" false) as [self|e] eqn:Hinit;
    [|vm_compute in Hinit; discriminate].
  destruct (WetDays.computeValues (V:=unit) (WetDays_checked self)
              {[ "RAIN"%string := two_days ]} daily None (Some ∅))
    as [[o tmp1]|e] eqn:Hrun.
  2:{ vm_compute in Hinit. injection Hinit as <-. vm_compute in Hrun.
      discriminate. }
  exists self, o, tmp1. split; [reflexivity|]. split; [exact Hrun|].
  destruct (WetDays_interval_protocol unit _ _ _ _ _ _ _ Hrun
              {[ "RAIN"%string := two_days ]}) as (Hne & Hnone & _).
  split; [|exact Hnone].
  apply Hne. discriminate.
Defined.

(** ** Rain of the wet days *)

Lemma ewise_map_l {A B C} (f : B -> A -> C) (g : A -> B) (l : list A) :
  ewise f (map g l) l = Ok (map (fun v => f (g v) v) l).
Proof.
  induction l as [|v l IH]; simpl; [reflexivity|]. rewrite IH. reflexivity.
Qed.

Lemma ewise2_map_l {A B C} (f : B -> A -> C) (g : A -> B) (x : list (list A)) :
  ewise2 f (map (map g) x) x = Ok (map (map (fun v => f (g v) v)) x).
Proof.
  induction x as [|l x IH]; simpl; [reflexivity|].
  rewrite ewise_map_l, IH. reflexivity.
Qed.

Lemma map_map_map {A B C} (f : B -> C) (g : A -> B) (x : list (list A)) :
  map (map f) (map (map g) x) = map (map (fun v => f (g v))) x.
Proof.
  rewrite map_map. apply map_ext. intros l. apply map_map.
Qed.

Lemma map_map_ext {A B} (f g : A -> B) (x : list (list A)) :
  (forall v, f v = g v) -> map (map f) x = map (map g) x.
Proof.
  intros H. apply map_ext. intros l. apply map_ext. exact H.
Qed.

(** X15. WetDayRain looks its wet-day indicator up under the name that
    WetDays, built with the same threshold, gives itself, and the two
    compose: fed with the result of WetDays on a rain field, WetDayRain
    keeps a sample that is strictly above the threshold and returns 0 for
    every other one.  A missing sample (NaN) comes out as 0 when ignoreNaN
    is not set, and stays NaN when it is. *)
Theorem WetDayRain_of_WetDays
    (V : Type) (t : float) (rain : string) (ign : bool)
    (wd : WetDays.t) (wdr : WetDayRain.t)
    (indata : gmap string (list (list float))) (x : list (list float))
    (delta : option Q) (const : option (gmap string V))
    (tmp tmp' : option tmpdict) (o : WetDays.out)
    (indata2 : gmap string WetDays.out) :
  WetDays.__init__ t rain ign = Ok wd ->
  WetDayRain.__init__ t rain ign = Ok wdr ->
  indata !! rain = Some x ->
  WetDays.computeValues (WetDays_checked wd) indata delta const tmp
  = Ok (o, tmp') ->
  indata2 !! rain = Some (WetDays.FloatArray x) ->
  indata2 !! DerivedVariable.name (WetDays.base wd) = Some o ->
  WetDayRain.computeValues (WetDayRain_checked wdr) indata2 const
  = Ok (map (map (wet_day_rain ign (t / 86400))) x)
  /\ wet_day_rain false (t / 86400) PrimFloat.nan = 0%float
  /\ wet_day_rain true (t / 86400) PrimFloat.nan = PrimFloat.nan.
Proof.
  intros Hwd Hwdr Hx Hrun Hrain Ho.
  split.
  - unfold WetDays.__init__ in Hwd. unfold WetDayRain.__init__ in Hwdr.
    destruct (int_of_float (10 * t)) as [n|e]; cbn [rbind] in Hwd, Hwdr;
      [|discriminate].
    injection Hwd as <-. injection Hwdr as <-.
    unfold WetDays.computeValues, WetDays_checked, DerivedVariable.computeValues
      in Hrun.
    cbn [WetDays.base WetDays.rain WetDays.threshold DerivedVariable.set_checked
         DerivedVariable.checked DerivedVariable.constants
         DerivedVariable.ignoreNaN DerivedVariable.__init__ negb rbind] in Hrun.
    destruct (WetDays.check_delta delta tmp) as [t1|e]; cbn [rbind] in Hrun;
      [|discriminate].
    unfold getitem in Hrun. rewrite Hx in Hrun. cbn [rbind] in Hrun.
    cbn [WetDays.base DerivedVariable.name DerivedVariable.__init__] in Ho.
    unfold WetDayRain.computeValues, WetDayRain_checked,
      DerivedVariable.computeValues.
    cbn [WetDayRain.base WetDayRain.rain WetDayRain.wetdays
         DerivedVariable.set_checked DerivedVariable.checked
         DerivedVariable.constants DerivedVariable.__init__ negb rbind].
    unfold getitem. rewrite Ho, Hrain. cbn [rbind WetDayRain.as_float].
    destruct ign; injection Hrun as <- _; cbn [WetDayRain.is_zero].
    + rewrite map_map_map, ewise2_map_l. f_equal. apply map_map_ext. intros v.
      unfold wet_day_rain, WetDays.indicator_nan. cbn [andb].
      destruct (PrimFloat.is_nan v) eqn:En.
      * destruct (PrimFloat.ltb (t / 86400) v); reflexivity.
      * destruct (PrimFloat.ltb (t / 86400) v); reflexivity.
    + rewrite map_map_map, ewise2_map_l. f_equal. apply map_map_ext. intros v.
      unfold wet_day_rain. cbn [andb].
      destruct (PrimFloat.ltb (t / 86400) v); reflexivity.
  - unfold wet_day_rain. rewrite float_ltb_nan. split; reflexivity.
Qed.

Lemma WetDayRain_of_WetDays_witness :
  exists wd wdr o,
    WetDays.__init__ 1 "RAIN" false = Ok wd
    /\ WetDayRain.__init__ 1 "RAIN" false = Ok wdr
    /\ WetDays.computeValues (V:=unit) (WetDays_checked wd)
         {[ "RAIN"%string := rain_record ]} daily None None = Ok (o, None)
    /\ WetDayRain.computeValues (V:=unit) (WetDayRain_checked wdr)
         {[ "RAIN"%string := WetDays.FloatArray rain_record;
            "WetDays_010"%string := o ]} None
       = Ok [[0x1p-10%float]; [0%float]; [0%float]].
Proof.
  destruct (WetDays.__init__ 1 "RAIN" false) as [wd|e] eqn:Hwd;
    [|vm_compute in Hwd; discriminate].
  destruct (WetDayRain.__init__ 1 "RAIN" false) as [wdr|e] eqn:Hwdr;
    [|vm_compute in Hwdr; discriminate].
  destruct (WetDays.computeValues (V:=unit) (WetDays_checked wd)
              {[ "RAIN"%string := rain_record ]} daily None None)
    as [[o tmp']|e] eqn:Hrun.
  2:{ vm_compute in Hwd. injection Hwd as <-. vm_compute in Hrun.
      discriminate. }
  assert (Hfacts : DerivedVariable.name (WetDays.base wd) = "WetDays_010"%string
                   /\ tmp' = None).
  { vm_compute in Hwd. injection Hwd as <-. vm_compute in Hrun.
    injection Hrun as _ <-. split; reflexivity. }
  destruct Hfacts as [Hname ->].
  exists wd, wdr, o. split; [reflexivity|]. split; [reflexivity|].
  split; [exact Hrun|].
  destruct (WetDayRain_of_WetDays unit 1 "RAIN" false wd wdr
              {[ "RAIN"%string := rain_record ]} rain_record daily None None None
              o {[ "RAIN"%string := WetDays.FloatArray rain_record;
                   "WetDays_010"%string := o ]} Hwd Hwdr) as [Hcomp _].
  - reflexivity.
  - exact Hrun.
  - reflexivity.
  - rewrite Hname. rewrite lookup_insert_ne by discriminate.
    apply lookup_insert_eq.
  - rewrite Hcomp. reflexivity.
Defined.

(** ** Frost days and summer days: the output interval *)

Lemma check_daily_ok_iff (delta : option Q) (temp : string) :
  check_daily delta temp = Ok tt <-> daily_or_T2 delta temp.
Proof.
  unfold check_daily, daily_or_T2.
  destruct (String.eqb_spec temp "T2") as [->|Hne].
  - rewrite andb_false_r. split; auto.
  - rewrite andb_true_r. destruct delta as [d|]; simpl.
    + destruct (Qeq_bool d 86400) eqn:E; simpl.
      * apply Qeq_bool_iff in E. split; [intros _; right; eauto|reflexivity].
      * split; [discriminate|]. intros [Ht|[d' [Hd' He]]]; [contradiction|].
        injection Hd' as <-. apply Qeq_bool_iff in He. congruence.
    + split; [discriminate|]. intros [Ht|[d' [Hd' _]]];
        [contradiction|discriminate].
Qed.

Lemma check_daily_refused (delta : option Q) (temp : string) :
  ~ daily_or_T2 delta temp ->
  check_daily delta temp
  = Raise (match delta with Some _ => ValueError | None => TypeError end).
Proof.
  intros H. unfold check_daily.
  destruct (delta_neqb delta (Some 86400%Q) && negb (String.eqb temp "T2"))
    eqn:E; [destruct delta; reflexivity|].
  exfalso. apply H. apply check_daily_ok_iff. unfold check_daily.
  rewrite E. reflexivity.
Qed.

Lemma FrostDays_init_fields thr temp ign self :
  FrostDays.__init__ thr temp ign = Ok self ->
  FrostDays.temp self = temp
  /\ DerivedVariable.constants (FrostDays.base self) = None.
Proof.
  unfold FrostDays.__init__. intros H.
  destruct (int_of_float thr) as [n|e]; cbn [rbind] in H; [|discriminate].
  injection H as <-. split; reflexivity.
Qed.

Lemma SummerDays_init_fields thr temp ign self :
  SummerDays.__init__ thr temp ign = Ok self ->
  SummerDays.temp self = temp
  /\ DerivedVariable.constants (SummerDays.base self) = None.
Proof.
  unfold SummerDays.__init__. intros H.
  destruct (int_of_float thr) as [n|e]; cbn [rbind] in H; [|discriminate].
  injection H as <-. split; reflexivity.
Qed.

(** X16. The frost-day and summer-day indicators, once checked, accept a
    chunk that holds their temperature variable exactly when the output
    interval is 86400 s or the variable is the snapshot T2.  In every other
    case they raise before they look at the data: ValueError for another
    interval, TypeError when the interval is missing (the message of the
    ValueError cannot be formatted). *)
Theorem FrostDays_SummerDays_daily_only
    (V : Type) (thr thr' : float) (temp temp' : string) (ign ign' : bool)
    (frost : FrostDays.t) (summer : SummerDays.t)
    (indata : gmap string (list (list float))) (delta : option Q)
    (const : option (gmap string V)) :
  FrostDays.__init__ thr temp ign = Ok frost ->
  SummerDays.__init__ thr' temp' ign' = Ok summer ->
  is_Some (indata !! temp) ->
  is_Some (indata !! temp') ->
  ((exists o, FrostDays.computeValues (FrostDays_checked frost) indata delta
                const = Ok o)
   <-> daily_or_T2 delta temp)
  /\ ((exists o, SummerDays.computeValues (SummerDays_checked summer) indata
                   delta const = Ok o)
      <-> daily_or_T2 delta temp')
  /\ (~ daily_or_T2 delta temp ->
      forall indata',
        FrostDays.computeValues (FrostDays_checked frost) indata' delta const
        = Raise (match delta with Some _ => ValueError | None => TypeError end))
  /\ (~ daily_or_T2 delta temp' ->
      forall indata',
        SummerDays.computeValues (SummerDays_checked summer) indata' delta const
        = Raise (match delta with Some _ => ValueError | None => TypeError end)).
Proof.
  intros Hf Hs [x Hx] [x' Hx'].
  destruct (FrostDays_init_fields _ _ _ _ Hf) as [Htf Hcf].
  destruct (SummerDays_init_fields _ _ _ _ Hs) as [Hts Hcs].
  assert (HF : forall indata',
             FrostDays.computeValues (FrostDays_checked frost) indata' delta const
             = (check_daily delta temp ;;;
                x <-- getitem indata' temp ;;
                if DerivedVariable.ignoreNaN (FrostDays.base frost)
                then Ok (WetDays.FloatArray
                           (map (map (FrostDays.indicator_nan
                                        (FrostDays.threshold frost))) x))
                else Ok (WetDays.BoolArray
                           (map (map (fun v => PrimFloat.ltb v
                                        (FrostDays.threshold frost))) x)))).
  { intros indata'.
    unfold FrostDays.computeValues, FrostDays_checked,
      DerivedVariable.computeValues.
    cbn [FrostDays.base FrostDays.temp FrostDays.threshold
         DerivedVariable.set_checked DerivedVariable.checked
         DerivedVariable.constants DerivedVariable.ignoreNaN negb].
    rewrite Hcf, Htf. reflexivity. }
  assert (HS : forall indata',
             SummerDays.computeValues (SummerDays_checked summer) indata' delta
               const
             = (check_daily delta temp' ;;;
                x <-- getitem indata' temp' ;;
                if DerivedVariable.ignoreNaN (SummerDays.base summer)
                then Ok (WetDays.FloatArray
                           (map (map (SummerDays.indicator_nan
                                        (SummerDays.threshold summer))) x))
                else Ok (WetDays.BoolArray
                           (map (map (PrimFloat.ltb
                                        (SummerDays.threshold summer))) x)))).
  { intros indata'.
    unfold SummerDays.computeValues, SummerDays_checked,
      DerivedVariable.computeValues.
    cbn [SummerDays.base SummerDays.temp SummerDays.threshold
         DerivedVariable.set_checked DerivedVariable.checked
         DerivedVariable.constants DerivedVariable.ignoreNaN negb].
    rewrite Hcs, Hts. reflexivity. }
  split; [|split; [|split]].
  - rewrite HF. split.
    + intros [o Ho]. apply check_daily_ok_iff.
      destruct (check_daily delta temp) as [[]|e]; [reflexivity|discriminate].
    + intros Hd. apply check_daily_ok_iff in Hd. rewrite Hd. cbn [rbind].
      unfold getitem. rewrite Hx. cbn [rbind].
      destruct (DerivedVariable.ignoreNaN (FrostDays.base frost)); eauto.
  - rewrite HS. split.
    + intros [o Ho]. apply check_daily_ok_iff.
      destruct (check_daily delta temp') as [[]|e]; [reflexivity|discriminate].
    + intros Hd. apply check_daily_ok_iff in Hd. rewrite Hd. cbn [rbind].
      unfold getitem. rewrite Hx'. cbn [rbind].
      destruct (DerivedVariable.ignoreNaN (SummerDays.base summer)); eauto.
  - intros Hn indata'. rewrite HF, (check_daily_refused _ _ Hn). reflexivity.
  - intros Hn indata'. rewrite HS, (check_daily_refused _ _ Hn). reflexivity.
Qed.

Lemma FrostDays_SummerDays_daily_only_witness :
  exists frost summer,
    FrostDays.__init__ 0 "T2MIN" false = Ok frost
    /\ SummerDays.__init__ 25 "T2MAX" false = Ok summer
    /\ DerivedVariable.name (FrostDays.base frost) = "FrostDays_+0"%string
    /\ DerivedVariable.name (SummerDays.base summer) = "SummerDays_+25"%string
    /\ (exists o, FrostDays.computeValues (V:=unit) (FrostDays_checked frost)
                    temperatures daily None = Ok o)
    /\ SummerDays.computeValues (V:=unit) (SummerDays_checked summer)
         temperatures (Some 3600%Q) None = Raise ValueError.
Proof.
  destruct (FrostDays.__init__ 0 "T2MIN" false) as [frost|e] eqn:Hf;
    [|vm_compute in Hf; discriminate].
  destruct (SummerDays.__init__ 25 "T2MAX" false) as [summer|e] eqn:Hs;
    [|vm_compute in Hs; discriminate].
  exists frost, summer. split; [reflexivity|]. split; [reflexivity|].
  split; [vm_compute in Hf; injection Hf as <-; reflexivity|].
  split; [vm_compute in Hs; injection Hs as <-; reflexivity|].
  assert (H1 : is_Some (temperatures !! "T2MIN"%string)) by (eexists; reflexivity).
  assert (H2 : is_Some (temperatures !! "T2MAX"%string)) by (eexists; reflexivity).
  split.
  - destruct (FrostDays_SummerDays_daily_only unit _ _ _ _ _ _ _ _ temperatures
                daily None Hf Hs H1 H2) as (Hok & _).
    apply Hok. right. exists 86400%Q. split; reflexivity.
  - destruct (FrostDays_SummerDays_daily_only unit _ _ _ _ _ _ _ _ temperatures
                (Some 3600%Q) None Hf Hs H1 H2) as (_ & _ & _ & Hno).
    apply Hno. intros [Ht|[d [Hd He]]]; [discriminate|].
    injection Hd as <-. discriminate.
Defined.

(** ** Central differences *)

Lemma at2_Some {A} (x : list (list A)) (i j : nat) (v : A) :
  at2 x i j = Some v <-> exists r, x !! i = Some r /\ r !! j = Some v.
Proof.
  unfold at2. destruct (x !! i) as [r|]; simpl.
  - split; [eauto|]. intros [r' [Hr Hv]]. congruence.
  - split; [discriminate|]. intros [r' [Hr _]]. discriminate.
Qed.

Lemma at2_np_diff0 (data : chunk) (i j : nat) (a b : num) :
  at2 data i j = Some a -> at2 data (S i) j = Some b ->
  at2 (np_diff0 data) i j = Some (nsub b a).
Proof.
  rewrite !at2_Some. intros [r [Hr Ha]] [s [Hs Hb]].
  exists (zip_with (fun a b => nsub b a) r s). split.
  - unfold np_diff0. rewrite lookup_zip_with, Hr. simpl.
    rewrite lookup_tail, Hs. reflexivity.
  - rewrite lookup_zip_with, Ha. simpl. rewrite Hb. reflexivity.
Qed.

Lemma length_np_diff0 (data : chunk) :
  length (np_diff0 data) = (length data - 1)%nat.
Proof.
  unfold np_diff0. rewrite length_zip_with, length_tl. lia.
Qed.

Lemma length_assign_diff (data : chunk) :
  length (assign_diff data) = length data.
Proof.
  unfold assign_diff.
  rewrite length_app, length_take, length_map, length_np_diff0.
  destruct data; simpl; lia.
Qed.

Lemma at2_assign_diff_first (data : chunk) (j : nat) (a : num) :
  at2 data 0 j = Some a -> at2 (assign_diff data) 0 j = Some (Num 0).
Proof.
  rewrite !at2_Some. intros [r [Hr Ha]].
  destruct data as [|r0 data]; [discriminate|]. injection Hr as ->.
  exists (map (fun _ => Num 0) r). split; [reflexivity|].
  rewrite list_lookup_fmap, Ha. reflexivity.
Qed.

Lemma at2_assign_diff_next (data : chunk) (i j : nat) (a b : num) :
  at2 data i j = Some a -> at2 data (S i) j = Some b ->
  at2 (assign_diff data) (S i) j = Some (nsub b a).
Proof.
  intros Ha Hb. pose proof (at2_np_diff0 data i j a b Ha Hb) as Hd.
  apply at2_Some in Hd. destruct Hd as [r [Hr Hv]].
  apply at2_Some. exists r. split; [|exact Hv].
  unfold assign_diff. destruct data as [|r0 data].
  - apply at2_Some in Ha. destruct Ha as [? [? _]]. discriminate.
  - simpl. exact Hr.
Qed.

Lemma at2_add_next (out : chunk) (i j : nat) (a b : num) :
  at2 out i j = Some a -> at2 out (S i) j = Some b ->
  at2 (add_next out) i j = Some (nadd a b).
Proof.
  rewrite !at2_Some. intros [r [Hr Ha]] [s [Hs Hb]].
  exists (zip_with nadd r s). split.
  - unfold add_next. rewrite lookup_app_l.
    + rewrite lookup_zip_with, Hr. simpl. rewrite lookup_tail, Hs. reflexivity.
    + rewrite length_zip_with, length_tl.
      apply lookup_lt_Some in Hs. lia.
  - rewrite lookup_zip_with, Ha. simpl. rewrite Hb. reflexivity.
Qed.

Lemma at2_add_next_last (out : chunk) (i j : nat) (a : num) :
  S i = length out -> at2 out i j = Some a ->
  at2 (add_next out) i j = Some a.
Proof.
  rewrite !at2_Some. intros Hlen [r [Hr Ha]]. exists r. split; [|exact Ha].
  unfold add_next. rewrite lookup_app_r.
  - rewrite length_zip_with, length_tl, lookup_drop.
    replace (length out - 1 + (i - length out `min` (length out - 1)))%nat
      with i by lia.
    exact Hr.
  - rewrite length_zip_with, length_tl. lia.
Qed.

Lemma length_add_next (out : chunk) : length (add_next out) = length out.
Proof.
  unfold add_next.
  rewrite length_app, length_zip_with, length_tl, length_drop. lia.
Qed.

Lemma at2_divide_rows (rows : nat -> bool) (d : Q) (a : chunk) (i j : nat)
    (v : num) :
  at2 a i j = Some v ->
  at2 (divide_rows rows d a) i j = Some (if rows i then ndivq v d else v).
Proof.
  rewrite !at2_Some. intros [r [Hr Hv]].
  exists (if rows i then map (fun x => ndivq x d) r else r). split.
  - unfold divide_rows. rewrite list_lookup_imap, Hr. reflexivity.
  - destruct (rows i); [|exact Hv]. rewrite list_lookup_fmap, Hv. reflexivity.
Qed.

Lemma length_divide_rows (rows : nat -> bool) (d : Q) (a : chunk) :
  length (divide_rows rows d a) = length a.
Proof. unfold divide_rows. apply length_imap. Qed.

(** The normalisation of ctrDiff on one element of row [i]. *)
Lemma at2_ctrDiff (data : chunk) (delta : Q) (i j : nat) (v : num) :
  data <> [] ->
  at2 (add_next (assign_diff data)) i j = Some v ->
  exists out,
    ctrDiff data delta = Ok out
    /\ length out = length data
    /\ at2 out i j
       = Some (if Qeq_bool delta 1
               then (if interior (length data) i then ndivq v 2 else v)
               else (if boundary (length data) i
                     then ndivq (if interior (length data) i
                                 then ndivq v (2 * delta) else v) delta
                     else (if interior (length data) i
                           then ndivq v (2 * delta) else v))).
Proof.
  intros Hne Hv. unfold ctrDiff.
  destruct (Qeq_bool delta 1).
  - eexists. split; [reflexivity|]. split.
    + rewrite length_divide_rows, length_add_next, length_assign_diff.
      reflexivity.
    + apply at2_divide_rows. exact Hv.
  - destruct (length data =? 0)%nat eqn:E.
    + apply Nat.eqb_eq in E. destruct data; [contradiction|discriminate].
    + eexists. split; [reflexivity|]. split.
      * rewrite !length_divide_rows, length_add_next, length_assign_diff.
        reflexivity.
      * apply at2_divide_rows. apply at2_divide_rows. exact Hv.
Qed.

Lemma ctrDiff_ok (data : chunk) (delta : Q) :
  data <> [] ->
  exists out, ctrDiff data delta = Ok out /\ length out = length data.
Proof.
  intros Hne. unfold ctrDiff. destruct (Qeq_bool delta 1).
  - eexists. split; [reflexivity|].
    rewrite length_divide_rows, length_add_next, length_assign_diff.
    reflexivity.
  - destruct (length data =? 0)%nat eqn:E.
    + apply Nat.eqb_eq in E. destruct data; [contradiction|discriminate].
    + eexists. split; [reflexivity|].
      rewrite !length_divide_rows, length_add_next, length_assign_diff.
      reflexivity.
Qed.

Lemma ctrDiff_first_row (data out : chunk) (delta : Q) (j : nat) (x0 x1 : num) :
  ctrDiff data delta = Ok out ->
  at2 data 0 j = Some x0 -> at2 data 1 j = Some x1 ->
  at2 out 0 j
  = Some (if Qeq_bool delta 1 then nadd (Num 0) (nsub x1 x0)
          else ndivq (nadd (Num 0) (nsub x1 x0)) delta).
Proof.
  intros Hout H0 H1.
  assert (Hne : data <> []).
  { intros ->. discriminate. }
  assert (Hn : (2 <= length data)%nat).
  { apply at2_Some in H1. destruct H1 as [r [Hr _]].
    apply lookup_lt_Some in Hr. lia. }
  pose proof (at2_add_next _ 0 j _ _ (at2_assign_diff_first _ _ _ H0)
                (at2_assign_diff_next _ _ _ _ _ H0 H1)) as Hv.
  destruct (at2_ctrDiff data delta 0 j _ Hne Hv) as (out' & Hout' & _ & Hat).
  rewrite Hout in Hout'. injection Hout' as <-. rewrite Hat.
  unfold interior, boundary. simpl. reflexivity.
Qed.

Lemma ctrDiff_last_row (data out : chunk) (delta : Q) (i j : nat)
    (x0 x1 : num) :
  ctrDiff data delta = Ok out ->
  (i + 2 = length data)%nat ->
  at2 data i j = Some x0 -> at2 data (S i) j = Some x1 ->
  at2 out (S i) j
  = Some (if Qeq_bool delta 1 then nsub x1 x0 else ndivq (nsub x1 x0) delta).
Proof.
  intros Hout Hlen H0 H1.
  assert (Hne : data <> []).
  { intros ->. discriminate. }
  assert (Hv : at2 (add_next (assign_diff data)) (S i) j = Some (nsub x1 x0)).
  { apply at2_add_next_last.
    - rewrite length_assign_diff. lia.
    - apply at2_assign_diff_next; assumption. }
  destruct (at2_ctrDiff data delta (S i) j _ Hne Hv) as (out' & Hout' & _ & Hat).
  rewrite Hout in Hout'. injection Hout' as <-. rewrite Hat.
  unfold interior, boundary.
  replace (S i + 1 <? length data)%nat with false
    by (symmetry; apply Nat.ltb_ge; lia).
  replace (S i + 1 =? length data)%nat with true
    by (symmetry; apply Nat.eqb_eq; lia).
  rewrite andb_false_r, orb_true_r. reflexivity.
Qed.

Lemma ctrDiff_inner_row (data out : chunk) (delta : Q) (i j : nat)
    (x0 x1 x2 : num) :
  ctrDiff data delta = Ok out ->
  at2 data i j = Some x0 -> at2 data (S i) j = Some x1 ->
  at2 data (S (S i)) j = Some x2 ->
  at2 out (S i) j
  = Some (ndivq (nadd (nsub x1 x0) (nsub x2 x1))
                (if Qeq_bool delta 1 then 2 else 2 * delta)).
Proof.
  intros Hout H0 H1 H2.
  assert (Hne : data <> []).
  { intros ->. discriminate. }
  assert (Hn : (S (S i) < length data)%nat).
  { apply at2_Some in H2. destruct H2 as [r [Hr _]].
    apply lookup_lt_Some in Hr. exact Hr. }
  pose proof (at2_add_next _ (S i) j _ _
                (at2_assign_diff_next _ _ _ _ _ H0 H1)
                (at2_assign_diff_next _ _ _ _ _ H1 H2)) as Hv.
  destruct (at2_ctrDiff data delta (S i) j _ Hne Hv) as (out' & Hout' & _ & Hat).
  rewrite Hout in Hout'. injection Hout' as <-. rewrite Hat.
  unfold interior, boundary.
  replace (S i + 1 <? length data)%nat with true
    by (symmetry; apply Nat.ltb_lt; lia).
  replace (S i + 1 =? length data)%nat with false
    by (symmetry; apply Nat.eqb_neq; lia).
  simpl. destruct (Qeq_bool delta 1); reflexivity.
Qed.

(** X17. ctrDiff along the first axis, on finite data of at least two
    rows and with a step that is not 0, returns an array of as many rows
    whose first and last rows are the one-sided differences over the step
    and whose other rows are the centred differences over twice the step.
    The two branches of the code (delta equal to 1, or not) agree with
    this. *)
Theorem ctrDiff_central_differences (D : list (list Q)) (delta : Q) :
  ~ (delta == 0)%Q ->
  D <> [] ->
  exists out,
    ctrDiff (finite D) delta = Ok out
    /\ length out = length D
    /\ (forall j a b,
          at2 D 0 j = Some a -> at2 D 1 j = Some b ->
          exists v, at2 out 0 j = Some (Num v) /\ (v == (b - a) / delta)%Q)
    /\ (forall i j a c b,
          at2 D i j = Some a -> at2 D (i + 1) j = Some c ->
          at2 D (i + 2) j = Some b ->
          exists v, at2 out (i + 1) j = Some (Num v)
                    /\ (v == (b - a) / (2 * delta))%Q)
    /\ (forall i j a b,
          (i + 2 = length D)%nat ->
          at2 D i j = Some a -> at2 D (i + 1) j = Some b ->
          exists v, at2 out (i + 1) j = Some (Num v) /\ (v == (b - a) / delta)%Q).
Proof.
  intros Hd HD.
  assert (Hne : finite D <> []) by (destruct D; [contradiction|discriminate]).
  destruct (ctrDiff_ok (finite D) delta Hne) as (out & Hout & Hlen).
  exists out. split; [exact Hout|]. split.
  { rewrite Hlen. unfold finite. apply length_map. }
  assert (H2d : Qeq_bool (2 * delta) 0 = false).
  { destruct (Qeq_bool (2 * delta) 0) eqn:E; [|reflexivity].
    apply Qeq_bool_iff in E. exfalso. apply Hd. lra. }
  assert (Hd0 : Qeq_bool delta 0 = false).
  { destruct (Qeq_bool delta 0) eqn:E; [|reflexivity].
    apply Qeq_bool_iff in E. contradiction. }
  split; [|split].
  - intros j a b Ha Hb.
    rewrite (ctrDiff_first_row _ _ _ _ _ _ Hout (at2_finite _ _ _ _ Ha)
               (at2_finite _ _ _ _ Hb)).
    destruct (Qeq_bool delta 1) eqn:E1; simpl.
    + apply Qeq_bool_iff in E1. eexists. split; [reflexivity|].
      rewrite E1. field.
    + rewrite Hd0. eexists. split; [reflexivity|]. field. exact Hd.
  - intros i j a c b Ha Hc Hb.
    replace (i + 1)%nat with (S i) in * by lia.
    replace (i + 2)%nat with (S (S i)) in * by lia.
    rewrite (ctrDiff_inner_row _ _ _ _ _ _ _ _ Hout (at2_finite _ _ _ _ Ha)
               (at2_finite _ _ _ _ Hc) (at2_finite _ _ _ _ Hb)).
    destruct (Qeq_bool delta 1) eqn:E1; simpl.
    + apply Qeq_bool_iff in E1. eexists. split; [reflexivity|].
      rewrite E1. field.
    + rewrite H2d. eexists. split; [reflexivity|]. field. exact Hd.
  - intros i j a b Hi Ha Hb.
    replace (i + 1)%nat with (S i) in * by lia.
    assert (Hi' : (i + 2 = length (finite D))%nat).
    { unfold finite. rewrite length_map. exact Hi. }
    rewrite (ctrDiff_last_row _ _ _ _ _ _ _ Hout Hi' (at2_finite _ _ _ _ Ha)
               (at2_finite _ _ _ _ Hb)).
    destruct (Qeq_bool delta 1) eqn:E1; simpl.
    + apply Qeq_bool_iff in E1. eexists. split; [reflexivity|].
      rewrite E1. field.
    + rewrite Hd0. eexists. split; [reflexivity|]. field. exact Hd.
Qed.

Lemma ctrDiff_central_differences_witness :
  exists out,
    ctrDiff (finite heights) 500 = Ok out
    /\ length out = 3%nat
    /\ (exists v, at2 out 0 0 = Some (Num v) /\ (v == (30 - 10) / 500)%Q)
    /\ (exists v, at2 out 1 0 = Some (Num v) /\ (v == (70 - 10) / (2 * 500))%Q)
    /\ (exists v, at2 out 2 0 = Some (Num v) /\ (v == (70 - 30) / 500)%Q).
Proof.
  destruct (ctrDiff_central_differences heights 500)
    as (out & Hout & Hlen & Hfirst & Hinner & Hlast).
  - discriminate.
  - discriminate.
  - exists out. split; [exact Hout|]. split; [exact Hlen|].
    split; [|split].
    + apply (Hfirst 0%nat); reflexivity.
    + apply (Hinner 0%nat 0%nat 10%Q 30%Q 70%Q); reflexivity.
    + apply (Hlast 1%nat 0%nat 30%Q 70%Q); reflexivity.
Defined.

Lemma rectangular_at2 {A} (n m : nat) (c : list (list A)) (i j : nat) :
  rectangular n m c -> (i < n)%nat -> (j < m)%nat ->
  exists a, at2 c i j = Some a.
Proof.
  intros [Hn Hm] Hi Hj.
  destruct (lookup_lt_is_Some_2 c i) as [r Hr]; [lia|].
  assert (Hlen : length r = m).
  { rewrite Forall_forall in Hm. apply Hm.
    eapply list_elem_of_lookup_2. exact Hr. }
  destruct (lookup_lt_is_Some_2 r j) as [a Ha]; [lia|].
  exists a. apply at2_Some. eauto.
Qed.



(** X19. A missing value spoils the difference at its own position, in
    every row: where the data are NaN the result of ctrDiff is NaN, also in
    the interior rows, whose centred difference is the difference of the
    two neighbours only (the code obtains it as the sum of the two
    one-sided differences, which both contain the value). *)
Theorem ctrDiff_NaN_at_its_own_position
    (n m : nat) (data out : chunk) (delta : Q) (i j : nat) :
  rectangular n m data ->
  (2 <= n)%nat ->
  ctrDiff data delta = Ok out ->
  at2 data i j = Some NaN ->
  at2 out i j = Some NaN.
Proof.
  intros Hrect Hn Hout Hnan.
  assert (Hlen : length data = n) by (destruct Hrect; assumption).
  assert (Hi : (i < n)%nat).
  { apply at2_Some in Hnan. destruct Hnan as [r [Hr _]].
    apply lookup_lt_Some in Hr. lia. }
  assert (Hj : (j < m)%nat).
  { apply at2_Some in Hnan. destruct Hnan as [r [Hr Hv]].
    destruct Hrect as [_ Hm]. rewrite Forall_forall in Hm.
    rewrite <- (Hm r).
    - apply lookup_lt_Some in Hv. exact Hv.
    - eapply list_elem_of_lookup_2. exact Hr. }
  destruct i as [|i].
  - destruct (rectangular_at2 n m data 1 j Hrect) as [b Hb]; [lia|lia|].
    rewrite (ctrDiff_first_row _ _ _ _ _ _ Hout Hnan Hb).
    destruct b; destruct (Qeq_bool delta 1); reflexivity.
  - destruct (rectangular_at2 n m data i j Hrect) as [a Ha]; [lia|lia|].
    destruct (Nat.eq_dec (i + 2)%nat n) as [Hlast|Hinner].
    + assert (Hi' : (i + 2 = length data)%nat) by lia.
      rewrite (ctrDiff_last_row _ _ _ _ _ _ _ Hout Hi' Ha Hnan).
      destruct a; destruct (Qeq_bool delta 1); reflexivity.
    + destruct (rectangular_at2 n m data (S (S i)) j Hrect) as [b Hb];
        [lia|lia|].
      rewrite (ctrDiff_inner_row _ _ _ _ _ _ _ _ Hout Ha Hnan Hb).
      destruct a; reflexivity.
Qed.

Lemma ctrDiff_NaN_at_its_own_position_witness :
  exists out,
    ctrDiff [[Num 10]; [NaN]; [Num 70]] 500 = Ok out
    /\ at2 out 1 0 = Some NaN.
Proof.
  destruct (ctrDiff [[Num 10]; [NaN]; [Num 70]] 500) as [out|e] eqn:Hout;
    [|vm_compute in Hout; discriminate].
  exists out. split; [reflexivity|].
  apply (ctrDiff_NaN_at_its_own_position 3 1 [[Num 10]; [NaN]; [Num 70]] out
           500 1 0).
  - split; [reflexivity|]. repeat constructor.
  - lia.
  - exact Hout.
  - reflexivity.
Defined.

(** X20. The edges of ctrDiff. An array of one row gives a row of zeros
    (the array of zeros is never written to, and the one row is divided by
    the step once). An array of no rows is returned empty when the step is
    1 and raises IndexError for every other step, where the first and the
    last row are addressed. *)
Theorem ctrDiff_degenerate (r : list Q) (delta : Q) :
  ~ (delta == 0)%Q ->
  (exists out,
     ctrDiff (finite [r]) delta = Ok [out]
     /\ length out = length r
     /\ Forall (fun v => num_eq v (Num 0)) out)
  /\ ctrDiff [] 1 = Ok []
  /\ (~ (delta == 1)%Q -> ctrDiff [] delta = Raise IndexError).
Proof.
  intros Hd.
  assert (Hd0 : Qeq_bool delta 0 = false).
  { destruct (Qeq_bool delta 0) eqn:E; [|reflexivity].
    apply Qeq_bool_iff in E. contradiction. }
  split; [|split].
  - unfold ctrDiff, finite. cbn [map length].
    unfold assign_diff, np_diff0, add_next. cbn [map take tail zip_with app].
    cbn [length Nat.sub drop app]. unfold divide_rows.
    cbn [imap interior boundary Nat.leb Nat.ltb Nat.eqb Nat.add andb orb].
    destruct (Qeq_bool delta 1) eqn:E1.
    + eexists. split; [reflexivity|]. split; [rewrite !length_map; reflexivity|].
      rewrite map_map. apply Forall_map. apply Forall_forall. intros x _.
      simpl. reflexivity.
    + cbn [Nat.eqb]. eexists. split; [reflexivity|].
      split; [rewrite !length_map; reflexivity|].
      rewrite !map_map. apply Forall_map. apply Forall_forall. intros x _.
      simpl. rewrite Hd0. simpl. field. exact Hd.
  - reflexivity.
  - intros H1. unfold ctrDiff.
    destruct (Qeq_bool delta 1) eqn:E1; [|reflexivity].
    apply Qeq_bool_iff in E1. contradiction.
Qed.

Lemma ctrDiff_degenerate_witness :
  (exists out,
     ctrDiff (finite [[10; 30]%Q]) 500 = Ok [out]
     /\ length out = 2%nat
     /\ Forall (fun v => num_eq v (Num 0)) out)
  /\ ctrDiff [] 500 = Raise IndexError.
Proof.
  destruct (ctrDiff_degenerate [10; 30]%Q 500) as (H1 & _ & H3).
  - discriminate.
  - split; [exact H1|]. apply H3. discriminate.
Defined.

(** ** Time stamps *)

Lemma split_nonempty (sep : ascii) (s : string) : split sep s <> [].
Proof.
  destruct s as [|c r]; simpl; [discriminate|].
  destruct (Ascii.eqb c sep); [discriminate|].
  destruct (split sep r); discriminate.
Qed.

Lemma concat_cons_head (sep : string) (c : ascii) (h : string)
    (t : list string) :
  String.concat sep (String c h :: t) = String c (String.concat sep (h :: t)).
Proof. destruct t; reflexivity. Qed.

Lemma concat_empty_head (sep : ascii) (h : string) (t : list string) :
  String.concat (String sep EmptyString) (EmptyString :: h :: t)
  = String sep (String.concat (String sep EmptyString) (h :: t)).
Proof. reflexivity. Qed.

(** ' '.join and str.split are inverse to each other on the separator. *)
Lemma concat_split (sep : ascii) (s : string) :
  String.concat (String sep EmptyString) (split sep s) = s.
Proof.
  induction s as [|c r IH]; [reflexivity|].
  cbn [split]. pose proof (split_nonempty sep r) as Hr.
  destruct (Ascii.eqb_spec c sep) as [->|Hne];
    destruct (split sep r) as [|h t] eqn:E; try contradiction.
  - rewrite concat_empty_head, IH. reflexivity.
  - rewrite concat_cons_head, IH. reflexivity.
Qed.

Lemma split_parts_without (sep : ascii) (s : string) :
  Forall (fun p => without sep p = true) (split sep s).
Proof.
  induction s as [|c r IH]; simpl; [repeat constructor|].
  destruct (Ascii.eqb c sep) eqn:E.
  - constructor; [reflexivity|exact IH].
  - destruct (split sep r) as [|h t]; [repeat constructor; simpl; rewrite E; reflexivity|].
    inversion IH as [|? ? Hh Ht]; subst. constructor; [|exact Ht].
    simpl. rewrite E, Hh. reflexivity.
Qed.

Lemma split_without (sep : ascii) (s : string) :
  without sep s = true -> split sep s = [s].
Proof.
  induction s as [|c r IH]; simpl; [reflexivity|].
  intros H. apply andb_true_iff in H. destruct H as [Hc Hr].
  apply negb_true_iff in Hc. rewrite Hc, (IH Hr). reflexivity.
Qed.

Lemma split_app (sep : ascii) (a b : string) :
  without sep a = true ->
  split sep (a +:+ String sep b) = a :: split sep b.
Proof.
  induction a as [|c r IH]; simpl.
  - intros _. rewrite Ascii.eqb_refl. reflexivity.
  - intros H. apply andb_true_iff in H. destruct H as [Hc Hr].
    apply negb_true_iff in Hc. rewrite Hc.
    change (String.append r (String sep b)) with (r +:+ String sep b).
    rewrite (IH Hr). reflexivity.
Qed.

(** X21. getTimeStamp returns a value exactly for a time stamp with one
    underscore, and the value is the time stamp with the underscore
    replaced by a blank: the date, a blank, the time.  A time stamp with no
    underscore or with more than one fails the assertion. *)
Theorem getTimeStamp_one_underscore
    (dataset : gmap string (list string)) (idx : Z) (timestamp_var : string)
    (rows : list string) (row : string) :
  dataset !! timestamp_var = Some rows ->
  getrow rows idx = Ok row ->
  (forall r,
     getTimeStamp dataset idx timestamp_var = Ok r
     <-> exists date time,
           row = (date +:+ "_" +:+ time)%string
           /\ without "_" date = true /\ without "_" time = true
           /\ r = (date +:+ " " +:+ time)%string)
  /\ ((forall r, getTimeStamp dataset idx timestamp_var <> Ok r) ->
      getTimeStamp dataset idx timestamp_var = Raise AssertionError).
Proof.
  intros Hrows Hrow.
  assert (Hget : getTimeStamp dataset idx timestamp_var
                 = if negb (length (split "_" row) =? 2)%nat
                   then Raise AssertionError
                   else Ok (String.concat " " (split "_" row))).
  { unfold getTimeStamp, getitem. rewrite Hrows. cbn [rbind].
    rewrite Hrow. reflexivity. }
  rewrite Hget. split.
  - intros r. split.
    + destruct (length (split "_" row) =? 2)%nat eqn:E; [|discriminate].
      cbn [negb]. intros H. injection H as <-.
      apply Nat.eqb_eq in E.
      pose proof (concat_split "_" row) as Hc.
      pose proof (split_parts_without "_" row) as Hw.
      destruct (split "_" row) as [|date [|time [|x l]]]; try discriminate.
      exists date, time. apply Forall_cons in Hw. destruct Hw as [Hd Ht].
      apply Forall_cons in Ht. destruct Ht as [Ht' _].
      split; [symmetry; exact Hc|]. split; [exact Hd|].
      split; [exact Ht'|reflexivity].
    + intros (date & time & -> & Hd & Ht & ->).
      change ("_" +:+ time)%string with (String "_" time).
      rewrite (split_app "_" date time Hd), (split_without "_" time Ht).
      reflexivity.
  - intros Hno.
    destruct (length (split "_" row) =? 2)%nat; [|reflexivity].
    exfalso. eapply Hno. reflexivity.
Qed.

Lemma getTimeStamp_one_underscore_witness :
  getTimeStamp wrf_times (-1) "Times" = Ok "2010-01-02 00:00:00"%string.
Proof.
  destruct (getTimeStamp_one_underscore wrf_times (-1) "Times"
              ["2010-01-01_00:00:00"; "2010-01-02_00:00:00"]%string
              "2010-01-02_00:00:00"%string) as [Hiff _].
  - reflexivity.
  - reflexivity.
  - apply Hiff. exists "2010-01-02"%string, "00:00:00"%string.
    repeat split; reflexivity.
Defined.

(** ** The default aggregation over several chunks *)

Lemma num_eq_sym (x y : num) : num_eq x y -> num_eq y x.
Proof. destruct x, y; simpl; auto. intros H. symmetry. exact H. Qed.

Lemma num_eq_trans (x y z : num) : num_eq x y -> num_eq y z -> num_eq x z.
Proof.
  destruct x, y, z; simpl; auto; try contradiction.
  intros H1 H2. rewrite H1. exact H2.
Qed.

Lemma nadd_num_eq (x x' y y' : num) :
  num_eq x x' -> num_eq y y' -> num_eq (nadd x y) (nadd x' y').
Proof.
  destruct x, x', y, y'; simpl; auto; try contradiction.
  intros H1 H2. rewrite H1, H2. reflexivity.
Qed.

Lemma nadd_assoc_eq (x y z : num) :
  num_eq (nadd (nadd x y) z) (nadd x (nadd y z)).
Proof. destruct x, y, z; simpl; auto. ring. Qed.

Lemma nadd_0_r_eq (x : num) : num_eq x (nadd x (Num 0)).
Proof. destruct x; simpl; auto. ring. Qed.

(** The sum of a series that goes on from [s] is [s] plus the sum of the
    series. *)
Lemma total_from (ign : bool) (l : field) (s : num) :
  num_eq (foldl (fun s x => nadd s (if ign then nan_to_num x else x)) s l)
         (nadd s (total ign l)).
Proof.
  unfold total. revert s. induction l as [|x l IH]; intros s.
  - simpl. apply nadd_0_r_eq.
  - cbn [foldl]. eapply num_eq_trans; [apply IH|].
    eapply num_eq_trans; [|apply nadd_num_eq; [apply num_eq_refl|
                                              apply num_eq_sym; apply IH]].
    eapply num_eq_trans; [apply nadd_assoc_eq|].
    apply nadd_num_eq; [apply num_eq_refl|].
    apply nadd_num_eq; [|apply num_eq_refl].
    destruct (if ign then nan_to_num x else x); simpl; auto. ring.
Qed.

Lemma total_app (ign : bool) (l1 l2 : field) :
  num_eq (total ign (l1 ++ l2)) (nadd (total ign l1) (total ign l2)).
Proof.
  unfold total at 1. rewrite foldl_app. apply total_from.
Qed.

Lemma column_app (j : nat) (c1 c2 : chunk) :
  column j (c1 ++ c2) = column j c1 ++ column j c2.
Proof. unfold column. apply map_app. Qed.

(** The default aggregation onto an accumulator, at one grid point, up to
    the representation of the rationals. *)
Lemma aggregateValues_accumulates (self : DerivedVariable.t) (c : chunk)
    (a : field) :
  DerivedVariable.normalize self = true ->
  Forall (fun slice => length slice = length a) c ->
  exists r,
    DerivedVariable.aggregateValues self (Some c) (Some a) = Ok (Some r)
    /\ length r = length a
    /\ forall j x, a !! j = Some x ->
         exists y, r !! j = Some y
                   /\ num_eq y (nadd x (total (DerivedVariable.ignoreNaN self)
                                          (column j c))).
Proof.
  intros Hnorm Hrect. unfold DerivedVariable.aggregateValues.
  destruct (0 <? size c)%nat eqn:Hsize.
  - apply Nat.ltb_lt in Hsize.
    assert (Hw : width c = length a) by (eapply width_rectangular; eauto).
    assert (Hz : length (zeros (width c)) = length a)
      by (unfold zeros; rewrite length_replicate; exact Hw).
    assert (Hrect' : Forall (fun slice => length slice
                                          = length (zeros (width c))) c)
      by (eapply Forall_impl; [exact Hrect|]; simpl; intros; lia).
    rewrite Hnorm. cbn [negb].
    destruct (DerivedVariable.ignoreNaN self).
    + unfold np_nansum. rewrite ewise_same_length
        by (rewrite reduce0_length by exact Hrect'; lia).
      cbn [rbind]. eexists. split; [reflexivity|]. split.
      * rewrite length_zip_with, reduce0_length by exact Hrect'. lia.
      * intros j x Hj. eexists. split; [|apply num_eq_refl].
        rewrite lookup_zip_with, Hj. simpl.
        erewrite reduce0_lookup; [reflexivity|exact Hrect'|].
        apply zeros_lookup. rewrite Hw. eapply lookup_lt_Some; exact Hj.
    + unfold np_sum. rewrite ewise_same_length
        by (rewrite reduce0_length by exact Hrect'; lia).
      cbn [rbind]. eexists. split; [reflexivity|]. split.
      * rewrite length_zip_with, reduce0_length by exact Hrect'. lia.
      * intros j x Hj. eexists. split; [|apply num_eq_refl].
        rewrite lookup_zip_with, Hj. simpl.
        erewrite reduce0_lookup; [reflexivity|exact Hrect'|].
        apply zeros_lookup. rewrite Hw. eapply lookup_lt_Some; exact Hj.
  - apply Nat.ltb_ge in Hsize. exists a. split; [reflexivity|].
    split; [reflexivity|]. intros j x Hj. exists x. split; [exact Hj|].
    destruct c as [|r c].
    + simpl. apply nadd_0_r_eq.
    + exfalso. unfold size in Hsize. simpl in Hsize.
      inversion Hrect as [|? ? Hr _]; subst.
      apply lookup_lt_Some in Hj. lia.
Qed.

(** X22. The accumulated sum of a normalized variable does not depend on
    how the record is cut into chunks: aggregating a first chunk onto the
    accumulator and then a second one gives, at every grid point, what
    aggregating the two chunks in one piece gives (exact arithmetic; empty
    chunks included, with or without ignoreNaN). *)
Theorem aggregateValues_in_two_chunks
    (self : DerivedVariable.t) (c1 c2 : chunk) (a : field) :
  DerivedVariable.normalize self = true ->
  Forall (fun slice => length slice = length a) c1 ->
  Forall (fun slice => length slice = length a) c2 ->
  exists a1 a2 a12,
    DerivedVariable.aggregateValues self (Some c1) (Some a) = Ok (Some a1)
    /\ DerivedVariable.aggregateValues self (Some c2) (Some a1) = Ok (Some a2)
    /\ DerivedVariable.aggregateValues self (Some (c1 ++ c2)) (Some a)
       = Ok (Some a12)
    /\ Forall2 num_eq a2 a12.
Proof.
  intros Hnorm H1 H2.
  destruct (aggregateValues_accumulates self c1 a Hnorm H1)
    as (a1 & Ha1 & Hl1 & Hp1).
  assert (H2' : Forall (fun slice => length slice = length a1) c2).
  { eapply Forall_impl; [exact H2|]. simpl. intros; lia. }
  destruct (aggregateValues_accumulates self c2 a1 Hnorm H2')
    as (a2 & Ha2 & Hl2 & Hp2).
  assert (H12 : Forall (fun slice => length slice = length a) (c1 ++ c2)).
  { apply Forall_app. split; assumption. }
  destruct (aggregateValues_accumulates self (c1 ++ c2) a Hnorm H12)
    as (a12 & Ha12 & Hl12 & Hp12).
  exists a1, a2, a12. repeat (split; [assumption|]).
  apply Forall2_same_length_lookup_2; [lia|].
  intros j y2 y12 Hy2 Hy12.
  assert (Hj : (j < length a)%nat).
  { apply lookup_lt_Some in Hy12. lia. }
  destruct (lookup_lt_is_Some_2 a j Hj) as [x Hx].
  destruct (Hp1 j x Hx) as (y1 & Hy1 & E1).
  destruct (Hp2 j y1 Hy1) as (y2' & Hy2' & E2).
  destruct (Hp12 j x Hx) as (y12' & Hy12' & E12).
  rewrite Hy2 in Hy2'. injection Hy2' as <-.
  rewrite Hy12 in Hy12'. injection Hy12' as <-.
  eapply num_eq_trans; [exact E2|].
  eapply num_eq_trans; [|apply num_eq_sym; exact E12].
  rewrite column_app.
  eapply num_eq_trans;
    [apply nadd_num_eq; [exact E1|apply num_eq_refl]|].
  eapply num_eq_trans; [apply nadd_assoc_eq|].
  apply nadd_num_eq; [apply num_eq_refl|].
  apply num_eq_sym. apply total_app.
Qed.

Lemma aggregateValues_in_two_chunks_witness :
  exists a1 a2 a12,
    DerivedVariable.aggregateValues checked_rain
      (Some [[Num 2; Num 1]]) (Some [Num 10; Num 20]) = Ok (Some a1)
    /\ DerivedVariable.aggregateValues checked_rain
         (Some [[Num 4; Num 1]; [Num 6; Num 3]]) (Some a1) = Ok (Some a2)
    /\ DerivedVariable.aggregateValues checked_rain
         (Some ([[Num 2; Num 1]] ++ [[Num 4; Num 1]; [Num 6; Num 3]]))
         (Some [Num 10; Num 20]) = Ok (Some a12)
    /\ Forall2 num_eq a2 a12.
Proof.
  apply (aggregateValues_in_two_chunks checked_rain
           [[Num 2; Num 1]] [[Num 4; Num 1]; [Num 6; Num 3]]
           [Num 10; Num 20]).
  - reflexivity.
  - repeat constructor.
  - repeat constructor.
Defined.

(** ** Net radiation *)

Lemma radiation_row (sd su ld lu : list Q) :
  length sd = length su -> length sd = length ld -> length sd = length lu ->
  exists sum,
    ewise nadd (zip_with nsub (map Num sd) (map Num su))
               (zip_with nsub (map Num ld) (map Num lu)) = Ok sum
    /\ length (zip_with nadd (zip_with nsub (map Num sd) (map Num su))
                 (map Num ld)) = length (map Num lu)
    /\ length (zip_with nsub (map Num sd) (map Num su)) = length (map Num ld)
    /\ Forall2 num_eq
         (zip_with nsub
            (zip_with nadd (zip_with nsub (map Num sd) (map Num su))
               (map Num ld))
            (map Num lu))
         sum.
Proof.
  revert su ld lu.
  induction sd as [|a sd IH]; intros [|b su] [|c ld] [|d lu] H1 H2 H3;
    simpl in *; try discriminate.
  - eexists. repeat split; constructor.
  - destruct (IH su ld lu) as (sum & Hsum & Hl1 & Hl2 & Heq); [lia|lia|lia|].
    rewrite Hsum. simpl. eexists. split; [reflexivity|].
    split; [lia|]. split; [lia|].
    constructor; [simpl; ring|exact Heq].
Qed.

Lemma radiation_chunk (SD SU LD LU : list (list Q)) :
  same_shape SD SU -> same_shape SD LD -> same_shape SD LU ->
  same_shape (zip_with (zip_with nsub) (finite SD) (finite SU)) (finite LD)
  /\ same_shape (zip_with (zip_with nadd)
                   (zip_with (zip_with nsub) (finite SD) (finite SU))
                   (finite LD)) (finite LU)
  /\ exists sum,
       ewise2 nadd (zip_with (zip_with nsub) (finite SD) (finite SU))
                   (zip_with (zip_with nsub) (finite LD) (finite LU)) = Ok sum
       /\ Forall2 (Forall2 num_eq)
            (zip_with (zip_with nsub)
               (zip_with (zip_with nadd)
                  (zip_with (zip_with nsub) (finite SD) (finite SU))
                  (finite LD))
               (finite LU))
            sum.
Proof.
  unfold same_shape. intros H1. revert LD LU.
  induction H1 as [|sd su SD SU Hl1 _ IH]; intros LD LU H2 H3.
  - inversion H2; subst. inversion H3; subst. simpl.
    split; [constructor|]. split; [constructor|].
    eexists. split; [reflexivity|constructor].
  - inversion H2 as [|? ld ? LD' Hl2 H2']; subst.
    inversion H3 as [|? lu ? LU' Hl3 H3']; subst.
    destruct (IH LD' LU' H2' H3') as (Hs1 & Hs2 & sum & Hsum & Heq).
    destruct (radiation_row sd su ld lu Hl1 Hl2 Hl3)
      as (sum0 & Hsum0 & Hla & Hlb & Heq0).
    simpl. split; [constructor; assumption|].
    split; [constructor; assumption|].
    rewrite Hsum0. simpl. rewrite Hsum. simpl.
    eexists. split; [reflexivity|]. constructor; assumption.
Qed.

(** X23. The net radiation at the surface is the net short-wave radiation
    plus the net long-wave radiation: on finite fields of one shape
    NetRadiation and NetLWRadiation are both computed, and NetRadiation
    equals (ACSWDNB - ACSWUPB) + NetLWRadiation element by element. *)
Theorem NetRadiation_is_shortwave_plus_NetLWRadiation
    (V : Type) (SD SU LD LU : list (list Q)) (indata : gmap string chunk)
    (const : option (gmap string V)) :
  same_shape SD SU -> same_shape SD LD -> same_shape SD LU ->
  indata !! "ACSWDNB"%string = Some (finite SD) ->
  indata !! "ACSWUPB"%string = Some (finite SU) ->
  indata !! "ACLWDNB"%string = Some (finite LD) ->
  indata !! "ACLWUPB"%string = Some (finite LU) ->
  exists net lw sw sum,
    NetRadiation.computeValues
      (DerivedVariable.set_checked true NetRadiation.__init__) indata const
    = Ok net
    /\ NetLWRadiation.computeValues
         (DerivedVariable.set_checked true NetLWRadiation.__init__) indata const
       = Ok lw
    /\ ewise2 nsub (finite SD) (finite SU) = Ok sw
    /\ ewise2 nadd sw lw = Ok sum
    /\ Forall2 (Forall2 num_eq) net sum.
Proof.
  intros H1 H2 H3 HSD HSU HLD HLU.
  destruct (radiation_chunk SD SU LD LU H1 H2 H3)
    as (Hs1 & Hs2 & sum & Hsum & Heq).
  pose proof (finite_same_shape SD SU H1) as H1'.
  assert (H4 : same_shape LD LU).
  { unfold same_shape in *. clear -H2 H3.
    revert LU H3. induction H2 as [|sd ld SD LD Hl _ IH]; intros LU H3.
    - inversion H3; constructor.
    - inversion H3 as [|? lu ? LU' Hl' H3']; subst.
      constructor; [lia|apply IH; exact H3']. }
  pose proof (finite_same_shape LD LU H4) as H4'.
  exists (zip_with (zip_with nsub)
            (zip_with (zip_with nadd)
               (zip_with (zip_with nsub) (finite SD) (finite SU)) (finite LD))
            (finite LU)),
         (zip_with (zip_with nsub) (finite LD) (finite LU)),
         (zip_with (zip_with nsub) (finite SD) (finite SU)), sum.
  split; [|split; [|split; [|split]]].
  - unfold NetRadiation.computeValues, getitem. rewrite HSD, HSU, HLD, HLU.
    simpl. rewrite (ewise2_same_shape _ _ _ H1'). simpl.
    rewrite (ewise2_same_shape _ _ _ Hs1). simpl.
    apply ewise2_same_shape. exact Hs2.
  - unfold NetLWRadiation.computeValues, getitem. rewrite HLD, HLU. simpl.
    apply ewise2_same_shape. exact H4'.
  - apply ewise2_same_shape. exact H1'.
  - exact Hsum.
  - exact Heq.
Qed.

Lemma NetRadiation_is_shortwave_plus_NetLWRadiation_witness :
  exists net lw sw sum,
    NetRadiation.computeValues (V:=unit)
      (DerivedVariable.set_checked true NetRadiation.__init__) radiation None
    = Ok net
    /\ NetLWRadiation.computeValues (V:=unit)
         (DerivedVariable.set_checked true NetLWRadiation.__init__) radiation
         None
       = Ok lw
    /\ ewise2 nsub (finite [[200; 150]]%Q) (finite [[30; 20]]%Q) = Ok sw
    /\ ewise2 nadd sw lw = Ok sum
    /\ Forall2 (Forall2 num_eq) net sum.
Proof.
  apply (NetRadiation_is_shortwave_plus_NetLWRadiation unit
           [[200; 150]]%Q [[30; 20]]%Q [[300; 310]]%Q [[350; 340]]%Q
           radiation None).
  - repeat constructor.
  - repeat constructor.
  - repeat constructor.
  - reflexivity.
  - reflexivity.
  - reflexivity.
  - reflexivity.
Defined.

(** ** From the check of the prerequisites to the netCDF variable *)

(** X24. createVariable follows the last check of the prerequisites: on
    the object that checkPrerequisites returns it calls add_var when the
    check returned True, with the name, the axes, the attributes and the
    data type of the descriptor as they were before the check, and raises
    DerivedVariableError when the check returned False. *)
Theorem createVariable_follows_check
    (NCVar : Type) (add_var : Dataset -> DerivedVariable.add_var_call -> NCVar)
    (self self' : DerivedVariable.t) (source target : Dataset)
    (const : option Dataset) (varmap : option (gmap string string))
    (check : bool) :
  DerivedVariable.checkPrerequisites self source const varmap
  = Ok (self', check) ->
  DerivedVariable.createVariable add_var self' target
  = if check
    then Ok (add_var target
               {| DerivedVariable.av_name := DerivedVariable.name self;
                  DerivedVariable.av_dims := DerivedVariable.axes self;
                  DerivedVariable.av_atts := DerivedVariable.atts self;
                  DerivedVariable.av_dtype := DerivedVariable.dtype_ self |})
    else Raise DerivedVariableError.
Proof.
  unfold DerivedVariable.checkPrerequisites. intros H.
  destruct (match const with
            | None =>
                Ok (foldl (DerivedVariable.check_prerequisite source varmap)
                          true (DerivedVariable.prerequisites self))
            | Some c =>
                match DerivedVariable.constants self with
                | None => Raise TypeError
                | Some cs =>
                    Ok (foldl (DerivedVariable.check_constant c)
                          (foldl (DerivedVariable.check_prerequisite source
                                    varmap)
                             true (DerivedVariable.prerequisites self)) cs)
                end
            end) as [b|e]; cbn [rbind] in H; [|discriminate].
  injection H as <- <-. unfold DerivedVariable.createVariable.
  destruct b; reflexivity.
Qed.

Lemma createVariable_follows_check_witness :
  exists self',
    DerivedVariable.checkPrerequisites Rain.__init__ hydro_dataset None None
    = Ok (self', true)
    /\ DerivedVariable.createVariable
         (fun _ call => DerivedVariable.av_name call) self' hydro_dataset
       = Ok "RAIN"%string.
Proof.
  destruct (DerivedVariable.checkPrerequisites Rain.__init__ hydro_dataset
              None None) as [[self' b]|e] eqn:Hchk;
    [|vm_compute in Hchk; discriminate].
  assert (Hb : b = true).
  { unfold DerivedVariable.checkPrerequisites in Hchk. cbn [rbind] in Hchk.
    injection Hchk as _ <-. vm_compute. reflexivity. }
  subst b. exists self'. split; [reflexivity|].
  rewrite (createVariable_follows_check string
             (fun _ call => DerivedVariable.av_name call)
             Rain.__init__ self' hydro_dataset hydro_dataset None None true
             Hchk).
  reflexivity.
Defined.

(** ** Consecutive exceedances: the mask of the missing values *)

Lemma any_nan_fold (init : list bool) (c : chunk) (j : nat) (b : bool) :
  Forall (fun slice => length slice = length init) c ->
  init !! j = Some b ->
  foldl (zip_with (fun (b : bool) x => b || isnan x)) init c !! j
  = Some (b || existsb isnan (column j c)).
Proof.
  revert init b. induction c as [|slice c IH]; intros init b Hc Hj.
  - simpl. rewrite orb_false_r. exact Hj.
  - inversion Hc as [|? ? Hs Hc']; subst. cbn [foldl].
    assert (Hlt : (j < length slice)%nat).
    { rewrite Hs. eapply lookup_lt_Some. exact Hj. }
    destruct (lookup_lt_is_Some_2 slice j Hlt) as [y Hy].
    rewrite (IH (zip_with (fun (b : bool) x => b || isnan x) init slice)
                (b || isnan y)).
    + unfold column. cbn [map existsb]. rewrite Hy. cbn [default].
      rewrite orb_assoc. reflexivity.
    + eapply Forall_impl; [exact Hc'|]. simpl. intros s Hs'.
      rewrite length_zip_with. lia.
    + rewrite lookup_zip_with, Hj. simpl. rewrite Hy. reflexivity.
Qed.

Lemma any_nan_lookup (n m : nat) (data : chunk) (j : nat) :
  rectangular n m data -> (1 <= n)%nat -> (j < m)%nat ->
  ConsecutiveExtrema.any_nan data !! j
  = Some (existsb isnan (column j data)).
Proof.
  intros [Hn Hm] Hn1 Hj. unfold ConsecutiveExtrema.any_nan.
  assert (Hw : width data = m).
  { destruct data as [|r data]; [simpl in Hn; lia|].
    inversion Hm; subst. reflexivity. }
  rewrite Hw.
  rewrite (any_nan_fold (replicate m false) data j false).
  - reflexivity.
  - rewrite length_replicate. exact Hm.
  - apply lookup_replicate. auto.
Qed.

(** X25. With ignoreNaN set, ConsecutiveExtrema masks a grid point exactly
    when one of its samples in the chunk is NaN, whatever the streaks
    recorded at the point are; without ignoreNaN nothing is masked (a NaN
    sample only counts as a step without exceedance). *)
Theorem ConsecutiveExtrema_masks_missing_points
    (V : Type) (self self' : ConsecutiveExtrema.t) (v : string)
    (rest : list string) (indata : gmap string chunk) (data : chunk)
    (n m : nat) (delta : option Q) (const : option (gmap string V))
    (tmp : option tmpdict) (r : ndarray1) (tmp' : tmpdict) :
  ConsecutiveExtrema.computeValues self indata delta const tmp
  = Ok (r, self', tmp') ->
  DerivedVariable.prerequisites (ConsecutiveExtrema.base self) = v :: rest ->
  indata !! v = Some data ->
  rectangular n m data ->
  (1 <= n)%nat ->
  if DerivedVariable.ignoreNaN (ConsecutiveExtrema.base self)
  then exists a mask,
         r = MaskedArray a mask
         /\ length mask = m
         /\ forall j, (j < m)%nat ->
              mask !! j = Some (existsb isnan (column j data))
  else exists a, r = Plain a.
Proof.
  unfold ConsecutiveExtrema.computeValues. intros H Hpre Hin Hrect Hn.
  destruct (DerivedVariable.computeValues (ConsecutiveExtrema.base self) const)
    as [[]|e]; cbn [rbind] in H; [|discriminate].
  destruct tmp as [tmp0|]; cbn [rbind] in H; [|discriminate].
  destruct (match tmp0 !! "COX_DELTA"%string with
            | Some (TDelta d') =>
                if delta_neqb delta d' then Raise NotImplementedError
                else Ok tmp0
            | Some _ => Raise ValueError
            | None => Ok (<["COX_DELTA"%string := TDelta delta]> tmp0)
            end) as [tmp1|e]; cbn [rbind] in H; [|discriminate].
  destruct (if Qeq_bool (ConsecutiveExtrema.period self) 0
            then match delta with
                 | Some d =>
                     Ok (ConsecutiveExtrema.set_period
                           (d / ConsecutiveExtrema.lengthofday self)%Q self)
                 | None => Raise TypeError
                 end
            else Ok self) as [self1|e]; cbn [rbind] in H; [|discriminate].
  rewrite Hpre in H. cbn [rbind] in H. unfold getitem in H.
  rewrite Hin in H. cbn [rbind] in H.
  destruct (DerivedVariable.tmpdata (ConsecutiveExtrema.base self))
    as [key|]; cbn [rbind] in H; [|discriminate].
  destruct (match tmp1 !! key with
            | Some (TCount c) => Ok c
            | Some _ => Raise TypeError
            | None => Ok (replicate (width data) 0)
            end) as [xcnt|e]; cbn [rbind] in H; [|discriminate].
  destruct (ConsecutiveExtrema.march self1
              (xcnt, replicate (width data) 0%Q) data)
    as [[xcnt' maxdata]|e]; cbn [rbind] in H; [|discriminate].
  destruct (DerivedVariable.ignoreNaN (ConsecutiveExtrema.base self)).
  - injection H as <- _ _. eexists _, _. split; [reflexivity|]. split.
    + unfold ConsecutiveExtrema.any_nan.
      assert (Hw : width data = m).
      { destruct Hrect as [Hl Hm]. destruct data as [|r0 data];
          [simpl in Hl; lia|]. inversion Hm; subst. reflexivity. }
      rewrite Hw. destruct Hrect as [_ Hm]. clear -Hm.
      assert (Hg : forall init : list bool,
                 length init = m ->
                 length (foldl (zip_with (fun (b : bool) x => b || isnan x))
                           init data) = m).
      { induction Hm as [|s data Hs _ IH]; intros init Hi; [exact Hi|].
        cbn [foldl]. apply IH. rewrite length_zip_with. lia. }
      apply Hg. apply length_replicate.
    + intros j Hj. apply (any_nan_lookup n m); assumption.
  - injection H as <- _ _. eexists. reflexivity.
Qed.

Lemma ConsecutiveExtrema_masks_missing_points_witness :
  exists self r self' tmp',
    ConsecutiveExtrema.__init__ t2_var "above" 298 "298" None None None true
    = Ok self
    /\ ConsecutiveExtrema.computeValues (V:=unit)
         (ConsecutiveExtrema_checked self)
         {[ "T2"%string := [[Num 300; Num 300]; [Num 301; NaN]] ]} daily None
         (Some ∅)
       = Ok (r, self', tmp')
    /\ exists a mask,
         r = MaskedArray a mask
         /\ mask !! 0%nat = Some false /\ mask !! 1%nat = Some true.
Proof.
  destruct (ConsecutiveExtrema.__init__ t2_var "above" 298 "298" None None
              None true) as [self|e] eqn:Hinit;
    [|vm_compute in Hinit; discriminate].
  destruct (ConsecutiveExtrema.computeValues (V:=unit)
              (ConsecutiveExtrema_checked self)
              {[ "T2"%string := [[Num 300; Num 300]; [Num 301; NaN]] ]} daily
              None (Some ∅)) as [[[r self'] tmp']|e] eqn:Hrun.
  2:{ vm_compute in Hinit. injection Hinit as <-. vm_compute in Hrun.
      discriminate. }
  exists self, r, self', tmp'. split; [reflexivity|]. split; [exact Hrun|].
  assert (Hfacts :
            DerivedVariable.prerequisites
              (ConsecutiveExtrema.base (ConsecutiveExtrema_checked self))
            = ["T2"%string]
            /\ DerivedVariable.ignoreNaN
                 (ConsecutiveExtrema.base (ConsecutiveExtrema_checked self))
               = true).
  { vm_compute in Hinit. injection Hinit as <-. split; reflexivity. }
  destruct Hfacts as [Hpre Hign].
  pose proof (ConsecutiveExtrema_masks_missing_points unit _ _ "T2" [] _
                [[Num 300; Num 300]; [Num 301; NaN]] 2 2 _ _ _ _ _
                Hrun Hpre) as H.
  rewrite Hign in H.
  destruct H as (a & mask & Hr & _ & Hmask).
  - reflexivity.
  - split; [reflexivity|]. repeat constructor.
  - lia.
  - exists a, mask. split; [exact Hr|]. split.
    + apply (Hmask 0%nat). lia.
    + apply (Hmask 1%nat). lia.
Defined.

(** ** The aggregation of extrema in either order *)

Lemma Qle_bool_false_lt (a b : Q) : Qle_bool a b = false -> (b < a)%Q.
Proof.
  intros H. apply Qnot_le_lt. rewrite <- Qle_bool_iff. congruence.
Qed.

Lemma qmax_swap (a x y : Q) : (qmax (qmax a x) y == qmax (qmax a y) x)%Q.
Proof.
  unfold qmax.
  destruct (Qle_bool a x) eqn:E1, (Qle_bool a y) eqn:E2;
    destruct (Qle_bool x y) eqn:E3, (Qle_bool y x) eqn:E4;
    rewrite ?E1, ?E2, ?E3, ?E4;
    repeat match goal with
           | H : Qle_bool _ _ = true |- _ => apply Qle_bool_iff in H
           | H : Qle_bool _ _ = false |- _ => apply Qle_bool_false_lt in H
           end; lra.
Qed.

Lemma qmin_swap (a x y : Q) : (qmin (qmin a x) y == qmin (qmin a y) x)%Q.
Proof.
  unfold qmin.
  destruct (Qle_bool a x) eqn:E1, (Qle_bool a y) eqn:E2;
    destruct (Qle_bool x y) eqn:E3, (Qle_bool y x) eqn:E4;
    rewrite ?E1, ?E2, ?E3, ?E4;
    repeat match goal with
           | H : Qle_bool _ _ = true |- _ => apply Qle_bool_iff in H
           | H : Qle_bool _ _ = false |- _ => apply Qle_bool_false_lt in H
           end; lra.
Qed.

Lemma qmax_comm_eq (x y : Q) : (qmax x y == qmax y x)%Q.
Proof.
  unfold qmax.
  destruct (Qle_bool x y) eqn:E3, (Qle_bool y x) eqn:E4;
    repeat match goal with
           | H : Qle_bool _ _ = true |- _ => apply Qle_bool_iff in H
           | H : Qle_bool _ _ = false |- _ => apply Qle_bool_false_lt in H
           end; lra.
Qed.

Lemma qmin_comm_eq (x y : Q) : (qmin x y == qmin y x)%Q.
Proof.
  unfold qmin.
  destruct (Qle_bool x y) eqn:E3, (Qle_bool y x) eqn:E4;
    repeat match goal with
           | H : Qle_bool _ _ = true |- _ => apply Qle_bool_iff in H
           | H : Qle_bool _ _ = false |- _ => apply Qle_bool_false_lt in H
           end; lra.
Qed.

Lemma extremum_swap (md : exmode) (ign : bool) (a x y : num) :
  let f := match md with
           | MaxMode => if ign then np_fmax else np_maximum
           | MinMode => if ign then np_fmin else np_minimum
           end in
  num_eq (f (f a x) y) (f (f a y) x).
Proof.
  destruct md, ign; destruct a, x, y; simpl; auto;
    try reflexivity;
    try apply qmax_swap; try apply qmin_swap;
    try apply qmax_comm_eq; try apply qmin_comm_eq.
Qed.

Lemma zip_with_swap (f : num -> num -> num) (a c1 c2 : field) :
  (forall a x y, num_eq (f (f a x) y) (f (f a y) x)) ->
  length c1 = length a -> length c2 = length a ->
  Forall2 num_eq (zip_with f (zip_with f a c1) c2)
                 (zip_with f (zip_with f a c2) c1).
Proof.
  intros Hf. revert c1 c2.
  induction a as [|x a IH]; intros [|y c1] [|z c2] H1 H2; simpl in *;
    try discriminate; constructor.
  - apply Hf.
  - apply IH; lia.
Qed.

(** X26. The accumulated extremum does not depend on the order in which
    the results of two chunks are aggregated: onto an accumulator of the
    same (non-empty) grid, aggregating the first result and then the second
    gives, at every grid point, the same value as aggregating them the
    other way round, for maxima and minima, with and without ignoreNaN. *)
Theorem Extrema_aggregate_in_either_order
    (e : Extrema.t) (a c1 c2 : field) :
  DerivedVariable.normalize (Extrema.base e) = false ->
  (0 < length a)%nat ->
  length c1 = length a -> length c2 = length a ->
  exists r12 r21,
    (x <-- Extrema.aggregateValues e (Some c1) (Some a) ;;
     Extrema.aggregateValues e (Some c2) x) = Ok (Some r12)
    /\ (x <-- Extrema.aggregateValues e (Some c2) (Some a) ;;
        Extrema.aggregateValues e (Some c1) x) = Ok (Some r21)
    /\ Forall2 num_eq r12 r21.
Proof.
  intros Hnorm Ha H1 H2.
  unfold Extrema.aggregateValues. rewrite Hnorm.
  assert (P1 : (0 <? length c1)%nat = true) by (apply Nat.ltb_lt; lia).
  assert (P2 : (0 <? length c2)%nat = true) by (apply Nat.ltb_lt; lia).
  rewrite P1, P2.
  pose proof (extremum_swap (Extrema.mode e)
                (DerivedVariable.ignoreNaN (Extrema.base e))) as Hswap.
  destruct (Extrema.mode e), (DerivedVariable.ignoreNaN (Extrema.base e));
    cbn zeta in Hswap;
    rewrite !(ewise_same_length _ a) by lia; cbn [rbind];
    rewrite !ewise_same_length by (rewrite length_zip_with; lia);
    cbn [rbind]; eexists _, _;
    (split; [reflexivity|]); (split; [reflexivity|]);
    apply zip_with_swap; assumption.
Qed.

Lemma Extrema_aggregate_in_either_order_witness :
  exists self r12 r21,
    max_t2_5d = Ok self
    /\ (x <-- Extrema.aggregateValues (MeanExtrema.ext self)
                (Some [Num 4; Num 9]) (Some [Num 7; Num 7]) ;;
        Extrema.aggregateValues (MeanExtrema.ext self) (Some [Num 8; Num 1]) x)
       = Ok (Some r12)
    /\ (x <-- Extrema.aggregateValues (MeanExtrema.ext self)
                (Some [Num 8; Num 1]) (Some [Num 7; Num 7]) ;;
        Extrema.aggregateValues (MeanExtrema.ext self) (Some [Num 4; Num 9]) x)
       = Ok (Some r21)
    /\ Forall2 num_eq r12 r21.
Proof.
  destruct max_t2_5d as [self|x] eqn:He; [|vm_compute in He; discriminate].
  destruct (Extrema_aggregate_in_either_order (MeanExtrema.ext self)
              [Num 7; Num 7] [Num 4; Num 9] [Num 8; Num 1])
    as (r12 & r21 & H12 & H21 & Heq).
  - eapply MeanExtrema_init_normalize. exact He.
  - simpl. lia.
  - reflexivity.
  - reflexivity.
  - exists self, r12, r21. auto.
Defined.
